(** * FactoryLink: manufacturer data table and mock authentication store

    A shallow embedding of the data pipeline of
    [ManufacturerDataTable] (filter, sort, page, select, export to CSV)
    and of the authentication store of [src/store/authStore.ts]
    (lockout, registration, deleted accounts), with the properties the
    specification states about them.

    Conventions of the embedding:
    - a JavaScript string is a [string] of 8-bit code units (the Latin-1
      range of UTF-16, on which comparison and case mapping below are the
      ECMAScript ones);
    - a JavaScript number is a canonical rational [Qc] when it is finite,
      or one of the infinities, or NaN, which every comparison answers
      with [false]; [undefined] is [None], and a comparison with
      [undefined] is [false] (it goes through NaN);
    - a [Date] is its time value in milliseconds, a [Z];
    - a JavaScript [Set<string>] used for membership only is a [gset string];
    - the clock, the user agent and the random token a call reads are given
      to it as an environment; a call stamps what it writes with one
      reading of the clock, and the lockout check has readings of its
      own, one for each time it looks at the clock. *)

From Stdlib Require Import ZArith QArith Qcanon List String Ascii Bool Lia.
From Stdlib Require Import Permutation Sorted DecimalString Lqa.
From stdpp Require Import base gmap strings.
Import ListNotations.

Local Open Scope Z_scope.

(** ** JavaScript strings *)

Module JSString.

Definition code (c : ascii) : N := N_of_ascii c.

(** [String.prototype.toLowerCase] on one code unit below 256: the
    letters A-Z and the Latin-1 capitals (all of C0-DE but the
    multiplication sign D7) move up by 32. *)
Definition lowerChar (c : ascii) : ascii :=
  let n := code c in
  if ((65 <=? n) && (n <=? 90))%N then ascii_of_N (n + 32)
  else if ((192 <=? n) && (n <=? 222) && negb (n =? 215))%N
       then ascii_of_N (n + 32)
  else c.

Fixpoint toLowerCase (s : string) : string :=
  match s with
  | EmptyString => EmptyString
  | String c s' => String (lowerChar c) (toLowerCase s')
  end.

(** [t] stands at the start of [s]. *)
Fixpoint startsWith (s t : string) {struct t} : bool :=
  match t, s with
  | EmptyString, _ => true
  | String c t', String d s' => Ascii.eqb c d && startsWith s' t'
  | String _ _, EmptyString => false
  end.

(** [s.includes(t)]: [t] occurs in [s] at some position. *)
Fixpoint includes (s t : string) : bool :=
  startsWith s t ||
  match s with
  | EmptyString => false
  | String _ s' => includes s' t
  end.

(** [Array.prototype.join] on an array of strings. *)
Fixpoint join (sep : string) (l : list string) : string :=
  match l with
  | [] => EmptyString
  | [x] => x
  | x :: rest => String.append x (String.append sep (join sep rest))
  end.

(** The double-quote character, code unit 34. *)
Definition dquote : ascii := ascii_of_N 34.

(** [cell.replace] with the global pattern matching one double quote
    and a replacement of two: every double quote is doubled. *)
Fixpoint doubleQuotes (s : string) : string :=
  match s with
  | EmptyString => EmptyString
  | String c s' =>
      if Ascii.eqb c dquote
      then String dquote (String dquote (doubleQuotes s'))
      else String c (doubleQuotes s')
  end.

(** Decimal rendering of an integer, as a template literal does. *)
Definition ofZ (z : Z) : string := NilZero.string_of_int (Z.to_int z).

(** The substring relation the text speaks of. *)
Definition isSubstringOf (t s : string) : Prop :=
  exists a b, s = String.append a (String.append t b).

End JSString.

(** ** Completions: a JavaScript evaluation returns or throws *)

Inductive JSError : Type :=
| TypeError
| Error (message : string).

Inductive completion (A : Type) : Type :=
| Normal (a : A)
| Throw (e : JSError).
Arguments Normal {A} a.
Arguments Throw {A} e.

#[global] Instance completion_ret : MRet completion := fun A a => Normal a.

#[global] Instance completion_bind : MBind completion :=
  fun A B (k : A -> completion B) (c : completion A) =>
    match c with
    | Normal a => k a
    | Throw e => Throw e
    end.

(** ** Numbers

    A JavaScript number is a finite value, one of the two infinities, or
    NaN. Every finite double is a rational, and two doubles compare as
    their rationals do; the model admits every rational. Negative zero is
    the finite value 0, which it equals under every comparison. *)

Inductive number : Type :=
| Finite (q : Qc)
| PosInfinity
| NegInfinity
| NaN.

Definition ofQ (q : Q) : number := Finite (Q2Qc q).
Definition ofInt (z : Z) : number := ofQ (inject_Z z).

Definition isNaN (x : number) : bool :=
  match x with NaN => true | _ => false end.

(** [x < y]: false as soon as one side is NaN. *)
Definition ltb (x y : number) : bool :=
  match x, y with
  | Finite a, Finite b => match (a ?= b)%Qc with Lt => true | _ => false end
  | Finite _, PosInfinity => true
  | NegInfinity, Finite _ => true
  | NegInfinity, PosInfinity => true
  | _, _ => false
  end.

(** [x - y]. The difference of two finite values is taken exactly: the
    table subtracts a founding year from the calendar year, and a
    difference of two doubles within a factor two of each other is exact
    in double arithmetic. *)
Definition sub (x y : number) : number :=
  match x, y with
  | NaN, _ | _, NaN => NaN
  | Finite a, Finite b => Finite (a - b)%Qc
  | PosInfinity, PosInfinity | NegInfinity, NegInfinity => NaN
  | PosInfinity, _ => PosInfinity
  | NegInfinity, _ => NegInfinity
  | Finite _, PosInfinity => NegInfinity
  | Finite _, NegInfinity => PosInfinity
  end.

(** A value read from a property that may be missing. In a comparison
    [undefined] is converted to NaN, so the comparison is [false]. *)
Definition jsnum : Type := option number.

Definition jsLt (a : jsnum) (b : number) : bool :=
  match a with Some x => ltb x b | None => false end.
Definition jsGt (a : jsnum) (b : number) : bool :=
  match a with Some x => ltb b x | None => false end.
(** [a <= b] is [b < a] negated unless one side is NaN. *)
Definition jsLe (a : jsnum) (b : number) : bool :=
  match a with
  | Some x => negb (isNaN x) && negb (isNaN b) && negb (ltb b x)
  | None => false
  end.
Definition jsGe (a : jsnum) (b : number) : bool :=
  match a with
  | Some x => negb (isNaN x) && negb (isNaN b) && negb (ltb x b)
  | None => false
  end.
(** [c - a] for a number [c]; the difference with [undefined] is NaN. *)
Definition jsSubFrom (c : number) (a : jsnum) : jsnum :=
  match a with Some x => Some (sub c x) | None => Some NaN end.

(** ** The data model of the table *)

Module Manufacturer.
(** The attributes of [interface Manufacturer] that the table reads. *)
Record t : Type := mk {
  id : string;
  name : string;
  city : string;
  state : string;
  yearEstablished : number;
  numberOfEmployees : number;
  annualRevenue : number;
  industryKeywords : string;
  primaryApplications : string;
  capabilities : list string;
  materials : list string;
  certifications : list string;
  moq : number;
  leadTimeDays : number;
  diversityFlag : bool;
  sustainabilityScore : number;
  rating : number;
  currentCapacity : number
}.
End Manufacturer.

Module Obj.
(** The same record as the running code sees it: an object any of whose
    properties may be [undefined]. *)
Record t : Type := mk {
  id : option string;
  name : option string;
  city : option string;
  state : option string;
  yearEstablished : jsnum;
  numberOfEmployees : jsnum;
  annualRevenue : jsnum;
  industryKeywords : option string;
  primaryApplications : option string;
  capabilities : option (list string);
  materials : option (list string);
  certifications : option (list string);
  moq : jsnum;
  leadTimeDays : jsnum;
  diversityFlag : option bool;
  sustainabilityScore : jsnum;
  rating : jsnum;
  currentCapacity : jsnum
}.
End Obj.

(** A well-typed record, seen as an object. *)
Definition ofManufacturer (m : Manufacturer.t) : Obj.t :=
  {| Obj.id := Some (Manufacturer.id m);
     Obj.name := Some (Manufacturer.name m);
     Obj.city := Some (Manufacturer.city m);
     Obj.state := Some (Manufacturer.state m);
     Obj.yearEstablished := Some (Manufacturer.yearEstablished m);
     Obj.numberOfEmployees := Some (Manufacturer.numberOfEmployees m);
     Obj.annualRevenue := Some (Manufacturer.annualRevenue m);
     Obj.industryKeywords := Some (Manufacturer.industryKeywords m);
     Obj.primaryApplications := Some (Manufacturer.primaryApplications m);
     Obj.capabilities := Some (Manufacturer.capabilities m);
     Obj.materials := Some (Manufacturer.materials m);
     Obj.certifications := Some (Manufacturer.certifications m);
     Obj.moq := Some (Manufacturer.moq m);
     Obj.leadTimeDays := Some (Manufacturer.leadTimeDays m);
     Obj.diversityFlag := Some (Manufacturer.diversityFlag m);
     Obj.sustainabilityScore := Some (Manufacturer.sustainabilityScore m);
     Obj.rating := Some (Manufacturer.rating m);
     Obj.currentCapacity := Some (Manufacturer.currentCapacity m) |}.

Module FilterState.
Record t : Type := mk {
  search : string;
  capabilities : list string;
  materials : list string;
  certifications : list string;
  states : list string;
  employeeRange : string;
  revenueRange : string;
  capacityRange : string;
  ratingRange : string;
  diversityFlag : option bool;
  sustainabilityMin : number;
  yearEstablishedRange : string
}.
End FilterState.

(** The initial value of [filters], which [clearAllFilters] restores. *)
Definition defaultFilters : FilterState.t :=
  {| FilterState.search := "";
     FilterState.capabilities := [];
     FilterState.materials := [];
     FilterState.certifications := [];
     FilterState.states := [];
     FilterState.employeeRange := "all";
     FilterState.revenueRange := "all";
     FilterState.capacityRange := "all";
     FilterState.ratingRange := "all";
     FilterState.diversityFlag := None;
     FilterState.sustainabilityMin := ofInt 0;
     FilterState.yearEstablishedRange := "all" |}.

(** ** The filter callback of [filteredAndSortedData]

    Each block of the callback is a guard: [Normal true] falls through to
    the next block, [Normal false] is the block's [return false], and
    [Throw] is an exception raised while the block runs. *)

(** An [undefined] element of an array is joined as the empty string. *)
Definition elemText (a : option string) : string :=
  match a with Some s => s | None => EmptyString end.

(** Spreading [undefined] into an array literal, or calling a method on
    it, raises a TypeError. *)
Definition spread {A : Type} (a : option (list A)) : completion (list A) :=
  match a with Some l => Normal l | None => Throw TypeError end.

Definition strIn (x : string) (l : list string) : bool :=
  existsb (String.eqb x) l.

(** [arr.includes(x)] where [arr] may be [undefined]. *)
Definition arrIncludes (arr : option (list string)) (x : string)
  : completion bool :=
  l ← spread arr; mret (strIn x l).

(** [sel.some(callback)]. *)
Fixpoint some (p : string -> completion bool) (sel : list string)
  : completion bool :=
  match sel with
  | [] => Normal false
  | x :: rest => b ← p x; if (b : bool) then Normal true else some p rest
  end.

Definition eqLit (r lit : string) : bool := String.eqb r lit.

(** The array literal of the search block, joined with one space and
    lower-cased. *)
Definition searchableText (o : Obj.t) : completion string :=
  caps ← spread (Obj.capabilities o);
  mats ← spread (Obj.materials o);
  mret (JSString.toLowerCase (JSString.join " "
    ([ elemText (Obj.name o);
       elemText (Obj.city o);
       elemText (Obj.state o);
       elemText (Obj.industryKeywords o);
       elemText (Obj.primaryApplications o) ] ++ caps ++ mats))).

Definition searchGuard (f : FilterState.t) (o : Obj.t) : completion bool :=
  if eqLit (FilterState.search f) "" then Normal true
  else
    let searchTerm := JSString.toLowerCase (FilterState.search f) in
    text ← searchableText o;
    mret (JSString.includes text searchTerm).

(** The three multi-select blocks over an array attribute. *)
Definition arrayGuard (sel : list string) (attr : option (list string))
  : completion bool :=
  match sel with
  | [] => Normal true
  | _ => some (fun x => arrIncludes attr x) sel
  end.

Definition capabilitiesGuard (f : FilterState.t) (o : Obj.t) :=
  arrayGuard (FilterState.capabilities f) (Obj.capabilities o).
Definition materialsGuard (f : FilterState.t) (o : Obj.t) :=
  arrayGuard (FilterState.materials f) (Obj.materials o).
Definition certificationsGuard (f : FilterState.t) (o : Obj.t) :=
  arrayGuard (FilterState.certifications f) (Obj.certifications o).

(** [filters.states.includes(manufacturer.state)]: [undefined] is in no
    array of strings. *)
Definition statesGuard (f : FilterState.t) (o : Obj.t) : bool :=
  match FilterState.states f with
  | [] => true
  | sel => match Obj.state o with
           | Some s => strIn s sel
           | None => false
           end
  end.

Definition employeeGuard (f : FilterState.t) (o : Obj.t) : bool :=
  let r := FilterState.employeeRange f in
  if eqLit r "all" then true else
  let empCount := Obj.numberOfEmployees o in
  if eqLit r "1-25" then
    negb (jsLt empCount (ofInt 1) || jsGt empCount (ofInt 25))
  else if eqLit r "26-50" then
    negb (jsLt empCount (ofInt 26) || jsGt empCount (ofInt 50))
  else if eqLit r "51-100" then
    negb (jsLt empCount (ofInt 51) || jsGt empCount (ofInt 100))
  else if eqLit r "101-250" then
    negb (jsLt empCount (ofInt 101) || jsGt empCount (ofInt 250))
  else if eqLit r "251-500" then
    negb (jsLt empCount (ofInt 251) || jsGt empCount (ofInt 500))
  else if eqLit r "500+" then negb (jsLt empCount (ofInt 500))
  else true.

Definition revenueGuard (f : FilterState.t) (o : Obj.t) : bool :=
  let r := FilterState.revenueRange f in
  if eqLit r "all" then true else
  let revenue := Obj.annualRevenue o in
  if eqLit r "0-1M" then negb (jsGe revenue (ofInt 1000000))
  else if eqLit r "1M-10M" then
    negb (jsLt revenue (ofInt 1000000) || jsGe revenue (ofInt 10000000))
  else if eqLit r "10M-50M" then
    negb (jsLt revenue (ofInt 10000000) || jsGe revenue (ofInt 50000000))
  else if eqLit r "50M-100M" then
    negb (jsLt revenue (ofInt 50000000) || jsGe revenue (ofInt 100000000))
  else if eqLit r "100M+" then negb (jsLt revenue (ofInt 100000000))
  else true.

Definition capacityGuard (f : FilterState.t) (o : Obj.t) : bool :=
  let r := FilterState.capacityRange f in
  if eqLit r "all" then true else
  let capacity := Obj.currentCapacity o in
  if eqLit r "low" then negb (jsGe capacity (ofInt 50))
  else if eqLit r "medium" then
    negb (jsLt capacity (ofInt 50) || jsGe capacity (ofInt 80))
  else if eqLit r "high" then negb (jsLt capacity (ofInt 80))
  else true.

Definition ratingGuard (f : FilterState.t) (o : Obj.t) : bool :=
  let r := FilterState.ratingRange f in
  if eqLit r "all" then true else
  let rating := Obj.rating o in
  if eqLit r "4.5+" then negb (jsLt rating (ofQ (9 # 2)))
  else if eqLit r "4.0+" then negb (jsLt rating (ofInt 4))
  else if eqLit r "3.5+" then negb (jsLt rating (ofQ (7 # 2)))
  else true.

(** [manufacturer.diversityFlag !== filters.diversityFlag]: [undefined]
    differs from both booleans. *)
Definition diversityGuard (f : FilterState.t) (o : Obj.t) : bool :=
  match FilterState.diversityFlag f with
  | None => true
  | Some want => match Obj.diversityFlag o with
                 | Some have => Bool.eqb have want
                 | None => false
                 end
  end.

Definition sustainabilityGuard (f : FilterState.t) (o : Obj.t) : bool :=
  if ltb (ofInt 0) (FilterState.sustainabilityMin f)
  then negb (jsLt (Obj.sustainabilityScore o) (FilterState.sustainabilityMin f))
  else true.

(** [currentYear] is [new Date().getFullYear()]. *)
Definition yearGuard (currentYear : number) (f : FilterState.t) (o : Obj.t)
  : bool :=
  let r := FilterState.yearEstablishedRange f in
  if eqLit r "all" then true else
  let age := jsSubFrom currentYear (Obj.yearEstablished o) in
  if eqLit r "0-5" then negb (jsGt age (ofInt 5))
  else if eqLit r "6-15" then negb (jsLe age (ofInt 5) || jsGt age (ofInt 15))
  else if eqLit r "16-30" then negb (jsLe age (ofInt 15) || jsGt age (ofInt 30))
  else if eqLit r "30+" then negb (jsLe age (ofInt 30))
  else true.

(** Run the next block only when the one before fell through. *)
Definition andThen (g h : completion bool) : completion bool :=
  b ← g; if (b : bool) then h else Normal false.

Definition filterCallback (currentYear : number) (f : FilterState.t)
  (o : Obj.t) : completion bool :=
  andThen (searchGuard f o)
  (andThen (capabilitiesGuard f o)
  (andThen (materialsGuard f o)
  (andThen (certificationsGuard f o)
  (Normal (statesGuard f o && employeeGuard f o && revenueGuard f o
           && capacityGuard f o && ratingGuard f o && diversityGuard f o
           && sustainabilityGuard f o && yearGuard currentYear f o))))).

(** [Array.prototype.filter] with a callback that may throw. *)
Fixpoint arrayFilter {A : Type} (p : A -> completion bool) (l : list A)
  : completion (list A) :=
  match l with
  | [] => Normal []
  | x :: rest =>
      b ← p x;
      kept ← arrayFilter p rest;
      mret (if (b : bool) then x :: kept else kept)
  end.

(** The filter stage on whatever objects the store holds. *)
Definition filterPipeline (currentYear : number) (f : FilterState.t)
  (objs : list Obj.t) : completion (list Obj.t) :=
  arrayFilter (filterCallback currentYear f) objs.

(** The callback on a well-typed record; it returns ([filterCallback_typed]
    below), so the [Throw] branch is never taken. *)
Definition passes (currentYear : number) (f : FilterState.t)
  (m : Manufacturer.t) : bool :=
  match filterCallback currentYear f (ofManufacturer m) with
  | Normal b => b
  | Throw _ => false
  end.

Definition filtered (currentYear : number) (f : FilterState.t)
  (manufacturers : list Manufacturer.t) : list Manufacturer.t :=
  List.filter (passes currentYear f) manufacturers.

(** ** The sort stage *)

Inductive Direction : Type := asc | desc.

(** The columns the table header offers to [handleSort]. *)
Inductive SortKey : Type :=
| by_name
| by_state
| by_numberOfEmployees
| by_annualRevenue
| by_rating
| by_currentCapacity.

Module SortConfig.
Record t : Type := mk { key : option SortKey; direction : Direction }.
End SortConfig.

(** [<] on two strings compares code units. *)
Definition strLt (s t : string) : bool :=
  match String.compare s t with Lt => true | _ => false end.

(** [a[key] < b[key]]: both values have the type of the column. *)
Definition less (k : SortKey) (a b : Manufacturer.t) : bool :=
  match k with
  | by_name => strLt (Manufacturer.name a) (Manufacturer.name b)
  | by_state => strLt (Manufacturer.state a) (Manufacturer.state b)
  | by_numberOfEmployees =>
      ltb (Manufacturer.numberOfEmployees a) (Manufacturer.numberOfEmployees b)
  | by_annualRevenue =>
      ltb (Manufacturer.annualRevenue a) (Manufacturer.annualRevenue b)
  | by_rating => ltb (Manufacturer.rating a) (Manufacturer.rating b)
  | by_currentCapacity =>
      ltb (Manufacturer.currentCapacity a) (Manufacturer.currentCapacity b)
  end.

(** The comparator handed to [filtered.sort]. *)
Definition compareFn (k : SortKey) (d : Direction) (a b : Manufacturer.t) : Z :=
  if less k a b then match d with asc => -1 | desc => 1 end
  else if less k b a then match d with asc => 1 | desc => -1 end
  else 0.

(** [Array.prototype.sort] is stable, and with a consistent comparator it
    returns the elements in the comparator's order; the stable insertion
    sort below computes that arrangement. The comparator of the table is
    consistent on a collection unless a value at the sort key is NaN
    beside two values that differ; the order is then left to the engine,
    and nothing is stated below about such a collection. *)
Fixpoint insert {A : Type} (cmp : A -> A -> Z) (x : A) (l : list A) : list A :=
  match l with
  | [] => [x]
  | y :: rest => if cmp x y <=? 0 then x :: l else y :: insert cmp x rest
  end.

Definition arraySort {A : Type} (cmp : A -> A -> Z) (l : list A) : list A :=
  fold_right (insert cmp) [] l.

Definition sorted (sc : SortConfig.t) (l : list Manufacturer.t)
  : list Manufacturer.t :=
  match SortConfig.key sc with
  | Some k => arraySort (compareFn k (SortConfig.direction sc)) l
  | None => l
  end.

Definition filteredAndSortedData (currentYear : number) (f : FilterState.t)
  (sc : SortConfig.t) (manufacturers : list Manufacturer.t)
  : list Manufacturer.t :=
  sorted sc (filtered currentYear f manufacturers).

(** ** The pager *)

(** [Array.prototype.slice(start, end)], with its relative indices. *)
Definition slice {A : Type} (l : list A) (start stop : Z) : list A :=
  let len := Z.of_nat (List.length l) in
  let k := if start <? 0 then Z.max (len + start) 0 else Z.min start len in
  let final := if stop <? 0 then Z.max (len + stop) 0 else Z.min stop len in
  firstn (Z.to_nat (final - k)) (skipn (Z.to_nat k) l).

(** [Math.ceil(n / k)] for a positive page size [k]. *)
Definition ceilDiv (n k : Z) : Z := - ((- n) / k).

Module PaginationConfig.
Record t : Type := mk {
  currentPage : Z;
  itemsPerPage : Z;
  totalItems : Z;
  totalPages : Z
}.
End PaginationConfig.

(** The slice [paginatedData] returns. *)
Definition page {A : Type} (data : list A) (currentPage itemsPerPage : Z)
  : list A :=
  let startIndex := (currentPage - 1) * itemsPerPage in
  let endIndex := startIndex + itemsPerPage in
  slice data startIndex endIndex.

Definition totalPagesOf {A : Type} (data : list A) (itemsPerPage : Z) : Z :=
  ceilDiv (Z.of_nat (List.length data)) itemsPerPage.

(** ** The component state and its handlers *)

Module Component.
Record t : Type := mk {
  isLoading : bool;
  error : option string;
  sidebarOpen : bool;
  selectedRows : gset string;
  sortConfig : SortConfig.t;
  filters : FilterState.t;
  pagination : PaginationConfig.t;
  collapsedSections : gset string
}.
End Component.

Definition initialComponent : Component.t :=
  {| Component.isLoading := false;
     Component.error := None;
     Component.sidebarOpen := true;
     Component.selectedRows := ∅;
     Component.sortConfig := SortConfig.mk None asc;
     Component.filters := defaultFilters;
     Component.pagination := PaginationConfig.mk 1 25 0 0;
     Component.collapsedSections := ∅ |}.

Definition setPagination (g : PaginationConfig.t -> PaginationConfig.t)
  (c : Component.t) : Component.t :=
  {| Component.isLoading := Component.isLoading c;
     Component.error := Component.error c;
     Component.sidebarOpen := Component.sidebarOpen c;
     Component.selectedRows := Component.selectedRows c;
     Component.sortConfig := Component.sortConfig c;
     Component.filters := Component.filters c;
     Component.pagination := g (Component.pagination c);
     Component.collapsedSections := Component.collapsedSections c |}.

Definition setFilters (g : FilterState.t -> FilterState.t)
  (c : Component.t) : Component.t :=
  {| Component.isLoading := Component.isLoading c;
     Component.error := Component.error c;
     Component.sidebarOpen := Component.sidebarOpen c;
     Component.selectedRows := Component.selectedRows c;
     Component.sortConfig := Component.sortConfig c;
     Component.filters := g (Component.filters c);
     Component.pagination := Component.pagination c;
     Component.collapsedSections := Component.collapsedSections c |}.

Definition setSortConfig (g : SortConfig.t -> SortConfig.t)
  (c : Component.t) : Component.t :=
  {| Component.isLoading := Component.isLoading c;
     Component.error := Component.error c;
     Component.sidebarOpen := Component.sidebarOpen c;
     Component.selectedRows := Component.selectedRows c;
     Component.sortConfig := g (Component.sortConfig c);
     Component.filters := Component.filters c;
     Component.pagination := Component.pagination c;
     Component.collapsedSections := Component.collapsedSections c |}.

Definition setSelectedRows (g : gset string -> gset string)
  (c : Component.t) : Component.t :=
  {| Component.isLoading := Component.isLoading c;
     Component.error := Component.error c;
     Component.sidebarOpen := Component.sidebarOpen c;
     Component.selectedRows := g (Component.selectedRows c);
     Component.sortConfig := Component.sortConfig c;
     Component.filters := Component.filters c;
     Component.pagination := Component.pagination c;
     Component.collapsedSections := Component.collapsedSections c |}.

Definition setLoadingError (loading : bool) (err : option string)
  (c : Component.t) : Component.t :=
  {| Component.isLoading := loading;
     Component.error := err;
     Component.sidebarOpen := Component.sidebarOpen c;
     Component.selectedRows := Component.selectedRows c;
     Component.sortConfig := Component.sortConfig c;
     Component.filters := Component.filters c;
     Component.pagination := Component.pagination c;
     Component.collapsedSections := Component.collapsedSections c |}.

Definition withCurrentPage (p : Z) (prev : PaginationConfig.t)
  : PaginationConfig.t :=
  PaginationConfig.mk p (PaginationConfig.itemsPerPage prev)
    (PaginationConfig.totalItems prev) (PaginationConfig.totalPages prev).

(** A call [updateFilter(key, value)], one constructor per key. *)
Inductive FilterUpdate : Type :=
| set_search (v : string)
| set_capabilities (v : list string)
| set_materials (v : list string)
| set_certifications (v : list string)
| set_states (v : list string)
| set_employeeRange (v : string)
| set_revenueRange (v : string)
| set_capacityRange (v : string)
| set_ratingRange (v : string)
| set_diversityFlag (v : option bool)
| set_sustainabilityMin (v : number)
| set_yearEstablishedRange (v : string).

Definition assign (u : FilterUpdate) (prev : FilterState.t) : FilterState.t :=
  let '(FilterState.mk s ca ma ce st em re cp ra di su ye) := prev in
  match u with
  | set_search v => FilterState.mk v ca ma ce st em re cp ra di su ye
  | set_capabilities v => FilterState.mk s v ma ce st em re cp ra di su ye
  | set_materials v => FilterState.mk s ca v ce st em re cp ra di su ye
  | set_certifications v => FilterState.mk s ca ma v st em re cp ra di su ye
  | set_states v => FilterState.mk s ca ma ce v em re cp ra di su ye
  | set_employeeRange v => FilterState.mk s ca ma ce st v re cp ra di su ye
  | set_revenueRange v => FilterState.mk s ca ma ce st em v cp ra di su ye
  | set_capacityRange v => FilterState.mk s ca ma ce st em re v ra di su ye
  | set_ratingRange v => FilterState.mk s ca ma ce st em re cp v di su ye
  | set_diversityFlag v => FilterState.mk s ca ma ce st em re cp ra v su ye
  | set_sustainabilityMin v => FilterState.mk s ca ma ce st em re cp ra di v ye
  | set_yearEstablishedRange v =>
      FilterState.mk s ca ma ce st em re cp ra di su v
  end.

Definition updateFilter (u : FilterUpdate) (c : Component.t) : Component.t :=
  setPagination (withCurrentPage 1) (setFilters (assign u) c).

(** The array-valued keys [toggleFilterArray] is called with. *)
Inductive ArrayKey : Type :=
| key_capabilities | key_materials | key_certifications | key_states.

Definition readArray (k : ArrayKey) (f : FilterState.t) : list string :=
  match k with
  | key_capabilities => FilterState.capabilities f
  | key_materials => FilterState.materials f
  | key_certifications => FilterState.certifications f
  | key_states => FilterState.states f
  end.

Definition writeArray (k : ArrayKey) (v : list string) : FilterUpdate :=
  match k with
  | key_capabilities => set_capabilities v
  | key_materials => set_materials v
  | key_certifications => set_certifications v
  | key_states => set_states v
  end.

Definition toggleFilterArray (k : ArrayKey) (value : string)
  (c : Component.t) : Component.t :=
  let toggle (prev : FilterState.t) :=
    let currentArray := readArray k prev in
    let newArray :=
      if strIn value currentArray
      then List.filter (fun item => negb (String.eqb item value)) currentArray
      else currentArray ++ [value] in
    assign (writeArray k newArray) prev in
  setPagination (withCurrentPage 1) (setFilters toggle c).

Definition clearAllFilters (c : Component.t) : Component.t :=
  setPagination (withCurrentPage 1) (setFilters (fun _ => defaultFilters) c).

Definition sortKeyEqb (a b : SortKey) : bool :=
  match a, b with
  | by_name, by_name | by_state, by_state
  | by_numberOfEmployees, by_numberOfEmployees
  | by_annualRevenue, by_annualRevenue
  | by_rating, by_rating | by_currentCapacity, by_currentCapacity => true
  | _, _ => false
  end.

Definition handleSort (k : SortKey) (c : Component.t) : Component.t :=
  setSortConfig (fun prev =>
    SortConfig.mk (Some k)
      match SortConfig.key prev, SortConfig.direction prev with
      | Some k', asc => if sortKeyEqb k' k then desc else asc
      | _, _ => asc
      end) c.

Definition toggleRowSelection (id : string) (c : Component.t) : Component.t :=
  setSelectedRows (fun prev =>
    if bool_decide (id ∈ prev) then prev ∖ {[ id ]} else prev ∪ {[ id ]}) c.

(** The page-size select and the three kinds of page buttons. *)
Definition changeItemsPerPage (n : Z) (c : Component.t) : Component.t :=
  setPagination (fun prev =>
    PaginationConfig.mk 1 n (PaginationConfig.totalItems prev)
      (PaginationConfig.totalPages prev)) c.

Definition previousPage (c : Component.t) : Component.t :=
  setPagination (fun prev =>
    withCurrentPage (PaginationConfig.currentPage prev - 1) prev) c.

Definition nextPage (c : Component.t) : Component.t :=
  setPagination (fun prev =>
    withCurrentPage (PaginationConfig.currentPage prev + 1) prev) c.

Definition selectPage (pageNum : Z) (c : Component.t) : Component.t :=
  setPagination (withCurrentPage pageNum) c.

(** What the store provides while the component is mounted. *)
Module Props.
Record t : Type := mk {
  manufacturers : list Manufacturer.t;
  currentYear : number
}.
End Props.

Definition tableData (p : Props.t) (c : Component.t) : list Manufacturer.t :=
  filteredAndSortedData (Props.currentYear p) (Component.filters c)
    (Component.sortConfig c) (Props.manufacturers p).

Definition paginatedData (p : Props.t) (c : Component.t)
  : list Manufacturer.t :=
  page (tableData p c)
    (PaginationConfig.currentPage (Component.pagination c))
    (PaginationConfig.itemsPerPage (Component.pagination c)).

(** Rendering recomputes [paginatedData], whose memo stores the totals. *)
Definition render (p : Props.t) (c : Component.t) : Component.t :=
  setPagination (fun prev =>
    PaginationConfig.mk (PaginationConfig.currentPage prev)
      (PaginationConfig.itemsPerPage prev)
      (Z.of_nat (List.length (tableData p c)))
      (totalPagesOf (tableData p c) (PaginationConfig.itemsPerPage prev))) c.

(** The user actions that touch filters or pagination. *)
Inductive Action : Type :=
| UpdateFilter (u : FilterUpdate)
| ToggleFilterArray (k : ArrayKey) (value : string)
| ClearAllFilters
| ChangeItemsPerPage (n : Z)
| PreviousPage
| NextPage
| SelectPage (pageNum : Z).

(** Which controls the rendered component offers: the page-size select
    has four options, the previous and next buttons carry a [disabled]
    attribute, and there is one button for each of the first
    [min(5, totalPages)] pages. *)
Definition offered (a : Action) (c : Component.t) : bool :=
  let pg := Component.pagination c in
  match a with
  | UpdateFilter _ | ToggleFilterArray _ _ | ClearAllFilters => true
  | ChangeItemsPerPage n =>
      (n =? 10) || (n =? 25) || (n =? 50) || (n =? 100)
  | PreviousPage => negb (PaginationConfig.currentPage pg =? 1)
  | NextPage =>
      negb (PaginationConfig.currentPage pg =? PaginationConfig.totalPages pg)
  | SelectPage n =>
      (1 <=? n) && (n <=? Z.min 5 (PaginationConfig.totalPages pg))
  end.

Definition handle (a : Action) (c : Component.t) : Component.t :=
  match a with
  | UpdateFilter u => updateFilter u c
  | ToggleFilterArray k v => toggleFilterArray k v c
  | ClearAllFilters => clearAllFilters c
  | ChangeItemsPerPage n => changeItemsPerPage n c
  | PreviousPage => previousPage c
  | NextPage => nextPage c
  | SelectPage n => selectPage n c
  end.

(** The states the mounted component goes through: the first render, then
    one handler and one render for each action taken on an offered
    control. *)
Inductive reachable (p : Props.t) : Component.t -> Prop :=
| reach_mount : reachable p (render p initialComponent)
| reach_action (a : Action) (c : Component.t) :
    reachable p c -> offered a c = true ->
    reachable p (render p (handle a c)).

(** The invariant of PaginationState. *)
Definition pageInvariant (c : Component.t) : Prop :=
  let pg := Component.pagination c in
  1 <= PaginationConfig.currentPage pg
  /\ PaginationConfig.currentPage pg <= Z.max 1 (PaginationConfig.totalPages pg)
  /\ PaginationConfig.totalPages pg =
       ceilDiv (PaginationConfig.totalItems pg) (PaginationConfig.itemsPerPage pg).

(** ** CSV export *)

Section CsvExport.

(** [String(n)] for a number [n]: ECMAScript's Number::toString. *)
Variable numberToString : number -> string.

(** A cell of a row is a string or a number. *)
Inductive Cell : Type :=
| CellString (s : string)
| CellNumber (n : number).

(** [String(cell)]. *)
Definition cellText (cell : Cell) : string :=
  match cell with
  | CellString s => s
  | CellNumber n => numberToString n
  end.

Definition headers : list string :=
  [ "Name"; "City"; "State"; "Industry"; "Employees"; "Revenue";
    "Rating"; "MOQ"; "Lead Time"; "Capacity"; "Sustainability";
    "Founded"; "Capabilities"; "Materials"; "Certifications" ].

Definition rowOf (m : Manufacturer.t) : list Cell :=
  [ CellString (Manufacturer.name m);
    CellString (Manufacturer.city m);
    CellString (Manufacturer.state m);
    CellString (Manufacturer.industryKeywords m);
    CellNumber (Manufacturer.numberOfEmployees m);
    CellNumber (Manufacturer.annualRevenue m);
    CellNumber (Manufacturer.rating m);
    CellNumber (Manufacturer.moq m);
    CellNumber (Manufacturer.leadTimeDays m);
    CellNumber (Manufacturer.currentCapacity m);
    CellNumber (Manufacturer.sustainabilityScore m);
    CellNumber (Manufacturer.yearEstablished m);
    CellString (JSString.join "; " (Manufacturer.capabilities m));
    CellString (JSString.join "; " (Manufacturer.materials m));
    CellString (JSString.join "; " (Manufacturer.certifications m)) ].

(** The template literal around one cell. *)
Definition quoteCell (text : string) : string :=
  String JSString.dquote
    (String.append (JSString.doubleQuotes text)
       (String JSString.dquote EmptyString)).

Definition newline : string := String (ascii_of_N 10) EmptyString.

(** The rows as text, before quoting: the header, then one row a record. *)
Definition tableText (data : list Manufacturer.t) : list (list string) :=
  headers :: map (fun m => map cellText (rowOf m)) data.

Definition generateCSV (data : list Manufacturer.t) : string :=
  JSString.join newline
    (map (fun row => JSString.join "," (map quoteCell row)) (tableText data)).

(** What [exportData] does to the page: toasts and the file download. *)
Inductive Effect : Type :=
| ToastError (message : string)
| ToastSuccess (message : string)
| Download (content filename : string).

(** [exportData]; [downloadThrows] says whether the DOM calls of
    [downloadCSV] raise. *)
Definition exportData (downloadThrows : bool)
  (manufacturers : list Manufacturer.t) (c : Component.t)
  : Component.t * list Effect :=
  if (size (Component.selectedRows c) =? 0)%nat
  then (c, [ToastError "Please select rows to export"])
  else
    let selectedData :=
      List.filter
        (fun m => bool_decide (Manufacturer.id m ∈ Component.selectedRows c))
        manufacturers in
    let csvContent := generateCSV selectedData in
    if downloadThrows
    then (setLoadingError false (Some "Export failed. Please try again.") c,
          [ToastError "Failed to export data"])
    else (setLoadingError false (Component.error c) c,
          [ Download csvContent "manufacturer-data.csv";
            ToastSuccess
              (String.append "Exported "
                 (String.append
                    (JSString.ofZ (Z.of_nat (List.length selectedData)))
                    " manufacturers")) ]).

End CsvExport.

(** ** A standard CSV reader

    The reader of RFC 4180, which the round-trip property is stated
    against: fields are separated by commas and records by line feeds; a
    field that opens with a double quote runs to the next double quote
    that is not doubled, and a doubled one stands for one double quote;
    a carriage return before a record separator is dropped. *)

Module Csv.

Inductive mode : Type :=
| FieldStart    (* nothing of the field read yet *)
| Unquoted      (* inside a bare field *)
| Quoted        (* inside a quoted field *)
| QuoteSeen.    (* a double quote read inside a quoted field *)

(** Finished records, finished fields of this record, text of this
    field; all three in reading order. *)
Record state : Type := mk {
  records : list (list string);
  fields : list string;
  field : string;
  st : mode
}.

Definition start : state := mk [] [] EmptyString FieldStart.

Definition push (s : string) (c : ascii) : string :=
  String.append s (String c EmptyString).

Definition endField (s : state) : state :=
  mk (records s) (fields s ++ [field s]) EmptyString FieldStart.

Definition endRecord (s : state) : state :=
  mk (records s ++ [fields s ++ [field s]]) [] EmptyString FieldStart.

Definition isComma (c : ascii) : bool := Ascii.eqb c ","%char.
Definition isLF (c : ascii) : bool := Ascii.eqb c (ascii_of_N 10).
Definition isCR (c : ascii) : bool := Ascii.eqb c (ascii_of_N 13).
Definition isQuote (c : ascii) : bool := Ascii.eqb c JSString.dquote.

Definition step (s : state) (c : ascii) : state :=
  match st s with
  | Quoted =>
      if isQuote c then mk (records s) (fields s) (field s) QuoteSeen
      else mk (records s) (fields s) (push (field s) c) Quoted
  | QuoteSeen =>
      if isQuote c then mk (records s) (fields s) (push (field s) c) Quoted
      else if isComma c then endField s
      else if isLF c then endRecord s
      else if isCR c then s
      else mk (records s) (fields s) (push (field s) c) Unquoted
  | FieldStart =>
      if isQuote c then mk (records s) (fields s) (field s) Quoted
      else if isComma c then endField s
      else if isLF c then endRecord s
      else if isCR c then s
      else mk (records s) (fields s) (push (field s) c) Unquoted
  | Unquoted =>
      if isComma c then endField s
      else if isLF c then endRecord s
      else if isCR c then s
      else mk (records s) (fields s) (push (field s) c) Unquoted
  end.

Fixpoint run (text : string) (s : state) : state :=
  match text with
  | EmptyString => s
  | String c rest => run rest (step s c)
  end.

(** At the end of the text the open record is closed, unless the text
    ended on a record separator. *)
Definition finish (s : state) : list (list string) :=
  match st s, fields s with
  | FieldStart, [] => records s
  | _, _ => records (endRecord s)
  end.

Definition parse (text : string) : list (list string) :=
  finish (run text start).

End Csv.

(** ** The authentication store ([src/store/authStore.ts]) *)

Inductive Role : Type := founder | procurement_manager.
Inductive Subscription : Type := freemium | pro.
Inductive UserStatus : Type :=
| active | suspended | deleted | pending_verification.
Inductive AuthAction : Type :=
| login_success | login_failed | registration_attempt
| password_reset | email_verification.
Inductive AuditAction : Type :=
| account_deleted | data_anonymized | reregistration_attempted | data_purged.

(** A value of a [metadata] record. *)
Inductive MetaValue : Type :=
| MetaString (s : string)
| MetaNumber (z : Z)
| MetaBool (b : bool).

Module User.
(** [interface User], without the preferences, which nothing below reads. *)
Record t : Type := mk {
  id : string;
  email : string;
  firstName : string;
  lastName : string;
  role : Role;
  company : option string;
  phone : option string;
  avatar : option string;
  createdAt : Z;
  subscription : Subscription;
  quotesUsed : Z;
  quotesLimit : Z;
  status : UserStatus;
  deletedAt : option Z;
  deletionReason : option string;
  emailVerified : bool;
  lastLoginAt : option Z;
  loginAttempts : Z
}.
End User.

Module AuthenticationLog.
Record t : Type := mk {
  id : string;
  email : string;
  action : AuthAction;
  reason : option string;
  ipAddress : string;
  userAgent : string;
  timestamp : Z;
  userId : option string;
  success : bool;
  metadata : list (string * MetaValue)
}.
End AuthenticationLog.

Module EmailVerification.
Record t : Type := mk {
  id : string;
  email : string;
  token : string;
  expiresAt : Z;
  createdAt : Z;
  verified : bool;
  verifiedAt : option Z;
  attempts : Z
}.
End EmailVerification.

Module DeletionAuditEntry.
Record t : Type := mk {
  id : string;
  timestamp : Z;
  action : AuditAction;
  performedBy : string;
  details : string;
  ipAddress : option string;
  userAgent : option string
}.
End DeletionAuditEntry.

Module DeletedAccount.
Record t : Type := mk {
  id : string;
  originalUserId : string;
  email : string;
  firstName : string;
  lastName : string;
  phone : option string;
  deletedAt : Z;
  deletionReason : string;
  deletedBy : string;
  ipAddress : option string;
  userAgent : option string;
  dataRetentionUntil : option Z;
  auditTrail : list DeletionAuditEntry.t
}.
End DeletedAccount.

Module RegistrationAttempt.
Record t : Type := mk {
  id : string;
  email : string;
  firstName : option string;
  lastName : option string;
  phone : option string;
  attemptedAt : Z;
  ipAddress : option string;
  userAgent : option string;
  blocked : bool;
  blockReason : option string;
  deletedAccountId : option string
}.
End RegistrationAttempt.

(** The argument of [register]. *)
Module UserData.
Record t : Type := mk {
  email : string;
  password : string;
  firstName : string;
  lastName : string;
  role : Role;
  company : option string;
  phone : option string
}.
End UserData.

Module AuthState.
Record t : Type := mk {
  user : option User.t;
  isAuthenticated : bool;
  isLoading : bool;
  deletedAccounts : list DeletedAccount.t;
  registrationAttempts : list RegistrationAttempt.t;
  authenticationLogs : list AuthenticationLog.t;
  emailVerifications : list EmailVerification.t;
  registeredEmails : list string
}.
End AuthState.

(** What one call reads from outside the store: the clock,
    [navigator.userAgent], and the token [generateVerificationToken] draws.
    [now] is the reading a call stamps what it writes with. The lockout
    check, which [login] makes before it writes, reads the clock several
    times over: in the callback of its filter, once for each log entry
    the callback gets to ([windowNow i] for the entry at index [i] of the
    log), then for the test against the end of the lockout
    ([lockoutNow]), then for the minutes left ([remainingNow]). *)
Module Env.
Record t : Type := mk {
  now : Z;
  userAgent : string;
  token : string;
  windowNow : nat -> Z;
  lockoutNow : Z;
  remainingNow : Z
}.

(** A call during which the clock does not tick. *)
Definition steady (time : Z) (userAgent token : string) : t :=
  mk time userAgent token (fun _ => time) time time.
End Env.

Definition mockRegisteredEmails : list string :=
  [ "john.doe@example.com"; "jane.smith@company.com"; "admin@factorylink.com";
    "test.user@demo.com"; "procurement@manufacturing.com" ].

Definition mockDeletedAccounts : list DeletedAccount.t :=
  [ {| DeletedAccount.id := "del_001";
       DeletedAccount.originalUserId := "user_deleted_001";
       DeletedAccount.email := "deleted.user@example.com";
       DeletedAccount.firstName := "John";
       DeletedAccount.lastName := "Deleted";
       DeletedAccount.phone := Some "+1-555-0123";
       DeletedAccount.deletedAt := 1705314600000;
       DeletedAccount.deletionReason := "User requested account deletion";
       DeletedAccount.deletedBy := "user_deleted_001";
       DeletedAccount.ipAddress := Some "192.168.1.100";
       DeletedAccount.userAgent :=
         Some "Mozilla/5.0 (Windows NT 10.0; Win64; x64) AppleWebKit/537.36";
       DeletedAccount.dataRetentionUntil := Some 1736937000000;
       DeletedAccount.auditTrail :=
         [ {| DeletionAuditEntry.id := "audit_001";
              DeletionAuditEntry.timestamp := 1705314600000;
              DeletionAuditEntry.action := account_deleted;
              DeletionAuditEntry.performedBy := "user_deleted_001";
              DeletionAuditEntry.details :=
                "User initiated account deletion through settings page";
              DeletionAuditEntry.ipAddress := Some "192.168.1.100";
              DeletionAuditEntry.userAgent :=
                Some "Mozilla/5.0 (Windows NT 10.0; Win64; x64) AppleWebKit/537.36"
           |} ] |};
    {| DeletedAccount.id := "del_002";
       DeletedAccount.originalUserId := "user_deleted_002";
       DeletedAccount.email := "test.deleted@company.com";
       DeletedAccount.firstName := "Jane";
       DeletedAccount.lastName := "Smith";
       DeletedAccount.phone := Some "+1-555-0456";
       DeletedAccount.deletedAt := 1706797200000;
       DeletedAccount.deletionReason := "Account violation - spam activity";
       DeletedAccount.deletedBy := "admin_001";
       DeletedAccount.ipAddress := Some "10.0.0.50";
       DeletedAccount.userAgent :=
         Some "Mozilla/5.0 (Macintosh; Intel Mac OS X 10_15_7) AppleWebKit/537.36";
       DeletedAccount.dataRetentionUntil := Some 1738419600000;
       DeletedAccount.auditTrail :=
         [ {| DeletionAuditEntry.id := "audit_002";
              DeletionAuditEntry.timestamp := 1706797200000;
              DeletionAuditEntry.action := account_deleted;
              DeletionAuditEntry.performedBy := "admin_001";
              DeletionAuditEntry.details :=
                "Account deleted by admin due to spam activity violations";
              DeletionAuditEntry.ipAddress := Some "10.0.0.50";
              DeletionAuditEntry.userAgent :=
                Some "Mozilla/5.0 (Macintosh; Intel Mac OS X 10_15_7) AppleWebKit/537.36"
           |} ] |} ].

Definition initialAuthState : AuthState.t :=
  {| AuthState.user := None;
     AuthState.isAuthenticated := false;
     AuthState.isLoading := false;
     AuthState.deletedAccounts := mockDeletedAccounts;
     AuthState.registrationAttempts := [];
     AuthState.authenticationLogs := [];
     AuthState.emailVerifications := [];
     AuthState.registeredEmails := mockRegisteredEmails |}.

Definition getClientIP : string := "192.168.1.100".

(** *** A monad for the store's methods

    A method reads and replaces the store's state and returns or throws. *)

Record Store (A : Type) : Type := mkStore {
  runStore : AuthState.t -> AuthState.t * completion A
}.
Arguments mkStore {A} _.
Arguments runStore {A} _ _.

#[global] Instance Store_ret : MRet Store :=
  fun A a => mkStore (fun s => (s, Normal a)).

#[global] Instance Store_bind : MBind Store :=
  fun A B (k : A -> Store B) (m : Store A) =>
    mkStore (fun s =>
      match runStore m s with
      | (s', Normal a) => runStore (k a) s'
      | (s', Throw e) => (s', Throw e)
      end).

(** [get()], read through a selector. *)
Definition gets {A : Type} (f : AuthState.t -> A) : Store A :=
  mkStore (fun s => (s, Normal (f s))).

(** [set(state => ...)]. *)
Definition modify (g : AuthState.t -> AuthState.t) : Store unit :=
  mkStore (fun s => (g s, Normal tt)).

Definition throw {A : Type} (e : JSError) : Store A :=
  mkStore (fun s => (s, Throw e)).

(** [try { body } catch (error) { handler }]. *)
Definition tryCatch {A : Type} (body : Store A) (handler : JSError -> Store A)
  : Store A :=
  mkStore (fun s =>
    match runStore body s with
    | (s', Normal a) => (s', Normal a)
    | (s', Throw e) => runStore (handler e) s'
    end).

(** [if (cond) { action }]. *)
Definition when (cond : bool) (action : Store unit) : Store unit :=
  if cond then action else mret tt.

(** *** Setters for the fields of the state *)

Definition setLoading (b : bool) (s : AuthState.t) : AuthState.t :=
  {| AuthState.user := AuthState.user s;
     AuthState.isAuthenticated := AuthState.isAuthenticated s;
     AuthState.isLoading := b;
     AuthState.deletedAccounts := AuthState.deletedAccounts s;
     AuthState.registrationAttempts := AuthState.registrationAttempts s;
     AuthState.authenticationLogs := AuthState.authenticationLogs s;
     AuthState.emailVerifications := AuthState.emailVerifications s;
     AuthState.registeredEmails := AuthState.registeredEmails s |}.

Definition setUser (u : option User.t) (s : AuthState.t) : AuthState.t :=
  {| AuthState.user := u;
     AuthState.isAuthenticated := AuthState.isAuthenticated s;
     AuthState.isLoading := AuthState.isLoading s;
     AuthState.deletedAccounts := AuthState.deletedAccounts s;
     AuthState.registrationAttempts := AuthState.registrationAttempts s;
     AuthState.authenticationLogs := AuthState.authenticationLogs s;
     AuthState.emailVerifications := AuthState.emailVerifications s;
     AuthState.registeredEmails := AuthState.registeredEmails s |}.

(** [set({ user, isAuthenticated: true, isLoading: false })]. *)
Definition setSession (u : User.t) (s : AuthState.t) : AuthState.t :=
  {| AuthState.user := Some u;
     AuthState.isAuthenticated := true;
     AuthState.isLoading := false;
     AuthState.deletedAccounts := AuthState.deletedAccounts s;
     AuthState.registrationAttempts := AuthState.registrationAttempts s;
     AuthState.authenticationLogs := AuthState.authenticationLogs s;
     AuthState.emailVerifications := AuthState.emailVerifications s;
     AuthState.registeredEmails := AuthState.registeredEmails s |}.

Definition setDeletedAccounts
  (g : list DeletedAccount.t -> list DeletedAccount.t) (s : AuthState.t)
  : AuthState.t :=
  {| AuthState.user := AuthState.user s;
     AuthState.isAuthenticated := AuthState.isAuthenticated s;
     AuthState.isLoading := AuthState.isLoading s;
     AuthState.deletedAccounts := g (AuthState.deletedAccounts s);
     AuthState.registrationAttempts := AuthState.registrationAttempts s;
     AuthState.authenticationLogs := AuthState.authenticationLogs s;
     AuthState.emailVerifications := AuthState.emailVerifications s;
     AuthState.registeredEmails := AuthState.registeredEmails s |}.

Definition setRegistrationAttempts
  (g : list RegistrationAttempt.t -> list RegistrationAttempt.t)
  (s : AuthState.t) : AuthState.t :=
  {| AuthState.user := AuthState.user s;
     AuthState.isAuthenticated := AuthState.isAuthenticated s;
     AuthState.isLoading := AuthState.isLoading s;
     AuthState.deletedAccounts := AuthState.deletedAccounts s;
     AuthState.registrationAttempts := g (AuthState.registrationAttempts s);
     AuthState.authenticationLogs := AuthState.authenticationLogs s;
     AuthState.emailVerifications := AuthState.emailVerifications s;
     AuthState.registeredEmails := AuthState.registeredEmails s |}.

Definition setAuthenticationLogs
  (g : list AuthenticationLog.t -> list AuthenticationLog.t)
  (s : AuthState.t) : AuthState.t :=
  {| AuthState.user := AuthState.user s;
     AuthState.isAuthenticated := AuthState.isAuthenticated s;
     AuthState.isLoading := AuthState.isLoading s;
     AuthState.deletedAccounts := AuthState.deletedAccounts s;
     AuthState.registrationAttempts := AuthState.registrationAttempts s;
     AuthState.authenticationLogs := g (AuthState.authenticationLogs s);
     AuthState.emailVerifications := AuthState.emailVerifications s;
     AuthState.registeredEmails := AuthState.registeredEmails s |}.

Definition setEmailVerifications
  (g : list EmailVerification.t -> list EmailVerification.t)
  (s : AuthState.t) : AuthState.t :=
  {| AuthState.user := AuthState.user s;
     AuthState.isAuthenticated := AuthState.isAuthenticated s;
     AuthState.isLoading := AuthState.isLoading s;
     AuthState.deletedAccounts := AuthState.deletedAccounts s;
     AuthState.registrationAttempts := AuthState.registrationAttempts s;
     AuthState.authenticationLogs := AuthState.authenticationLogs s;
     AuthState.emailVerifications := g (AuthState.emailVerifications s);
     AuthState.registeredEmails := AuthState.registeredEmails s |}.

Definition setRegisteredEmails (g : list string -> list string)
  (s : AuthState.t) : AuthState.t :=
  {| AuthState.user := AuthState.user s;
     AuthState.isAuthenticated := AuthState.isAuthenticated s;
     AuthState.isLoading := AuthState.isLoading s;
     AuthState.deletedAccounts := AuthState.deletedAccounts s;
     AuthState.registrationAttempts := AuthState.registrationAttempts s;
     AuthState.authenticationLogs := AuthState.authenticationLogs s;
     AuthState.emailVerifications := AuthState.emailVerifications s;
     AuthState.registeredEmails := g (AuthState.registeredEmails s) |}.

(** *** [validateEmailFormat]

    The pattern, case-insensitive and anchored at both ends: one or more
    of letters, digits and [._%+-]; an at sign; one or more of letters,
    digits, dot and hyphen; a dot; two or more letters. The last part
    holds no dot, so the dot before it is the last one of the text. *)

Definition inRange (lo hi : N) (c : ascii) : bool :=
  ((lo <=? JSString.code c) && (JSString.code c <=? hi))%N.
Definition isLetter (c : ascii) : bool := inRange 65 90 c || inRange 97 122 c.
Definition isDigit (c : ascii) : bool := inRange 48 57 c.
Definition isLocalChar (c : ascii) : bool :=
  isLetter c || isDigit c
  || existsb (Ascii.eqb c) ["."; "_"; "%"; "+"; "-"]%char.
Definition isDomainChar (c : ascii) : bool :=
  isLetter c || isDigit c || existsb (Ascii.eqb c) ["."; "-"]%char.

Fixpoint allChars (p : ascii -> bool) (s : string) : bool :=
  match s with
  | EmptyString => true
  | String c rest => p c && allChars p rest
  end.

(** The text before and after the first occurrence of [sep]. *)
Fixpoint splitFirst (sep : ascii) (s : string) : option (string * string) :=
  match s with
  | EmptyString => None
  | String c rest =>
      if Ascii.eqb c sep then Some (EmptyString, rest)
      else match splitFirst sep rest with
           | Some (before, after) => Some (String c before, after)
           | None => None
           end
  end.

(** The text before and after the last occurrence of [sep]. *)
Fixpoint splitLast (sep : ascii) (s : string) : option (string * string) :=
  match s with
  | EmptyString => None
  | String c rest =>
      match splitLast sep rest with
      | Some (before, after) => Some (String c before, after)
      | None => if Ascii.eqb c sep then Some (EmptyString, rest) else None
      end
  end.

Definition nonEmpty (s : string) : bool := negb (String.eqb s "").

Definition validateEmailFormat (email : string) : bool :=
  match splitFirst "@" email with
  | None => false
  | Some (localPart, rest) =>
      nonEmpty localPart && allChars isLocalChar localPart &&
      match splitLast "." rest with
      | None => false
      | Some (domain, tld) =>
          nonEmpty domain && allChars isDomainChar domain &&
          allChars isLetter tld && (2 <=? String.length tld)%nat
      end
  end.

(** *** The store's methods *)

Definition checkEmailExists (email : string) (s : AuthState.t) : bool :=
  strIn (JSString.toLowerCase email) (AuthState.registeredEmails s).

Module LockoutStatus.
Record t : Type := mk { isLocked : bool; remainingTime : option Z }.
End LockoutStatus.

Definition isLoginFailed (a : AuthAction) : bool :=
  match a with login_failed => true | _ => false end.

Definition lockoutWindow : Z := 15 * 60 * 1000.

(** The test of the filter of [checkAccountLockout] on one log entry,
    [now] being the [Date.now()] the callback reads for that entry. *)
Definition isRecentFailure (now : Z) (email : string)
  (log : AuthenticationLog.t) : bool :=
  String.eqb (AuthenticationLog.email log) email
  && isLoginFailed (AuthenticationLog.action log)
  && (now - lockoutWindow <? AuthenticationLog.timestamp log).

(** [logs.filter(callback)] for the entries from index [i] on, the
    callback reading [clock i] at the entry of index [i]. *)
Fixpoint recentFrom (clock : nat -> Z) (email : string) (i : nat)
  (logs : list AuthenticationLog.t) : list AuthenticationLog.t :=
  match logs with
  | [] => []
  | log :: rest =>
      if isRecentFailure (clock i) email log
      then log :: recentFrom clock email (S i) rest
      else recentFrom clock email (S i) rest
  end.

(** The failed logins of [email] logged in the 15 minutes before the
    filter looks at them. *)
Definition recentFailedAttempts (env : Env.t) (email : string)
  (s : AuthState.t) : list AuthenticationLog.t :=
  recentFrom (Env.windowNow env) email 0 (AuthState.authenticationLogs s).

(** The remaining minutes are [Math.ceil(ms / 1000 / 60)] of a whole
    number of milliseconds; the two floating divisions round to the same
    whole number as the exact quotient. The clock is read again for the
    test against the end of the lockout and again for the minutes left,
    so the test can fail where the filter counted five entries, and the
    minutes can come out as 0 or less. *)
Definition checkAccountLockout (env : Env.t) (email : string) (s : AuthState.t)
  : LockoutStatus.t :=
  let recent := recentFailedAttempts env email s in
  let unlocked := LockoutStatus.mk false None in
  if (5 <=? List.length recent)%nat then
    match last recent with
    | Some lastAttempt =>
        let lockoutEnd := AuthenticationLog.timestamp lastAttempt + lockoutWindow in
        if Env.lockoutNow env <? lockoutEnd
        then LockoutStatus.mk true
               (Some (ceilDiv (lockoutEnd - Env.remainingNow env) (1000 * 60)))
        else unlocked
    | None => unlocked
    end
  else unlocked.

(** A string or [undefined] is truthy when it is a non-empty string. *)
Definition truthy (v : option string) : bool :=
  match v with Some s => nonEmpty s | None => false end.

(** [===] on two values that are strings or [undefined]. *)
Definition strictEq (a b : option string) : bool :=
  match a, b with
  | Some x, Some y => String.eqb x y
  | None, None => true
  | _, _ => false
  end.

Definition matchesDeleted (email : string) (phone : option string)
  (d : DeletedAccount.t) : bool :=
  String.eqb (JSString.toLowerCase (DeletedAccount.email d))
             (JSString.toLowerCase email)
  || (truthy phone && strictEq (DeletedAccount.phone d) phone).

Definition checkDeletedAccount (email : string) (phone : option string)
  (s : AuthState.t) : option DeletedAccount.t :=
  List.find (matchesDeleted email phone) (AuthState.deletedAccounts s).

(** The arguments are the fields of the log without [id] and [timestamp],
    which the method fills in. *)
Definition logAuthenticationAttempt (env : Env.t) (email : string)
  (action : AuthAction) (reason : option string) (ipAddress userAgent : string)
  (userId : option string) (success : bool)
  (metadata : list (string * MetaValue)) : Store unit :=
  let fullLog :=
    {| AuthenticationLog.id := String.append "auth_" (JSString.ofZ (Env.now env));
       AuthenticationLog.email := email;
       AuthenticationLog.action := action;
       AuthenticationLog.reason := reason;
       AuthenticationLog.ipAddress := ipAddress;
       AuthenticationLog.userAgent := userAgent;
       AuthenticationLog.timestamp := Env.now env;
       AuthenticationLog.userId := userId;
       AuthenticationLog.success := success;
       AuthenticationLog.metadata := metadata |} in
  modify (setAuthenticationLogs (fun logs => logs ++ [fullLog])).

Definition logRegistrationAttempt (env : Env.t) (email : string)
  (firstName lastName phone ipAddress userAgent : option string)
  (blocked : bool) (blockReason deletedAccountId : option string)
  : Store unit :=
  let fullAttempt :=
    {| RegistrationAttempt.id :=
         String.append "attempt_" (JSString.ofZ (Env.now env));
       RegistrationAttempt.email := email;
       RegistrationAttempt.firstName := firstName;
       RegistrationAttempt.lastName := lastName;
       RegistrationAttempt.phone := phone;
       RegistrationAttempt.attemptedAt := Env.now env;
       RegistrationAttempt.ipAddress := ipAddress;
       RegistrationAttempt.userAgent := userAgent;
       RegistrationAttempt.blocked := blocked;
       RegistrationAttempt.blockReason := blockReason;
       RegistrationAttempt.deletedAccountId := deletedAccountId |} in
  modify (setRegistrationAttempts (fun attempts => attempts ++ [fullAttempt])).

Definition appendAudit (entry : DeletionAuditEntry.t) (a : DeletedAccount.t)
  : DeletedAccount.t :=
  {| DeletedAccount.id := DeletedAccount.id a;
     DeletedAccount.originalUserId := DeletedAccount.originalUserId a;
     DeletedAccount.email := DeletedAccount.email a;
     DeletedAccount.firstName := DeletedAccount.firstName a;
     DeletedAccount.lastName := DeletedAccount.lastName a;
     DeletedAccount.phone := DeletedAccount.phone a;
     DeletedAccount.deletedAt := DeletedAccount.deletedAt a;
     DeletedAccount.deletionReason := DeletedAccount.deletionReason a;
     DeletedAccount.deletedBy := DeletedAccount.deletedBy a;
     DeletedAccount.ipAddress := DeletedAccount.ipAddress a;
     DeletedAccount.userAgent := DeletedAccount.userAgent a;
     DeletedAccount.dataRetentionUntil := DeletedAccount.dataRetentionUntil a;
     DeletedAccount.auditTrail := DeletedAccount.auditTrail a ++ [entry] |}.

Definition addDeletionAuditEntry (env : Env.t) (deletedAccountId : string)
  (action : AuditAction) (performedBy details : string)
  (ipAddress userAgent : option string) : Store unit :=
  let fullEntry :=
    {| DeletionAuditEntry.id :=
         String.append "audit_" (JSString.ofZ (Env.now env));
       DeletionAuditEntry.timestamp := Env.now env;
       DeletionAuditEntry.action := action;
       DeletionAuditEntry.performedBy := performedBy;
       DeletionAuditEntry.details := details;
       DeletionAuditEntry.ipAddress := ipAddress;
       DeletionAuditEntry.userAgent := userAgent |} in
  modify (setDeletedAccounts
    (map (fun account =>
       if String.eqb (DeletedAccount.id account) deletedAccountId
       then appendAudit fullEntry account
       else account))).

(** [incrementLoginAttempts] and [resetLoginAttempts] only write to the
    console. *)
Definition incrementLoginAttempts (email : string) : Store unit := mret tt.
Definition resetLoginAttempts (email : string) : Store unit := mret tt.

Definition sendEmailVerification (env : Env.t) (email : string) : Store unit :=
  let verification :=
    {| EmailVerification.id :=
         String.append "verify_" (JSString.ofZ (Env.now env));
       EmailVerification.email := email;
       EmailVerification.token := Env.token env;
       EmailVerification.expiresAt := Env.now env + 24 * 60 * 60 * 1000;
       EmailVerification.createdAt := Env.now env;
       EmailVerification.verified := false;
       EmailVerification.verifiedAt := None;
       EmailVerification.attempts := 0 |} in
  modify (setEmailVerifications (fun vs => vs ++ [verification])).

(** How a template literal prints [remainingTime]. *)
Definition minutesText (remainingTime : option Z) : string :=
  match remainingTime with
  | Some z => JSString.ofZ z
  | None => "undefined"
  end.

Definition lockedMessage (remainingTime : option Z) : string :=
  String.append
    "Account temporarily locked due to multiple failed login attempts. Please try again in "
    (String.append (minutesText remainingTime) " minutes.").

Definition lockoutMetadata (remainingTime : option Z)
  : list (string * MetaValue) :=
  match remainingTime with
  | Some z => [("lockoutRemainingMinutes", MetaNumber z)]
  | None => []
  end.

Definition mockUser (env : Env.t) (email : string) : User.t :=
  {| User.id := "1";
     User.email := email;
     User.firstName := "John";
     User.lastName := "Doe";
     User.role := founder;
     User.company := Some "TechStart Inc.";
     User.phone := Some "+1 (555) 123-4567";
     User.avatar := Some "";
     User.createdAt := Env.now env;
     User.subscription := pro;
     User.quotesUsed := 2;
     User.quotesLimit := 15;
     User.status := active;
     User.deletedAt := None;
     User.deletionReason := None;
     User.emailVerified := true;
     User.lastLoginAt := Some (Env.now env);
     User.loginAttempts := 0 |}.

Definition login (env : Env.t) (email password : string) : Store unit :=
  modify (setLoading true);;
  let clientIP := getClientIP in
  let userAgent := Env.userAgent env in
  tryCatch
    (when (negb (validateEmailFormat email))
       (throw (Error "Please enter a valid email address."));;
     lockoutStatus ← gets (checkAccountLockout env email);
     when (LockoutStatus.isLocked lockoutStatus)
       (logAuthenticationAttempt env email login_failed
          (Some "Account temporarily locked due to multiple failed attempts")
          clientIP userAgent None false
          (lockoutMetadata (LockoutStatus.remainingTime lockoutStatus));;
        throw (Error (lockedMessage (LockoutStatus.remainingTime lockoutStatus))));;
     emailExists ← gets (checkEmailExists email);
     when (negb emailExists)
       (logAuthenticationAttempt env email login_failed
          (Some "Email address not registered")
          clientIP userAgent None false
          [("attemptedEmail", MetaString email)];;
        incrementLoginAttempts email;;
        throw (Error "No account found with this email address. Please check your email or create a new account."));;
     deletedAccount ← gets (checkDeletedAccount email None);
     match deletedAccount with
     | Some d =>
         logAuthenticationAttempt env email login_failed
           (Some "Attempted login with deleted account")
           clientIP userAgent None false
           [("deletedAccountId", MetaString (DeletedAccount.id d))];;
         addDeletionAuditEntry env (DeletedAccount.id d)
           reregistration_attempted "anonymous"
           (String.append "Login attempt with deleted account email: " email)
           (Some clientIP) (Some userAgent);;
         throw (Error "This account has been permanently deleted and cannot be restored. Please contact support if you believe this is an error.")
     | None => mret tt
     end;;
     when (String.length password <? 6)%nat
       (logAuthenticationAttempt env email login_failed
          (Some "Invalid password") clientIP userAgent None false [];;
        incrementLoginAttempts email;;
        throw (Error "Invalid email or password. Please try again."));;
     logAuthenticationAttempt env email login_success None
       clientIP userAgent (Some (User.id (mockUser env email))) true
       [("loginMethod", MetaString "email_password")];;
     resetLoginAttempts email;;
     modify (setSession (mockUser env email)))
    (fun error => modify (setLoading false);; throw error).

Definition similarTo (userData : UserData.t) (d : DeletedAccount.t) : bool :=
  String.eqb (JSString.toLowerCase (DeletedAccount.firstName d))
             (JSString.toLowerCase (UserData.firstName userData))
  && String.eqb (JSString.toLowerCase (DeletedAccount.lastName d))
                (JSString.toLowerCase (UserData.lastName userData))
  && (strictEq (DeletedAccount.phone d) (UserData.phone userData)
      || String.eqb (DeletedAccount.email d) (UserData.email userData)).

Definition newUser (env : Env.t) (userData : UserData.t) : User.t :=
  {| User.id := JSString.ofZ (Env.now env);
     User.email := UserData.email userData;
     User.firstName := UserData.firstName userData;
     User.lastName := UserData.lastName userData;
     User.role := UserData.role userData;
     User.company := UserData.company userData;
     User.phone := UserData.phone userData;
     User.avatar := Some "";
     User.createdAt := Env.now env;
     User.subscription := freemium;
     User.quotesUsed := 0;
     User.quotesLimit := 3;
     User.status := pending_verification;
     User.deletedAt := None;
     User.deletionReason := None;
     User.emailVerified := false;
     User.lastLoginAt := None;
     User.loginAttempts := 0 |}.

Definition deletedCredentialsDetails (userData : UserData.t) : string :=
  String.append "Registration attempt with deleted account credentials. Email: "
    (String.append (UserData.email userData)
       (match UserData.phone userData with
        | Some p => if nonEmpty p then String.append ", Phone: " p else ""
        | None => ""
        end)).

Definition register (env : Env.t) (userData : UserData.t) : Store unit :=
  modify (setLoading true);;
  let clientIP := getClientIP in
  let userAgent := Env.userAgent env in
  let email := UserData.email userData in
  tryCatch
    (when (negb (validateEmailFormat email))
       (throw (Error "Please enter a valid email address."));;
     emailExists ← gets (checkEmailExists email);
     when emailExists
       (logAuthenticationAttempt env email registration_attempt
          (Some "Email already registered") clientIP userAgent None false
          [("attemptedEmail", MetaString email)];;
        throw (Error "An account with this email address already exists. Please use a different email or try logging in."));;
     deletedAccount ← gets (checkDeletedAccount email (UserData.phone userData));
     match deletedAccount with
     | Some d =>
         logRegistrationAttempt env email
           (Some (UserData.firstName userData))
           (Some (UserData.lastName userData))
           (UserData.phone userData) (Some clientIP) (Some userAgent) true
           (Some "Email/phone associated with permanently deleted account")
           (Some (DeletedAccount.id d));;
         logAuthenticationAttempt env email registration_attempt
           (Some "Attempted registration with deleted account credentials")
           clientIP userAgent None false
           [("deletedAccountId", MetaString (DeletedAccount.id d))];;
         addDeletionAuditEntry env (DeletedAccount.id d)
           reregistration_attempted "anonymous"
           (deletedCredentialsDetails userData)
           (Some clientIP) (Some userAgent);;
         throw (Error "This email address or phone number is associated with a permanently deleted account and cannot be used for registration. Please use different credentials or contact support.")
     | None => mret tt
     end;;
     similarAccount ← gets (fun s =>
       List.find (similarTo userData) (AuthState.deletedAccounts s));
     match similarAccount with
     | Some d =>
         logRegistrationAttempt env email
           (Some (UserData.firstName userData))
           (Some (UserData.lastName userData))
           (UserData.phone userData) (Some clientIP) (Some userAgent) true
           (Some "Similar personal information to deleted account")
           (Some (DeletedAccount.id d));;
         logAuthenticationAttempt env email registration_attempt
           (Some "Similar personal information to deleted account")
           clientIP userAgent None false
           [("similarAccountId", MetaString (DeletedAccount.id d))];;
         addDeletionAuditEntry env (DeletedAccount.id d)
           reregistration_attempted "anonymous"
           "Registration attempt with similar personal information to deleted account"
           (Some clientIP) (Some userAgent);;
         throw (Error "Registration blocked due to security policies. Please contact support for assistance.")
     | None => mret tt
     end;;
     logRegistrationAttempt env email
       (Some (UserData.firstName userData))
       (Some (UserData.lastName userData))
       (UserData.phone userData) (Some clientIP) (Some userAgent) false
       None None;;
     modify (setRegisteredEmails
       (fun emails => emails ++ [JSString.toLowerCase email]));;
     sendEmailVerification env email;;
     logAuthenticationAttempt env email registration_attempt None
       clientIP userAgent (Some (User.id (newUser env userData))) true
       [("registrationMethod", MetaString "email_password");
        ("emailVerificationSent", MetaBool true)];;
     modify (setSession (newUser env userData)))
    (fun error => modify (setLoading false);; throw error).

Definition logout (env : Env.t) : Store unit :=
  user ← gets AuthState.user;
  match user with
  | Some u =>
      logAuthenticationAttempt env (User.email u) login_success
        (Some "User logout") getClientIP (Env.userAgent env)
        (Some (User.id u)) true [("action", MetaString "logout")]
  | None => mret tt
  end;;
  modify (fun s =>
    {| AuthState.user := None;
       AuthState.isAuthenticated := false;
       AuthState.isLoading := AuthState.isLoading s;
       AuthState.deletedAccounts := AuthState.deletedAccounts s;
       AuthState.registrationAttempts := AuthState.registrationAttempts s;
       AuthState.authenticationLogs := AuthState.authenticationLogs s;
       AuthState.emailVerifications := AuthState.emailVerifications s;
       AuthState.registeredEmails := AuthState.registeredEmails s |}).

(** The fields of a [Partial<User>] that the account form sends; [None]
    is a key that is absent. *)
Module UserPatch.
Record t : Type := mk {
  email : option string;
  firstName : option string;
  lastName : option string;
  company : option string;
  phone : option string;
  avatar : option string
}.
End UserPatch.

Definition orElse {A : Type} (patch : option A) (old : A) : A :=
  match patch with Some v => v | None => old end.

Definition orKeep {A : Type} (patch old : option A) : option A :=
  match patch with Some v => Some v | None => old end.

Definition patchUser (p : UserPatch.t) (u : User.t) : User.t :=
  {| User.id := User.id u;
     User.email := orElse (UserPatch.email p) (User.email u);
     User.firstName := orElse (UserPatch.firstName p) (User.firstName u);
     User.lastName := orElse (UserPatch.lastName p) (User.lastName u);
     User.role := User.role u;
     User.company := orKeep (UserPatch.company p) (User.company u);
     User.phone := orKeep (UserPatch.phone p) (User.phone u);
     User.avatar := orKeep (UserPatch.avatar p) (User.avatar u);
     User.createdAt := User.createdAt u;
     User.subscription := User.subscription u;
     User.quotesUsed := User.quotesUsed u;
     User.quotesLimit := User.quotesLimit u;
     User.status := User.status u;
     User.deletedAt := User.deletedAt u;
     User.deletionReason := User.deletionReason u;
     User.emailVerified := User.emailVerified u;
     User.lastLoginAt := User.lastLoginAt u;
     User.loginAttempts := User.loginAttempts u |}.

Definition updateUser (userData : UserPatch.t) : Store unit :=
  user ← gets AuthState.user;
  match user with
  | Some u => modify (setUser (Some (patchUser userData u)))
  | None => mret tt
  end.

Definition markDeleted (env : Env.t) (reason : string) (u : User.t) : User.t :=
  {| User.id := User.id u;
     User.email := User.email u;
     User.firstName := User.firstName u;
     User.lastName := User.lastName u;
     User.role := User.role u;
     User.company := User.company u;
     User.phone := User.phone u;
     User.avatar := User.avatar u;
     User.createdAt := User.createdAt u;
     User.subscription := User.subscription u;
     User.quotesUsed := User.quotesUsed u;
     User.quotesLimit := User.quotesLimit u;
     User.status := deleted;
     User.deletedAt := Some (Env.now env);
     User.deletionReason := Some reason;
     User.emailVerified := User.emailVerified u;
     User.lastLoginAt := User.lastLoginAt u;
     User.loginAttempts := User.loginAttempts u |}.

Definition deleteAccount (env : Env.t) (reason : string) : Store unit :=
  user ← gets AuthState.user;
  match user with
  | None => throw (Error "No user to delete")
  | Some u =>
      let clientIP := getClientIP in
      let userAgent := Env.userAgent env in
      let deletedAccount :=
        {| DeletedAccount.id := String.append "del_" (JSString.ofZ (Env.now env));
           DeletedAccount.originalUserId := User.id u;
           DeletedAccount.email := User.email u;
           DeletedAccount.firstName := User.firstName u;
           DeletedAccount.lastName := User.lastName u;
           DeletedAccount.phone := User.phone u;
           DeletedAccount.deletedAt := Env.now env;
           DeletedAccount.deletionReason := reason;
           DeletedAccount.deletedBy := User.id u;
           DeletedAccount.ipAddress := Some clientIP;
           DeletedAccount.userAgent := Some userAgent;
           DeletedAccount.dataRetentionUntil :=
             Some (Env.now env + 365 * 24 * 60 * 60 * 1000);
           DeletedAccount.auditTrail :=
             [ {| DeletionAuditEntry.id :=
                    String.append "audit_" (JSString.ofZ (Env.now env));
                  DeletionAuditEntry.timestamp := Env.now env;
                  DeletionAuditEntry.action := account_deleted;
                  DeletionAuditEntry.performedBy := User.id u;
                  DeletionAuditEntry.details :=
                    String.append
                      "User initiated account deletion. Reason: " reason;
                  DeletionAuditEntry.ipAddress := Some clientIP;
                  DeletionAuditEntry.userAgent := Some userAgent |} ] |} in
      tryCatch
        (modify (setRegisteredEmails
           (List.filter (fun email =>
              negb (String.eqb email (JSString.toLowerCase (User.email u))))));;
         modify (setDeletedAccounts (fun ds => ds ++ [deletedAccount]));;
         logAuthenticationAttempt env (User.email u) login_success
           (Some "Account deletion completed") clientIP userAgent
           (Some (User.id u)) true
           [("action", MetaString "account_deletion");
            ("reason", MetaString reason)];;
         modify (setUser (Some (markDeleted env reason u))))
        (fun _ => throw (Error "Failed to delete account. Please try again."))
  end.

Definition currentPageOf (c : Component.t) : Z :=
  PaginationConfig.currentPage (Component.pagination c).
Definition totalPagesIn (c : Component.t) : Z :=
  PaginationConfig.totalPages (Component.pagination c).

(** The totals a render stores are those of the data it shows. *)
Definition settled (p : Props.t) (c : Component.t) : Prop :=
  let pg := Component.pagination c in
  PaginationConfig.totalItems pg = Z.of_nat (List.length (tableData p c))
  /\ PaginationConfig.totalPages pg
     = totalPagesOf (tableData p c) (PaginationConfig.itemsPerPage pg)
  /\ 0 < PaginationConfig.itemsPerPage pg.

(** The store before any manufacturer is loaded: [manufacturers: []]. *)
Definition emptyStore : Props.t := Props.mk [] (ofInt 2025).

(** The component on an empty table after one click on the next-page
    button. *)
Definition afterNextOnEmpty : Component.t :=
  render emptyStore (handle NextPage (render emptyStore initialComponent)).

(** No effect of the list is a file download. *)
Definition noDownload (effects : list Effect) : Prop :=
  Forall (fun e => match e with Download _ _ => False | _ => True end) effects.

(** Sample records of the table. *)
Definition acme : Manufacturer.t :=
  {| Manufacturer.id := "factory-001";
     Manufacturer.name := "Acme, Inc.";
     Manufacturer.city := "Austin";
     Manufacturer.state := "TX";
     Manufacturer.yearEstablished := ofInt 1990;
     Manufacturer.numberOfEmployees := ofInt 40;
     Manufacturer.annualRevenue := ofInt 5000000;
     Manufacturer.industryKeywords := "metal fabrication";
     Manufacturer.primaryApplications := "automotive";
     Manufacturer.capabilities := ["Welding"; "CNC Machining"];
     Manufacturer.materials := ["Steel"];
     Manufacturer.certifications := ["ISO 9001"];
     Manufacturer.moq := ofInt 100;
     Manufacturer.leadTimeDays := ofInt 14;
     Manufacturer.diversityFlag := true;
     Manufacturer.sustainabilityScore := ofInt 80;
     Manufacturer.rating := ofQ (9 # 2);
     Manufacturer.currentCapacity := ofInt 60 |}.

Definition bolt : Manufacturer.t :=
  {| Manufacturer.id := "factory-002";
     Manufacturer.name := "Bolt Works";
     Manufacturer.city := "Reno";
     Manufacturer.state := "NV";
     Manufacturer.yearEstablished := ofInt 2015;
     Manufacturer.numberOfEmployees := ofInt 12;
     Manufacturer.annualRevenue := ofInt 800000;
     Manufacturer.industryKeywords := "fasteners";
     Manufacturer.primaryApplications := "construction";
     Manufacturer.capabilities := ["Stamping"];
     Manufacturer.materials := ["Steel"; "Brass"];
     Manufacturer.certifications := [];
     Manufacturer.moq := ofInt 500;
     Manufacturer.leadTimeDays := ofInt 7;
     Manufacturer.diversityFlag := false;
     Manufacturer.sustainabilityScore := ofInt 55;
     Manufacturer.rating := ofInt 4;
     Manufacturer.currentCapacity := ofInt 85 |}.

(** A rendering of numbers as decimals, to run the export on the samples:
    the whole part and, when there is one, up to twenty digits of the
    fraction. *)
Fixpoint fractionDigits (fuel : nat) (r q : Z) : string :=
  match fuel with
  | O => EmptyString
  | S fuel' =>
      if r =? 0 then EmptyString
      else String.append (JSString.ofZ (r * 10 / q))
             (fractionDigits fuel' ((r * 10) mod q) q)
  end.

Definition decimalOf (x : Qc) : string :=
  let p := Qnum (this x) in
  let q := Zpos (Qden (this x)) in
  let a := Z.abs p in
  String.append (if p <? 0 then "-" else "")
    (String.append (JSString.ofZ (a / q))
       (if a mod q =? 0 then EmptyString
        else String.append "." (fractionDigits 20 (a mod q) q))).

Definition decimalText (n : number) : string :=
  match n with
  | Finite x => decimalOf x
  | PosInfinity => "Infinity"
  | NegInfinity => "-Infinity"
  | NaN => "NaN"
  end.

(** The text the search is claimed to run against: the record's name,
    city, state and classification keywords and every member of its
    capabilities, materials and certifications, end to end. *)
Definition claimedSearchText (m : Manufacturer.t) : string :=
  String.concat ""
    ([ Manufacturer.name m; Manufacturer.city m; Manufacturer.state m;
       Manufacturer.industryKeywords m ]
     ++ Manufacturer.capabilities m ++ Manufacturer.materials m
     ++ Manufacturer.certifications m).

(** The text the search block builds for a well-typed record. *)
Definition searchedText (m : Manufacturer.t) : string :=
  JSString.join " "
    ([ Manufacturer.name m; Manufacturer.city m; Manufacturer.state m;
       Manufacturer.industryKeywords m; Manufacturer.primaryApplications m ]
     ++ Manufacturer.capabilities m ++ Manufacturer.materials m).

Definition searchFor (term : string) : FilterState.t :=
  assign (set_search term) defaultFilters.

(** The three array attributes of an object are there. *)
Definition hasArrays (o : Obj.t) : Prop :=
  Obj.capabilities o <> None /\ Obj.materials o <> None
  /\ Obj.certifications o <> None.

(** [acme] as an object that lost one property. *)
Definition acmeWithoutCapabilities : Obj.t :=
  let o := ofManufacturer acme in
  Obj.mk (Obj.id o) (Obj.name o) (Obj.city o) (Obj.state o)
    (Obj.yearEstablished o) (Obj.numberOfEmployees o) (Obj.annualRevenue o)
    (Obj.industryKeywords o) (Obj.primaryApplications o)
    None (Obj.materials o) (Obj.certifications o)
    (Obj.moq o) (Obj.leadTimeDays o) (Obj.diversityFlag o)
    (Obj.sustainabilityScore o) (Obj.rating o) (Obj.currentCapacity o).

Definition acmeWithoutEmployees : Obj.t :=
  let o := ofManufacturer acme in
  Obj.mk (Obj.id o) (Obj.name o) (Obj.city o) (Obj.state o)
    (Obj.yearEstablished o) None (Obj.annualRevenue o)
    (Obj.industryKeywords o) (Obj.primaryApplications o)
    (Obj.capabilities o) (Obj.materials o) (Obj.certifications o)
    (Obj.moq o) (Obj.leadTimeDays o) (Obj.diversityFlag o)
    (Obj.sustainabilityScore o) (Obj.rating o) (Obj.currentCapacity o).

Definition acmeWithoutState : Obj.t :=
  let o := ofManufacturer acme in
  Obj.mk (Obj.id o) (Obj.name o) (Obj.city o) None
    (Obj.yearEstablished o) (Obj.numberOfEmployees o) (Obj.annualRevenue o)
    (Obj.industryKeywords o) (Obj.primaryApplications o)
    (Obj.capabilities o) (Obj.materials o) (Obj.certifications o)
    (Obj.moq o) (Obj.leadTimeDays o) (Obj.diversityFlag o)
    (Obj.sustainabilityScore o) (Obj.rating o) (Obj.currentCapacity o).

(** The value [m[key]] of a record at a sort key. *)
Inductive Value : Type :=
| VString (s : string)
| VNumber (n : number).

Definition valueAt (k : SortKey) (m : Manufacturer.t) : Value :=
  match k with
  | by_name => VString (Manufacturer.name m)
  | by_state => VString (Manufacturer.state m)
  | by_numberOfEmployees => VNumber (Manufacturer.numberOfEmployees m)
  | by_annualRevenue => VNumber (Manufacturer.annualRevenue m)
  | by_rating => VNumber (Manufacturer.rating m)
  | by_currentCapacity => VNumber (Manufacturer.currentCapacity m)
  end.

(** The values of a collection at the sort key are pairwise distinct. *)
Definition distinctAt (k : SortKey) (l : list Manufacturer.t) : Prop :=
  List.NoDup (map (valueAt k) l).

(** The value of a record at the sort key is NaN: the one value that is
    neither below, nor above, nor equal to any other. *)
Definition nanAt (k : SortKey) (m : Manufacturer.t) : bool :=
  match valueAt k m with
  | VNumber n => isNaN n
  | VString _ => false
  end.

(** No record of the collection has NaN at the sort key; the comparator
    is then consistent, and the order [Array.prototype.sort] returns is
    the one the language defines. *)
Definition comparableAt (k : SortKey) (l : list Manufacturer.t) : Prop :=
  List.Forall (fun m => nanAt k m = false) l.

Definition sortBy (k : SortKey) (d : Direction) : SortConfig.t :=
  SortConfig.mk (Some k) d.

(** The first sample with a rating that is not a number. *)
Definition unrated : Manufacturer.t :=
  {| Manufacturer.id := "factory-003";
     Manufacturer.name := Manufacturer.name acme;
     Manufacturer.city := Manufacturer.city acme;
     Manufacturer.state := Manufacturer.state acme;
     Manufacturer.yearEstablished := Manufacturer.yearEstablished acme;
     Manufacturer.numberOfEmployees := Manufacturer.numberOfEmployees acme;
     Manufacturer.annualRevenue := Manufacturer.annualRevenue acme;
     Manufacturer.industryKeywords := Manufacturer.industryKeywords acme;
     Manufacturer.primaryApplications := Manufacturer.primaryApplications acme;
     Manufacturer.capabilities := Manufacturer.capabilities acme;
     Manufacturer.materials := Manufacturer.materials acme;
     Manufacturer.certifications := Manufacturer.certifications acme;
     Manufacturer.moq := Manufacturer.moq acme;
     Manufacturer.leadTimeDays := Manufacturer.leadTimeDays acme;
     Manufacturer.diversityFlag := Manufacturer.diversityFlag acme;
     Manufacturer.sustainabilityScore := Manufacturer.sustainabilityScore acme;
     Manufacturer.rating := NaN;
     Manufacturer.currentCapacity := Manufacturer.currentCapacity acme |}.

(** The text [generateCSV] makes of one row, and of a table, of cell
    texts. *)
Definition rowText (row : list string) : string :=
  JSString.join "," (map quoteCell row).

Definition serialize (table : list (list string)) : string :=
  JSString.join newline (map rowText table).

(** The fields of the row of one record, as text. *)
Definition fieldsOf (numberToString : number -> string) (m : Manufacturer.t)
  : list string :=
  [ Manufacturer.name m;
    Manufacturer.city m;
    Manufacturer.state m;
    Manufacturer.industryKeywords m;
    numberToString (Manufacturer.numberOfEmployees m);
    numberToString (Manufacturer.annualRevenue m);
    numberToString (Manufacturer.rating m);
    numberToString (Manufacturer.moq m);
    numberToString (Manufacturer.leadTimeDays m);
    numberToString (Manufacturer.currentCapacity m);
    numberToString (Manufacturer.sustainabilityScore m);
    numberToString (Manufacturer.yearEstablished m);
    JSString.join "; " (Manufacturer.capabilities m);
    JSString.join "; " (Manufacturer.materials m);
    JSString.join "; " (Manufacturer.certifications m) ].

(** The reader has just closed a quoted field: [done] are the finished
    records and [row] the fields of the open record, the closed one last. *)
Definition closedField (s : Csv.state) (done : list (list string))
  (row : list string) : Prop :=
  Csv.st s = Csv.QuoteSeen /\ Csv.records s = done
  /\ Csv.fields s ++ [Csv.field s] = row.

(** *** Sample runs of the store *)

(** A call at time [t] during which the clock does not tick. *)
Definition envAt (t : Z) : Env.t :=
  Env.steady t "Mozilla/5.0" "k3j9x2q7p1".


(** A lockout check that starts at [start]: the filter reads that time at
    every entry, and the clock has moved on to [later] when the check
    tests the end of the lockout and works out the minutes left. *)
Definition envTicking (start later : Z) : Env.t :=
  Env.mk later "Mozilla/5.0" "k3j9x2q7p1" (fun _ => start) later later.

(** The state and the outcome of a method run from state [s]. *)
Definition stateAfter {A : Type} (m : Store A) (s : AuthState.t) : AuthState.t :=
  fst (runStore m s).
Definition outcome {A : Type} (m : Store A) (s : AuthState.t) : completion A :=
  snd (runStore m s).

(** One failed login recorded for [email] through the store's
    [logAuthenticationAttempt]. *)
Definition recordFailure (t : Z) (email : string) : Store unit :=
  logAuthenticationAttempt (envAt t) email login_failed
    (Some "Invalid password") getClientIP "Mozilla/5.0" None false [].


(** The same for a registered, well-formed address. *)
Definition fiveFailuresForJohn : AuthState.t :=
  stateAfter
    (recordFailure 1700000000000 "john.doe@example.com";;
     recordFailure 1700000001000 "john.doe@example.com";;
     recordFailure 1700000002000 "john.doe@example.com";;
     recordFailure 1700000003000 "john.doe@example.com";;
     recordFailure 1700000004000 "john.doe@example.com")
    initialAuthState.

(** A registration that names the email of the second deleted account and
    the phone of the first. *)
Definition mixedCredentials : UserData.t :=
  {| UserData.email := "test.deleted@company.com";
     UserData.password := "Str0ng!pass";
     UserData.firstName := "Alex";
     UserData.lastName := "Moreau";
     UserData.role := founder;
     UserData.company := None;
     UserData.phone := Some "+1-555-0123" |}.

Definition deletedEmailOnly : UserData.t :=
  {| UserData.email := "Test.Deleted@Company.com";
     UserData.password := "Str0ng!pass";
     UserData.firstName := "Alex";
     UserData.lastName := "Moreau";
     UserData.role := founder;
     UserData.company := None;
     UserData.phone := Some "" |}.

(** A signed-in user changes the email of the profile to an address
    without a top-level domain and deletes the account. *)
Definition accountDeletedAsLocalhost : AuthState.t :=
  stateAfter
    (login (envAt 1700000000000) "john.doe@example.com" "secret1";;
     updateUser (UserPatch.mk (Some "admin@localhost") None None None None None);;
     deleteAccount (envAt 1700000100000) "closing")
    initialAuthState.

Definition localhostAgain : UserData.t :=
  {| UserData.email := "admin@localhost";
     UserData.password := "Str0ng!pass";
     UserData.firstName := "Alex";
     UserData.lastName := "Moreau";
     UserData.role := founder;
     UserData.company := None;
     UserData.phone := Some "" |}.

(** Ann Lee registers with the phone field left empty, as the form sends
    it, and deletes her account. *)
Definition annLee : UserData.t :=
  {| UserData.email := "ann.lee@example.com";
     UserData.password := "Str0ng!pass";
     UserData.firstName := "Ann";
     UserData.lastName := "Lee";
     UserData.role := procurement_manager;
     UserData.company := Some "Lee Tooling";
     UserData.phone := Some "" |}.

Definition annLeeDeleted : AuthState.t :=
  stateAfter
    (register (envAt 1700000000000) annLee;;
     deleteAccount (envAt 1700000100000) "moving on")
    initialAuthState.

(** Someone of the same name, in other letter case, with another email
    and the phone field empty again. *)
Definition annLeeNamesake : UserData.t :=
  {| UserData.email := "a.lee@elsewhere.org";
     UserData.password := "Str0ng!pass";
     UserData.firstName := "ANN";
     UserData.lastName := "lee";
     UserData.role := founder;
     UserData.company := None;
     UserData.phone := Some "" |}.

Definition annLeeNamesakeBadEmail : UserData.t :=
  {| UserData.email := "a.lee at elsewhere";
     UserData.password := "Str0ng!pass";
     UserData.firstName := "ANN";
     UserData.lastName := "lee";
     UserData.role := founder;
     UserData.company := None;
     UserData.phone := Some "" |}.

(** The entry [register] logs when it blocks a request. *)
Definition blockedAttempt (env : Env.t) (userData : UserData.t)
  (blockReason deletedAccountId : string) : RegistrationAttempt.t :=
  {| RegistrationAttempt.id :=
       String.append "attempt_" (JSString.ofZ (Env.now env));
     RegistrationAttempt.email := UserData.email userData;
     RegistrationAttempt.firstName := Some (UserData.firstName userData);
     RegistrationAttempt.lastName := Some (UserData.lastName userData);
     RegistrationAttempt.phone := UserData.phone userData;
     RegistrationAttempt.attemptedAt := Env.now env;
     RegistrationAttempt.ipAddress := Some getClientIP;
     RegistrationAttempt.userAgent := Some (Env.userAgent env);
     RegistrationAttempt.blocked := true;
     RegistrationAttempt.blockReason := Some blockReason;
     RegistrationAttempt.deletedAccountId := Some deletedAccountId |}.

(** The email of a deleted account is the request's, up to letter case. *)
Definition sameEmail (email : string) (d : DeletedAccount.t) : bool :=
  String.eqb (JSString.toLowerCase (DeletedAccount.email d))
             (JSString.toLowerCase email).

(** A loaded store, and the component after a search that matches no
    record followed by one click on the next-page button. *)
Definition loadedStore : Props.t := Props.mk [acme; bolt] (ofInt 2025).

Definition afterNextOnNoMatch : Component.t :=
  render loadedStore
    (handle NextPage
       (render loadedStore
          (handle (UpdateFilter (set_search "zzz"))
             (render loadedStore initialComponent)))).

(** ** Bucket labels of the range selects *)

Definition employeeBuckets : list string :=
  ["1-25"; "26-50"; "51-100"; "101-250"; "251-500"; "500+"].
Definition revenueBuckets : list string :=
  ["0-1M"; "1M-10M"; "10M-50M"; "50M-100M"; "100M+"].
Definition capacityBuckets : list string := ["low"; "medium"; "high"].
Definition yearBuckets : list string := ["0-5"; "6-15"; "16-30"; "30+"].

(** The labels of a select under which a record passes the block that
    reads the select, all other filters at their defaults. *)
Definition passingLabels (guard : FilterState.t -> Obj.t -> bool)
  (select : string -> FilterUpdate) (labels : list string)
  (m : Manufacturer.t) : list string :=
  List.filter
    (fun label => guard (assign (select label) defaultFilters) (ofManufacturer m))
    labels.

(** Two records tie at a sort key: neither value is below the other. *)
Definition sameKey (k : SortKey) (a b : Manufacturer.t) : bool :=
  negb (less k a b) && negb (less k b a).

(** The order a direction asks of a record [a] placed before a record [b]. *)
Definition inOrder (k : SortKey) (d : Direction) (a b : Manufacturer.t) : Prop :=
  match d with
  | asc => less k b a = false
  | desc => less k a b = false
  end.

(** [toggleSelectAll]: the check box in the table header. *)
Definition toggleSelectAll (p : Props.t) (c : Component.t) : Component.t :=
  let visible := map Manufacturer.id (paginatedData p c) in
  let allVisible : gset string := list_to_set visible in
  let allSelected :=
    forallb (fun id => bool_decide (id ∈ Component.selectedRows c)) visible in
  if allSelected
  then setSelectedRows (fun prev => prev ∖ allVisible) c
  else setSelectedRows (fun prev => prev ∪ allVisible) c.

Definition flipDirection (d : Direction) : Direction :=
  match d with asc => desc | desc => asc end.

(** *** Email verification *)

Definition markVerified (now : Z) (v : EmailVerification.t)
  : EmailVerification.t :=
  {| EmailVerification.id := EmailVerification.id v;
     EmailVerification.email := EmailVerification.email v;
     EmailVerification.token := EmailVerification.token v;
     EmailVerification.expiresAt := EmailVerification.expiresAt v;
     EmailVerification.createdAt := EmailVerification.createdAt v;
     EmailVerification.verified := true;
     EmailVerification.verifiedAt := Some now;
     EmailVerification.attempts := EmailVerification.attempts v |}.

Definition expireAt (now : Z) (v : EmailVerification.t) : EmailVerification.t :=
  {| EmailVerification.id := EmailVerification.id v;
     EmailVerification.email := EmailVerification.email v;
     EmailVerification.token := EmailVerification.token v;
     EmailVerification.expiresAt := now;
     EmailVerification.createdAt := EmailVerification.createdAt v;
     EmailVerification.verified := EmailVerification.verified v;
     EmailVerification.verifiedAt := EmailVerification.verifiedAt v;
     EmailVerification.attempts := EmailVerification.attempts v |}.

(** The test of [verifyEmail]'s [find]: the token, not verified yet. *)
Definition pendingWith (token : string) (v : EmailVerification.t) : bool :=
  String.eqb (EmailVerification.token v) token
  && negb (EmailVerification.verified v).

Definition verifyEmail (env : Env.t) (token : string) : Store bool :=
  emailVerifications ← gets AuthState.emailVerifications;
  match List.find (pendingWith token) emailVerifications with
  | None => mret false
  | Some verification =>
      if EmailVerification.expiresAt verification <? Env.now env
      then mret false
      else
        modify (setEmailVerifications
          (map (fun v =>
             if String.eqb (EmailVerification.id v)
                           (EmailVerification.id verification)
             then markVerified (Env.now env) v
             else v)));;
        mret true
  end.

Definition resendEmailVerification (env : Env.t) (email : string)
  : Store unit :=
  modify (setEmailVerifications
    (map (fun v =>
       if String.eqb (EmailVerification.email v) email
       then expireAt (Env.now env) v
       else v)));;
  sendEmailVerification env email.

(** *** Runs of several calls *)

(** Login attempts for one email, one after the other, each with its own
    clock reading and password; the caller catches what an attempt throws. *)
Definition loginAttempts (email : string) (attempts : list (Env.t * string))
  (s : AuthState.t) : AuthState.t :=
  fold_left
    (fun st attempt => stateAfter (login (fst attempt) email (snd attempt)) st)
    attempts s.

(** A value that may be [null] or [undefined] is there. *)
Definition isSome {A : Type} (o : option A) : bool :=
  match o with Some _ => true | None => false end.

(** What a rejected request must leave alone: the registered emails, the
    session and the verification tokens. *)
Definition sameAccounts (s s' : AuthState.t) : Prop :=
  AuthState.registeredEmails s' = AuthState.registeredEmails s
  /\ AuthState.user s' = AuthState.user s
  /\ AuthState.isAuthenticated s' = AuthState.isAuthenticated s
  /\ AuthState.emailVerifications s' = AuthState.emailVerifications s.

(** The checks of [register], in the order the method makes them. *)
Definition registrable (userData : UserData.t) (s : AuthState.t) : bool :=
  validateEmailFormat (UserData.email userData)
  && negb (checkEmailExists (UserData.email userData) s)
  && negb (isSome (checkDeletedAccount (UserData.email userData)
                     (UserData.phone userData) s))
  && negb (isSome (List.find (similarTo userData) (AuthState.deletedAccounts s))).

(** The checks of [login], in the order the method makes them. *)
Definition admissible (env : Env.t) (email password : string)
  (s : AuthState.t) : bool :=
  validateEmailFormat email
  && negb (LockoutStatus.isLocked (checkAccountLockout env email s))
  && checkEmailExists email s
  && negb (isSome (checkDeletedAccount email None s))
  && (6 <=? String.length password)%nat.

(** *** The store as its callers see it

    A call of one of the store's methods that write to the state; the
    caller catches what the call throws. *)
Inductive Call : Type :=
| Login (email password : string)
| Register (userData : UserData.t)
| Logout
| UpdateUser (userData : UserPatch.t)
| DeleteAccount (reason : string)
| SendEmailVerification (email : string)
| VerifyEmail (token : string)
| ResendEmailVerification (email : string)
| LogAuthenticationAttempt (email : string) (action : AuthAction)
    (reason : option string) (ipAddress userAgent : string)
    (userId : option string) (success : bool)
    (metadata : list (string * MetaValue))
| LogRegistrationAttempt (email : string)
    (firstName lastName phone ipAddress userAgent : option string)
    (blocked : bool) (blockReason deletedAccountId : option string)
| AddDeletionAuditEntry (deletedAccountId : string) (action : AuditAction)
    (performedBy details : string) (ipAddress userAgent : option string).

Definition perform (env : Env.t) (c : Call) (s : AuthState.t) : AuthState.t :=
  match c with
  | Login email password => stateAfter (login env email password) s
  | Register userData => stateAfter (register env userData) s
  | Logout => stateAfter (logout env) s
  | UpdateUser userData => stateAfter (updateUser userData) s
  | DeleteAccount reason => stateAfter (deleteAccount env reason) s
  | SendEmailVerification email => stateAfter (sendEmailVerification env email) s
  | VerifyEmail token => stateAfter (verifyEmail env token) s
  | ResendEmailVerification email =>
      stateAfter (resendEmailVerification env email) s
  | LogAuthenticationAttempt email action reason ipAddress userAgent userId
      success metadata =>
      stateAfter
        (logAuthenticationAttempt env email action reason ipAddress userAgent
           userId success metadata) s
  | LogRegistrationAttempt email firstName lastName phone ipAddress userAgent
      blocked blockReason deletedAccountId =>
      stateAfter
        (logRegistrationAttempt env email firstName lastName phone ipAddress
           userAgent blocked blockReason deletedAccountId) s
  | AddDeletionAuditEntry deletedAccountId action performedBy details
      ipAddress userAgent =>
      stateAfter
        (addDeletionAuditEntry env deletedAccountId action performedBy details
           ipAddress userAgent) s
  end.

(** Calls one after the other, each with its own clock reading. *)
Definition performAll (calls : list (Env.t * Call)) (s : AuthState.t)
  : AuthState.t :=
  fold_left (fun st call => perform (fst call) (snd call) st) calls s.

(** The registered emails are lower-case and hold no email twice, and no
    deleted account's email is among them. *)
Definition emailsConsistent (s : AuthState.t) : Prop :=
  List.NoDup (AuthState.registeredEmails s)
  /\ List.Forall (fun email => JSString.toLowerCase email = email)
       (AuthState.registeredEmails s)
  /\ List.Forall
       (fun email =>
          strIn (JSString.toLowerCase email) (AuthState.registeredEmails s)
          = false)
       (map DeletedAccount.email (AuthState.deletedAccounts s)).

(** *** [activeFilterCount] *)

Definition activeFilterCount (f : FilterState.t) : nat :=
  (if nonEmpty (FilterState.search f) then 1 else 0)
  + List.length (FilterState.capabilities f)
  + List.length (FilterState.materials f)
  + List.length (FilterState.certifications f)
  + List.length (FilterState.states f)
  + (if eqLit (FilterState.employeeRange f) "all" then 0 else 1)
  + (if eqLit (FilterState.revenueRange f) "all" then 0 else 1)
  + (if eqLit (FilterState.capacityRange f) "all" then 0 else 1)
  + (if eqLit (FilterState.ratingRange f) "all" then 0 else 1)
  + (match FilterState.diversityFlag f with Some _ => 1 | None => 0 end)
  + (if ltb (ofInt 0) (FilterState.sustainabilityMin f) then 1 else 0)
  + (if eqLit (FilterState.yearEstablishedRange f) "all" then 0 else 1).

(** * Properties *)

(** ** The pager *)

Section Pager.
Context {A : Type}.
Implicit Types (r : list A) (k : Z).

Lemma ceilDiv_covers (n k : Z) : 0 < k -> 0 <= n -> n <= ceilDiv n k * k.
Proof.
  intros Hk Hn. unfold ceilDiv.
  pose proof (Z.div_mod (- n) k ltac:(lia)).
  pose proof (Z.mod_pos_bound (- n) k Hk). nia.
Qed.

Lemma ceilDiv_nonneg (n k : Z) : 0 < k -> 0 <= n -> 0 <= ceilDiv n k.
Proof.
  intros Hk Hn. unfold ceilDiv.
  pose proof (Z.div_mod (- n) k ltac:(lia)).
  pose proof (Z.mod_pos_bound (- n) k Hk). nia.
Qed.

(** A slice between two indices that are not negative. *)
Lemma slice_nonneg r (a b : nat) :
  slice r (Z.of_nat a) (Z.of_nat b) = firstn (b - a) (skipn a r).
Proof.
  unfold slice.
  destruct (Z.ltb_spec (Z.of_nat a) 0) as [?|_]; [lia|].
  destruct (Z.ltb_spec (Z.of_nat b) 0) as [?|_]; [lia|].
  destruct (Nat.le_gt_cases a (List.length r)) as [Ha|Ha].
  - rewrite (Z.min_l (Z.of_nat a)) by lia. rewrite Nat2Z.id.
    destruct (Nat.le_gt_cases b (List.length r)) as [Hb|Hb].
    + rewrite Z.min_l by lia. f_equal. lia.
    + rewrite Z.min_r by lia.
      rewrite !firstn_all2; [reflexivity| |]; rewrite length_skipn; lia.
  - rewrite (Z.min_r (Z.of_nat a)) by lia.
    rewrite !skipn_all2 by lia. now rewrite !firstn_nil.
Qed.

Lemma firstn_extend r (a b : nat) :
  (a <= b)%nat -> firstn a r ++ firstn (b - a) (skipn a r) = firstn b r.
Proof.
  intros Hab.
  rewrite <- (firstn_skipn a r) at 3.
  rewrite firstn_app, firstn_firstn, Nat.min_r by lia. f_equal.
  rewrite length_firstn.
  destruct (Nat.le_gt_cases a (List.length r)).
  - f_equal. lia.
  - rewrite !skipn_all2 by lia. now rewrite !firstn_nil.
Qed.

(** The pages below [n + 1], one after the other, are the first [n * k]
    records. *)
Lemma pages_prefix r k (n : nat) :
  0 < k ->
  concat (map (fun i => page r (Z.of_nat i) k) (seq 1 n))
  = firstn (n * Z.to_nat k) r.
Proof.
  intros Hk. induction n as [|n IH]; [reflexivity|].
  rewrite seq_S, map_app, concat_app, IH. cbn [map concat Nat.add].
  rewrite app_nil_r. unfold page.
  replace ((Z.of_nat (S n) - 1) * k) with (Z.of_nat (n * Z.to_nat k)) by nia.
  replace (Z.of_nat (n * Z.to_nat k) + k) with (Z.of_nat (S n * Z.to_nat k)) by nia.
  rewrite slice_nonneg.
  apply firstn_extend. nia.
Qed.

Lemma pages_seqZ r k (n : Z) :
  map (fun p => page r p k) (seqZ 1 n)
  = map (fun i => page r (Z.of_nat i) k) (seq 1 (Z.to_nat n)).
Proof.
  unfold seqZ. rewrite <- seq_shift.
  change (fmap ?f ?l) with (map f l). rewrite !map_map.
  apply map_ext. intros i. f_equal. lia.
Qed.

(** C6. For a collection [r] and a page size [k > 0], the slices of the
    pages 1 to [totalPages = ceil(|r| / k)], taken in order and put end to
    end, are [r] itself: every record once, in its place. *)
Theorem pages_concat_is_collection r k :
  0 < k ->
  concat (map (fun p => page r p k) (seqZ 1 (totalPagesOf r k))) = r.
Proof.
  intros Hk. rewrite pages_seqZ, pages_prefix by assumption.
  apply firstn_all2. unfold totalPagesOf.
  pose proof (ceilDiv_covers (Z.of_nat (List.length r)) k Hk ltac:(lia)).
  pose proof (ceilDiv_nonneg (Z.of_nat (List.length r)) k Hk ltac:(lia)).
  nia.
Qed.

End Pager.

Lemma pages_concat_is_collection_witness :
  0 < 2 /\
  (concat (map (fun p => page [10; 20; 30; 40; 50] p 2)
               (seqZ 1 (totalPagesOf [10; 20; 30; 40; 50] 2)))
   = [10; 20; 30; 40; 50]).
Proof.
  split; [lia | apply (pages_concat_is_collection [10; 20; 30; 40; 50] 2); lia].
Defined.

(** ** The component's pagination state *)

Section Pagination.
Variable p : Props.t.

Lemma render_settled (c : Component.t) :
  0 < PaginationConfig.itemsPerPage (Component.pagination c) ->
  settled p (render p c).
Proof. intros H. repeat split; assumption. Qed.

Lemma handle_itemsPerPage (a : Action) (c : Component.t) :
  offered a c = true ->
  0 < PaginationConfig.itemsPerPage (Component.pagination c) ->
  0 < PaginationConfig.itemsPerPage (Component.pagination (handle a c)).
Proof.
  destruct a; cbn; intros Ho H; try assumption.
  repeat (apply orb_prop in Ho as [Ho|Ho]); apply Z.eqb_eq in Ho; lia.
Qed.

Lemma reachable_settled (c : Component.t) : reachable p c -> settled p c.
Proof.
  induction 1 as [|a c Hc IH Ho].
  - apply render_settled. cbn. lia.
  - apply render_settled, handle_itemsPerPage; [assumption|apply IH].
Qed.

(** Every filter change puts the table back on page 1. *)
Lemma filter_change_resets_page (a : Action) (c : Component.t) :
  match a with
  | UpdateFilter _ | ToggleFilterArray _ _ | ClearAllFilters => True
  | _ => False
  end ->
  currentPageOf (render p (handle a c)) = 1.
Proof. destruct a; cbn; intros H; (reflexivity || contradiction). Qed.

(** The page actions leave the data, hence the totals, as they were. *)
Lemma page_action_keeps_totals (a : Action) (c : Component.t) :
  match a with PreviousPage | NextPage | SelectPage _ => True | _ => False end ->
  settled p c ->
  totalPagesIn (render p (handle a c)) = totalPagesIn c.
Proof.
  destruct a; cbn; intros H (_ & Ht & _); try contradiction;
    unfold totalPagesIn; cbn; symmetry; exact Ht.
Qed.

(** One action keeps the invariant, except the next-page button when
    there is no page at all. *)
Lemma pageInvariant_preserved (a : Action) (c : Component.t) :
  settled p c -> pageInvariant c -> offered a c = true ->
  (a = NextPage -> totalPagesIn c <> 0) ->
  pageInvariant (render p (handle a c)).
Proof.
  intros Hs (Hlo & Hhi & _) Ho Hnext.
  assert (Hshape : forall c', settled p c' ->
            1 <= currentPageOf c' <= Z.max 1 (totalPagesIn c') ->
            pageInvariant c').
  { intros c' (Hi & Ht & Hk) Hb. unfold pageInvariant.
    split; [apply Hb|split; [apply Hb|]].
    rewrite Ht, Hi. reflexivity. }
  apply Hshape.
  { apply render_settled, handle_itemsPerPage; [assumption|apply Hs]. }
  destruct a;
    match goal with |- context [handle ?act c] =>
      try (rewrite (filter_change_resets_page act c I); lia);
      try (rewrite (page_action_keeps_totals act c I Hs))
    end.
  - (* page size *) cbn. lia.
  - (* previous *) cbn in *. apply negb_true_iff, Z.eqb_neq in Ho.
    unfold currentPageOf, totalPagesIn in *. cbn. lia.
  - (* next *) cbn in *. apply negb_true_iff, Z.eqb_neq in Ho.
    specialize (Hnext eq_refl).
    assert (0 <= totalPagesIn c).
    { destruct Hs as (_ & Ht & Hk). unfold totalPagesIn. rewrite Ht.
      apply ceilDiv_nonneg; [assumption|lia]. }
    unfold currentPageOf, totalPagesIn in *. cbn. lia.
  - (* page button *) cbn in *. unfold currentPageOf, totalPagesIn in *. cbn.
    apply andb_prop in Ho as [H1 H2].
    apply Z.leb_le in H1, H2. lia.
Qed.

End Pagination.

(** C2, at the input where the code leaves the invariant. With no record
    to show ([manufacturers] is empty, as in the store before loading, or
    any filter that matches nothing), [totalPages] is 0 while
    [currentPage] is 1, so the next-page button, disabled only when
    [currentPage === totalPages], is offered; one click gives page 2 of 0,
    which breaks [currentPage <= max(1, totalPages)]. *)
Theorem next_page_on_empty_table_breaks_invariant :
  reachable emptyStore afterNextOnEmpty
  /\ offered NextPage (render emptyStore initialComponent) = true
  /\ currentPageOf afterNextOnEmpty = 2
  /\ totalPagesIn afterNextOnEmpty = 0
  /\ ~ pageInvariant afterNextOnEmpty.
Proof.
  split; [|split; [reflexivity|split; [reflexivity|split; [reflexivity|]]]].
  - apply reach_action; [apply reach_mount|reflexivity].
  - intros (_ & Hhi & _). vm_compute in Hhi. apply Hhi. reflexivity.
Qed.

(** The same on a loaded table, once a search matches no record. *)
Example next_page_after_empty_search :
  reachable loadedStore afterNextOnNoMatch
  /\ currentPageOf afterNextOnNoMatch = 2
  /\ totalPagesIn afterNextOnNoMatch = 0.
Proof.
  split; [|split; reflexivity].
  repeat (apply reach_action; [|reflexivity]). apply reach_mount.
Qed.

(** ** Export *)

(** C8. With an empty selection, [exportData] reports an error to the
    user and does nothing else: nothing is serialized or downloaded, and
    the component state (selection, filters, sort configuration,
    pagination and the rest) is the one it started from. *)
Theorem export_of_empty_selection (numberToString : number -> string)
  (downloadThrows : bool) (manufacturers : list Manufacturer.t)
  (c : Component.t) :
  Component.selectedRows c = ∅ ->
  exportData numberToString downloadThrows manufacturers c
    = (c, [ToastError "Please select rows to export"])
  /\ noDownload (snd (exportData numberToString downloadThrows manufacturers c)).
Proof.
  intros Hsel.
  unfold exportData. rewrite Hsel, size_empty. cbn.
  split; [reflexivity|]. repeat constructor.
Qed.

Lemma export_of_empty_selection_witness :
  Component.selectedRows initialComponent = ∅
  /\ exportData decimalText false [acme; bolt] initialComponent
       = (initialComponent, [ToastError "Please select rows to export"])
  /\ noDownload
       (snd (exportData decimalText false [acme; bolt] initialComponent)).
Proof.
  split; [reflexivity|].
  apply (export_of_empty_selection decimalText false [acme; bolt]
           initialComponent).
  reflexivity.
Defined.

(** With a record selected the same call does serialize and download. *)
Example export_of_one_selected :
  exists csv,
    snd (exportData decimalText false [acme; bolt]
           (toggleRowSelection "factory-002" initialComponent))
    = [Download csv "manufacturer-data.csv";
       ToastSuccess "Exported 1 manufacturers"].
Proof. eexists. vm_compute. reflexivity. Qed.

(** ** Strings *)

Lemma startsWith_iff (s t : string) :
  JSString.startsWith s t = true <-> exists b, s = String.append t b.
Proof.
  revert s. induction t as [|c t IH]; intros s; cbn.
  - split; [intros _; now exists s|reflexivity].
  - destruct s as [|d s]; [split; [discriminate|intros [b Hb]; discriminate]|].
    rewrite andb_true_iff, Ascii.eqb_eq, IH.
    split; [intros [-> [b ->]]; now exists b|intros [b Hb]].
    injection Hb as -> ->. split; [reflexivity|now exists b].
Qed.

(** [includes] decides the substring relation. *)
Lemma includes_iff (s t : string) :
  JSString.includes s t = true <-> JSString.isSubstringOf t s.
Proof.
  unfold JSString.isSubstringOf.
  induction s as [|c s IH]; cbn [JSString.includes].
  - rewrite orb_false_r, startsWith_iff. split.
    + intros [b Hb]. now exists EmptyString, b.
    + intros (a & b & Hab). destruct a; [now exists b|discriminate].
  - rewrite orb_true_iff, startsWith_iff, IH. split.
    + intros [[b Hb]|(a & b & Hab)].
      * now exists EmptyString, b.
      * exists (String c a), b. rewrite Hab. reflexivity.
    + intros (a & b & Hab). destruct a as [|c' a]; [left; now exists b|right].
      exists a, b. cbn in Hab. now injection Hab.
Qed.

(** ** The filter callback *)

Lemma some_present (l sel : list string) :
  some (fun x => arrIncludes (Some l) x) sel = Normal (existsb (fun x => strIn x l) sel).
Proof.
  induction sel as [|x sel IH]; [reflexivity|].
  cbn. destruct (strIn x l); [reflexivity|exact IH].
Qed.

Lemma arrayGuard_present (sel l : list string) :
  exists b, arrayGuard sel (Some l) = Normal b.
Proof.
  destruct sel as [|x sel]; [now exists true|].
  eexists. unfold arrayGuard. apply some_present.
Qed.

Lemma arrayGuard_missing (sel : list string) :
  sel <> [] -> arrayGuard sel None = Throw TypeError.
Proof. destruct sel; [congruence|reflexivity]. Qed.

(** With its three arrays an object goes through the callback without an
    exception, whatever else it lacks. *)
Lemma filterCallback_returns (year : number) (f : FilterState.t) (o : Obj.t) :
  hasArrays o -> exists b, filterCallback year f o = Normal b.
Proof.
  intros (Hc & Hm & Hce).
  destruct (Obj.capabilities o) as [caps|] eqn:Ecaps; [|congruence].
  destruct (Obj.materials o) as [mats|] eqn:Emats; [|congruence].
  destruct (Obj.certifications o) as [certs|] eqn:Ecerts; [|congruence].
  unfold filterCallback, searchGuard, searchableText, capabilitiesGuard,
    materialsGuard, certificationsGuard.
  rewrite Ecaps, Emats, Ecerts.
  destruct (arrayGuard_present (FilterState.capabilities f) caps) as [b1 ->].
  destruct (arrayGuard_present (FilterState.materials f) mats) as [b2 ->].
  destruct (arrayGuard_present (FilterState.certifications f) certs)
    as [b3 ->].
  destruct (eqLit (FilterState.search f) ""); cbn;
    repeat match goal with
           | |- context [if ?b then _ else _] => destruct b; cbn
           end; eauto.
Qed.

Lemma ofManufacturer_hasArrays (m : Manufacturer.t) :
  hasArrays (ofManufacturer m).
Proof. repeat split; discriminate. Qed.

(** On the records of the typed store the callback is a total predicate,
    the one [passes] reads off. *)
Lemma filterCallback_typed (year : number) (f : FilterState.t)
  (m : Manufacturer.t) :
  filterCallback year f (ofManufacturer m) = Normal (passes year f m).
Proof.
  unfold passes.
  destruct (filterCallback_returns year f _ (ofManufacturer_hasArrays m))
    as [b ->].
  reflexivity.
Qed.

Lemma filterPipeline_returns (year : number) (f : FilterState.t)
  (objs : list Obj.t) :
  Forall hasArrays objs -> exists kept, filterPipeline year f objs = Normal kept.
Proof.
  unfold filterPipeline. induction 1 as [|o objs Ho _ [kept IH]].
  - now exists [].
  - destruct (filterCallback_returns year f o Ho) as [b Hb].
    cbn. rewrite Hb. cbn. rewrite IH. cbn. eauto.
Qed.

(** The filter stage on typed records is [filtered]. *)
Lemma filterPipeline_typed (year : number) (f : FilterState.t)
  (ms : list Manufacturer.t) :
  filterPipeline year f (map ofManufacturer ms)
  = Normal (map ofManufacturer (filtered year f ms)).
Proof.
  unfold filterPipeline, filtered. induction ms as [|m ms IH]; [reflexivity|].
  cbn. rewrite filterCallback_typed. cbn. rewrite IH. cbn.
  now destruct (passes year f m).
Qed.

(** The default configuration filters nothing out. *)
Lemma default_filters_pass (year : number) (ms : list Manufacturer.t) :
  filtered year defaultFilters ms = ms.
Proof.
  unfold filtered. induction ms as [|m ms IH]; [reflexivity|].
  cbn [List.filter]. change (passes year defaultFilters m) with true.
  now rewrite IH.
Qed.

(** C1, as amended. With a non-empty search string, the search block
    passes a record exactly when the lower-cased term occurs in the
    lower-cased text made of the record's name, city, state, industry
    keywords and primary applications and of every capability and every
    material, joined by single spaces. Certifications are not part of
    the text. *)
Theorem search_passes_iff (f : FilterState.t) (m : Manufacturer.t) :
  FilterState.search f <> EmptyString ->
  searchGuard f (ofManufacturer m) = Normal true
  <-> JSString.isSubstringOf
        (JSString.toLowerCase (FilterState.search f))
        (JSString.toLowerCase (searchedText m)).
Proof.
  intros Hne. rewrite <- includes_iff.
  unfold searchGuard, eqLit.
  destruct (String.eqb_spec (FilterState.search f) "") as [E|_];
    [contradiction|].
  cbn. fold (searchedText m).
  split; [now intros [= ->]|now intros ->].
Qed.

Lemma search_passes_iff_witness :
  FilterState.search (searchFor "weld") <> EmptyString
  /\ (searchGuard (searchFor "weld") (ofManufacturer acme) = Normal true
      <-> JSString.isSubstringOf
            (JSString.toLowerCase (FilterState.search (searchFor "weld")))
            (JSString.toLowerCase (searchedText acme))).
Proof.
  split; [discriminate|].
  apply (search_passes_iff (searchFor "weld") acme). discriminate.
Defined.

(** C1 as stated fails. A term found only in a certification occurs in
    the claimed text, yet the record is filtered out; a term found in the
    primary applications, or running over the space between two fields,
    passes the record without occurring in the claimed text. *)
Lemma search_text_differs_from_claim :
  (JSString.includes (JSString.toLowerCase (claimedSearchText acme))
     (JSString.toLowerCase "ISO") = true
   /\ searchGuard (searchFor "ISO") (ofManufacturer acme) = Normal false)
  /\ (JSString.includes (JSString.toLowerCase (claimedSearchText acme))
        (JSString.toLowerCase "automotive") = false
      /\ searchGuard (searchFor "automotive") (ofManufacturer acme) = Normal true)
  /\ (JSString.includes (JSString.toLowerCase (claimedSearchText acme))
        (JSString.toLowerCase "inc. austin") = false
      /\ searchGuard (searchFor "inc. austin") (ofManufacturer acme) = Normal true).
Proof. repeat split; vm_compute; reflexivity. Qed.

(** C3, as amended. An object that has its capabilities, materials and
    certifications arrays goes through the filter stage without an
    exception, whatever other attribute it lacks; lacking its state or
    its diversity flag, it is excluded when the filter reading that
    attribute is set. An object without its capabilities array makes the
    callback throw a TypeError as soon as the text search or the
    capabilities filter is set, and the materials and certifications
    blocks throw alike on a missing array. A missing number excludes
    nothing: every comparison with it is false, so the range, rating,
    sustainability and age blocks let the record through. *)
Theorem missing_attribute_behaviour (year : number) (f : FilterState.t)
  (o : Obj.t) :
  (forall objs, Forall hasArrays objs ->
     exists kept, filterPipeline year f objs = Normal kept)
  /\ (hasArrays o -> Obj.state o = None -> FilterState.states f <> [] ->
      filterCallback year f o = Normal false)
  /\ (hasArrays o -> Obj.diversityFlag o = None ->
      FilterState.diversityFlag f <> None ->
      filterCallback year f o = Normal false)
  /\ (Obj.capabilities o = None ->
      FilterState.search f <> EmptyString \/ FilterState.capabilities f <> [] ->
      filterCallback year f o = Throw TypeError)
  /\ (Obj.materials o = None -> FilterState.materials f <> [] ->
      materialsGuard f o = Throw TypeError)
  /\ (Obj.certifications o = None -> FilterState.certifications f <> [] ->
      certificationsGuard f o = Throw TypeError)
  /\ (Obj.numberOfEmployees o = None -> employeeGuard f o = true)
  /\ (Obj.annualRevenue o = None -> revenueGuard f o = true)
  /\ (Obj.currentCapacity o = None -> capacityGuard f o = true)
  /\ (Obj.rating o = None -> ratingGuard f o = true)
  /\ (Obj.sustainabilityScore o = None -> sustainabilityGuard f o = true)
  /\ (Obj.yearEstablished o = None -> yearGuard year f o = true).
Proof.
  assert (Hexcl : hasArrays o ->
    statesGuard f o = false \/ diversityGuard f o = false ->
    filterCallback year f o = Normal false).
  { intros Ho Hfalse.
    destruct (filterCallback_returns year f o Ho) as [b Hb]. rewrite Hb.
    destruct b; [exfalso|reflexivity].
    unfold filterCallback, andThen in Hb.
    destruct (searchGuard f o) as [[]|]; cbn in Hb; try discriminate.
    destruct (capabilitiesGuard f o) as [[]|]; cbn in Hb; try discriminate.
    destruct (materialsGuard f o) as [[]|]; cbn in Hb; try discriminate.
    destruct (certificationsGuard f o) as [[]|]; cbn in Hb; try discriminate.
    injection Hb as Hb.
    destruct Hfalse as [E|E]; rewrite E in Hb;
      rewrite ?andb_false_r in Hb; cbn in Hb; discriminate. }
  split; [intros objs; apply filterPipeline_returns|].
  split.
  { intros Ho Hs Hsel. apply (Hexcl Ho). left.
    unfold statesGuard. rewrite Hs. now destruct (FilterState.states f). }
  split.
  { intros Ho Hd Hsel. apply (Hexcl Ho). right.
    unfold diversityGuard. rewrite Hd.
    now destruct (FilterState.diversityFlag f). }
  split.
  { intros Hc Hact. unfold filterCallback, andThen, searchGuard,
      searchableText, capabilitiesGuard, eqLit.
    rewrite Hc.
    destruct (String.eqb_spec (FilterState.search f) "") as [E|_];
      [|reflexivity].
    destruct Hact as [Hact|Hact]; [contradiction|].
    cbn. now rewrite arrayGuard_missing. }
  split.
  { intros Hm Hsel. unfold materialsGuard. rewrite Hm.
    now apply arrayGuard_missing. }
  split.
  { intros Hm Hsel. unfold certificationsGuard. rewrite Hm.
    now apply arrayGuard_missing. }
  repeat split; intros Hn.
  - unfold employeeGuard. rewrite Hn. cbn.
    repeat match goal with |- context [if ?b then _ else _] => destruct b end;
      reflexivity.
  - unfold revenueGuard. rewrite Hn. cbn.
    repeat match goal with |- context [if ?b then _ else _] => destruct b end;
      reflexivity.
  - unfold capacityGuard. rewrite Hn. cbn.
    repeat match goal with |- context [if ?b then _ else _] => destruct b end;
      reflexivity.
  - unfold ratingGuard. rewrite Hn. cbn.
    repeat match goal with |- context [if ?b then _ else _] => destruct b end;
      reflexivity.
  - unfold sustainabilityGuard. rewrite Hn.
    now destruct (ltb _ (FilterState.sustainabilityMin f)).
  - unfold yearGuard. rewrite Hn. cbn.
    repeat match goal with |- context [if ?b then _ else _] => destruct b end;
      reflexivity.
Qed.

Lemma missing_attribute_behaviour_witness :
  hasArrays acmeWithoutState
  /\ Obj.state acmeWithoutState = None
  /\ FilterState.states (assign (set_states ["TX"]) defaultFilters) <> []
  /\ filterCallback (ofInt 2025) (assign (set_states ["TX"]) defaultFilters)
       acmeWithoutState = Normal false.
Proof.
  assert (Ha : hasArrays acmeWithoutState) by (repeat split; discriminate).
  assert (Hs : FilterState.states (assign (set_states ["TX"]) defaultFilters)
               <> []) by discriminate.
  split; [exact Ha|split; [reflexivity|split; [exact Hs|]]].
  exact (proj1 (proj2 (missing_attribute_behaviour (ofInt 2025)
           (assign (set_states ["TX"]) defaultFilters) acmeWithoutState))
         Ha eq_refl Hs).
Defined.

(** C3 as stated fails twice. A record without its capabilities array is
    not excluded by the capabilities filter: the callback, and with it the
    whole filter stage, throws. A record without its employee count is
    not excluded by the employee filter: it passes the range 1-25, which
    excludes the same record when the count, 40, is there. *)
Lemma missing_attribute_throws_or_passes :
  (filterCallback (ofInt 2025)
     (assign (set_capabilities ["Welding"]) defaultFilters)
     acmeWithoutCapabilities = Throw TypeError
   /\ filterPipeline (ofInt 2025)
        (assign (set_capabilities ["Welding"]) defaultFilters)
        [ofManufacturer bolt; acmeWithoutCapabilities] = Throw TypeError)
  /\ (filterCallback (ofInt 2025)
        (assign (set_employeeRange "1-25") defaultFilters)
        acmeWithoutEmployees = Normal true
      /\ filterCallback (ofInt 2025)
           (assign (set_employeeRange "1-25") defaultFilters)
           (ofManufacturer acme) = Normal false).
Proof. repeat split; vm_compute; reflexivity. Qed.

(** ** The sort stage *)

Lemma ltb_lt (x y : Qc) : ltb (Finite x) (Finite y) = true <-> (x < y)%Qc.
Proof.
  cbn. rewrite Qclt_alt. destruct (x ?= y)%Qc; split; congruence.
Qed.

Lemma ltb_irrefl (x : number) : ltb x x = false.
Proof.
  destruct x as [q| | |]; try reflexivity.
  apply not_true_is_false. rewrite ltb_lt. intros H.
  now apply (Qclt_not_eq q q H).
Qed.

Lemma ltb_trans (x y z : number) :
  ltb x y = true -> ltb y z = true -> ltb x z = true.
Proof.
  destruct x as [a| | |], y as [b| | |], z as [c| | |];
    try (cbn; congruence).
  rewrite !ltb_lt. apply Qclt_trans.
Qed.

(** Apart from NaN, two numbers neither of which is below the other are
    the same number. *)
Lemma ltb_connex (x y : number) :
  negb (isNaN x) = true -> negb (isNaN y) = true ->
  ltb x y = false -> ltb y x = false -> x = y.
Proof.
  destruct x as [a| | |], y as [b| | |]; try (cbn; congruence).
  intros _ _ Hxy Hyx. f_equal.
  apply Qcle_antisym; apply Qcnot_lt_le; rewrite <- ltb_lt; congruence.
Qed.

(** NaN is below nothing and nothing is below it. *)
Lemma ltb_NaN (x : number) : ltb NaN x = false /\ ltb x NaN = false.
Proof. now destruct x. Qed.

(** The same three facts for the order of strings by code units. *)
Lemma ascii_compare_refl (c : ascii) : Ascii.compare c c = Eq.
Proof. apply N.compare_refl. Qed.

Lemma string_compare_refl (s : string) : String.compare s s = Eq.
Proof.
  induction s as [|c s IH]; [reflexivity|].
  cbn. now rewrite ascii_compare_refl.
Qed.

Lemma string_compare_lt_trans (a b c : string) :
  String.compare a b = Lt -> String.compare b c = Lt -> String.compare a c = Lt.
Proof.
  revert b c. induction a as [|x a IH]; intros [|y b] [|z c]; cbn;
    try congruence.
  unfold Ascii.compare.
  destruct (N.compare_spec (N_of_ascii x) (N_of_ascii y)) as [Exy|Lxy|Gxy];
    try discriminate;
  destruct (N.compare_spec (N_of_ascii y) (N_of_ascii z)) as [Eyz|Lyz|Gyz];
    try discriminate; intros Hab Hbc.
  - rewrite Exy, Eyz, N.compare_refl. now apply IH with b.
  - rewrite Exy. now apply N.compare_lt_iff in Lyz as ->.
  - rewrite <- Eyz. now apply N.compare_lt_iff in Lxy as ->.
  - assert (N_of_ascii x < N_of_ascii z)%N as H by lia.
    now apply N.compare_lt_iff in H as ->.
Qed.

Lemma strLt_irrefl (s : string) : strLt s s = false.
Proof. unfold strLt. now rewrite string_compare_refl. Qed.

Lemma strLt_trans (a b c : string) :
  strLt a b = true -> strLt b c = true -> strLt a c = true.
Proof.
  unfold strLt. intros Hab Hbc.
  rewrite (string_compare_lt_trans a b c); [reflexivity| |].
  - now destruct (String.compare a b).
  - now destruct (String.compare b c).
Qed.

Lemma strLt_connex (a b : string) : strLt a b = false -> strLt b a = false -> a = b.
Proof.
  unfold strLt. rewrite (String.compare_antisym b a).
  destruct (String.compare a b) eqn:E; cbn; try discriminate.
  intros _ _. now apply String.compare_eq_iff.
Qed.

(** [less] at any key is a strict order on the values at that key, and
    connex on those that are not NaN. *)
Lemma less_irrefl (k : SortKey) (a : Manufacturer.t) : less k a a = false.
Proof. destruct k; cbn; auto using ltb_irrefl, strLt_irrefl. Qed.

Lemma less_trans (k : SortKey) (a b c : Manufacturer.t) :
  less k a b = true -> less k b c = true -> less k a c = true.
Proof. destruct k; cbn; eauto using ltb_trans, strLt_trans. Qed.

Lemma less_connex (k : SortKey) (a b : Manufacturer.t) :
  nanAt k a = false -> nanAt k b = false ->
  less k a b = false -> less k b a = false -> valueAt k a = valueAt k b.
Proof.
  destruct k; cbn; intros Ha Hb H1 H2; f_equal;
    try (now apply strLt_connex);
    apply ltb_connex; try assumption; now apply negb_true_iff.
Qed.

Lemma less_asym (k : SortKey) (a b : Manufacturer.t) :
  less k a b = true -> less k b a = false.
Proof.
  intros Hab. destruct (less k b a) eqn:Hba; [|reflexivity].
  rewrite <- (less_irrefl k a). symmetry. now apply less_trans with b.
Qed.

Lemma less_negtrans (k : SortKey) (a b c : Manufacturer.t) :
  nanAt k a = false -> nanAt k b = false ->
  less k b a = false -> less k c b = false -> less k c a = false.
Proof.
  intros Ha Hb Hba Hcb. destruct (less k c a) eqn:Hca; [|reflexivity].
  destruct (less k a b) eqn:Hab.
  - rewrite <- Hcb. symmetry. now apply less_trans with a.
  - rewrite <- Hcb, <- Hca. symmetry. destruct k; cbn in *.
    all: try (now rewrite (strLt_connex _ _ Hab Hba)).
    all: now rewrite (ltb_connex _ _ (proj2 (negb_true_iff _) Ha)
                        (proj2 (negb_true_iff _) Hb) Hab Hba).
Qed.

(** The comparator of the descending sort is the ascending one, negated. *)
Lemma compareFn_desc (k : SortKey) (a b : Manufacturer.t) :
  compareFn k desc a b = - compareFn k asc a b.
Proof.
  unfold compareFn. destruct (less k a b), (less k b a); reflexivity.
Qed.

Lemma compareFn_asc_le (k : SortKey) (a b : Manufacturer.t) :
  compareFn k asc a b <= 0 <-> less k b a = false.
Proof.
  unfold compareFn. destruct (less k a b) eqn:Hab.
  - rewrite (less_asym k a b Hab). split; [reflexivity|lia].
  - destruct (less k b a); split; (lia || congruence).
Qed.

Lemma compareFn_desc_le (k : SortKey) (a b : Manufacturer.t) :
  compareFn k desc a b <= 0 <-> less k a b = false.
Proof.
  unfold compareFn. destruct (less k a b) eqn:Hab.
  - split; (lia || congruence).
  - destruct (less k b a); split; (lia || congruence).
Qed.

(** *** Insertion sort with a comparator that is total, and transitive
    on the elements [ok] admits *)

Section ArraySort.
Context {A : Type} (cmp : A -> A -> Z) (ok : A -> Prop).
Hypothesis cmp_total : forall a b, cmp a b <= 0 \/ cmp b a <= 0.
Hypothesis cmp_trans : forall a b c, ok a -> ok b -> ok c ->
  cmp a b <= 0 -> cmp b c <= 0 -> cmp a c <= 0.

Lemma insert_perm (x : A) (l : list A) : Permutation (insert cmp x l) (x :: l).
Proof.
  induction l as [|y l IH]; [reflexivity|].
  cbn. destruct (cmp x y <=? 0); [reflexivity|].
  rewrite IH. apply perm_swap.
Qed.

Lemma arraySort_perm (l : list A) : Permutation (arraySort cmp l) l.
Proof.
  induction l as [|x l IH]; [reflexivity|].
  cbn. rewrite insert_perm. now constructor.
Qed.

Lemma insert_sorted (x : A) (l : list A) :
  ok x -> List.Forall ok l ->
  StronglySorted (fun a b => cmp a b <= 0) l ->
  StronglySorted (fun a b => cmp a b <= 0) (insert cmp x l).
Proof.
  intros Hx Hok Hsorted. revert Hok.
  induction Hsorted as [|y l Hs IH Hall]; intros Hok; [repeat constructor|].
  apply List.Forall_cons_iff in Hok as [Hy Hok].
  cbn. destruct (Z.leb_spec (cmp x y) 0) as [Hxy|Hxy].
  - constructor; [now constructor|].
    constructor; [assumption|].
    rewrite List.Forall_forall in *. intros b Hb.
    apply cmp_trans with y; auto.
  - constructor; [now apply IH|].
    apply (Permutation_Forall (x := x :: l)); [symmetry; apply insert_perm|].
    constructor; [|assumption].
    destruct (cmp_total x y); [lia|assumption].
Qed.

Lemma arraySort_sorted (l : list A) :
  List.Forall ok l ->
  StronglySorted (fun a b => cmp a b <= 0) (arraySort cmp l).
Proof.
  induction l as [|x l IH]; intros Hok; [constructor|].
  apply List.Forall_cons_iff in Hok as [Hx Hok].
  apply insert_sorted; [assumption| |now apply IH].
  apply (Permutation_Forall (x := l)); [symmetry; apply arraySort_perm|].
  assumption.
Qed.

End ArraySort.

(** Two arrangements of the same elements in a strict order are equal. *)
Lemma sorted_arrangement_unique {A : Type} (R : A -> A -> Prop) :
  (forall a, ~ R a a) -> (forall a b c, R a b -> R b c -> R a c) ->
  forall l1 l2, Permutation l1 l2 ->
    StronglySorted R l1 -> StronglySorted R l2 -> l1 = l2.
Proof.
  intros Hirr Htr l1. induction l1 as [|a l1 IH]; intros l2 Hp H1 H2.
  - symmetry. now apply Permutation_nil.
  - destruct l2 as [|b l2]; [apply Permutation_sym, Permutation_nil in Hp; discriminate|].
    apply StronglySorted_inv in H1 as [H1 Ha].
    apply StronglySorted_inv in H2 as [H2 Hb].
    assert (a = b) as <-.
    { assert (Hin : In a (b :: l2))
        by (apply (Permutation_in _ Hp); now left).
      destruct Hin as [<-|Hin]; [reflexivity|].
      assert (Hin' : In b (a :: l1))
        by (apply (Permutation_in _ (Permutation_sym Hp)); now left).
      destruct Hin' as [->|Hin']; [reflexivity|].
      rewrite List.Forall_forall in Ha, Hb.
      destruct (Hirr a). apply Htr with b; auto. }
    f_equal. apply IH; [now apply Permutation_cons_inv in Hp|assumption..].
Qed.

Lemma sorted_rev {A : Type} (R : A -> A -> Prop) (l : list A) :
  StronglySorted R l -> StronglySorted (fun a b => R b a) (rev l).
Proof.
  induction 1 as [|a l Hs IH Hall]; [constructor|].
  cbn. revert IH. generalize (rev l) (fun b => proj2 (in_rev l b)).
  intros r Hin. induction 1 as [|c r Hr IHr Hc]; cbn.
  - repeat constructor.
  - constructor.
    + apply IHr. intros b Hb. apply Hin. now right.
    + apply List.Forall_app. split; [assumption|].
      constructor; [|constructor].
      rewrite List.Forall_forall in Hall. apply Hall, Hin. now left.
Qed.

Lemma compareFn_total (k : SortKey) (d : Direction) (a b : Manufacturer.t) :
  compareFn k d a b <= 0 \/ compareFn k d b a <= 0.
Proof.
  destruct d; rewrite ?compareFn_asc_le, ?compareFn_desc_le;
    destruct (less k a b) eqn:Hab; auto using less_asym.
Qed.

(** Away from NaN the comparator is transitive. *)
Lemma compareFn_trans (k : SortKey) (d : Direction) (a b c : Manufacturer.t) :
  nanAt k a = false -> nanAt k b = false -> nanAt k c = false ->
  compareFn k d a b <= 0 -> compareFn k d b c <= 0 -> compareFn k d a c <= 0.
Proof.
  intros Ha Hb Hc.
  destruct d; rewrite ?compareFn_asc_le, ?compareFn_desc_le; intros H1 H2.
  - exact (less_negtrans k a b c Ha Hb H1 H2).
  - exact (less_negtrans k c b a Hc Hb H2 H1).
Qed.

Lemma arraySort_comparable (k : SortKey) (d : Direction)
  (l : list Manufacturer.t) :
  comparableAt k l -> comparableAt k (arraySort (compareFn k d) l).
Proof.
  unfold comparableAt. apply Permutation_Forall.
  symmetry. apply arraySort_perm.
Qed.

Lemma arraySort_ordered (k : SortKey) (d : Direction)
  (l : list Manufacturer.t) :
  comparableAt k l ->
  StronglySorted (fun a b => compareFn k d a b <= 0)
    (arraySort (compareFn k d) l).
Proof.
  intros Hok.
  apply (arraySort_sorted (compareFn k d) (fun m => nanAt k m = false));
    [apply compareFn_total|apply compareFn_trans|exact Hok].
Qed.

(** Among pairwise distinct values none of which is NaN, a weakly sorted
    list is strictly sorted. *)
Lemma sorted_strict (k : SortKey) (P Q : Manufacturer.t -> Manufacturer.t -> Prop)
  (l : list Manufacturer.t) :
  (forall a b, nanAt k a = false -> nanAt k b = false ->
     P a b -> valueAt k a <> valueAt k b -> Q a b) ->
  comparableAt k l -> StronglySorted P l -> distinctAt k l ->
  StronglySorted Q l.
Proof.
  intros HPQ Hok. unfold distinctAt, comparableAt in *.
  induction 1 as [|a l Hs IH Hall]; cbn; intros Hd; [constructor|].
  apply List.NoDup_cons_iff in Hd as [Hnin Hd].
  apply List.Forall_cons_iff in Hok as [Ha Hok].
  constructor; [now apply IH|].
  rewrite List.Forall_forall in *. intros b Hb.
  apply HPQ; [exact Ha|now apply Hok|now apply Hall|].
  intros E. apply Hnin. rewrite E. now apply in_map.
Qed.

Lemma arraySort_distinct (k : SortKey) (d : Direction) (l : list Manufacturer.t) :
  distinctAt k l -> distinctAt k (arraySort (compareFn k d) l).
Proof.
  unfold distinctAt. apply Permutation_NoDup, Permutation_map.
  symmetry. apply arraySort_perm.
Qed.

Lemma sort_desc_rev_asc (k : SortKey) (l : list Manufacturer.t) :
  distinctAt k l -> comparableAt k l ->
  arraySort (compareFn k desc) l = rev (arraySort (compareFn k asc) l).
Proof.
  intros Hd Hok.
  apply (sorted_arrangement_unique (fun a b => less k b a = true)).
  - intros a. rewrite less_irrefl. discriminate.
  - intros a b c Hba Hcb. exact (less_trans k c b a Hcb Hba).
  - rewrite arraySort_perm, <- Permutation_rev, arraySort_perm. reflexivity.
  - apply (sorted_strict k (fun a b => compareFn k desc a b <= 0)).
    + intros a b Ha Hb Hle Hne. apply compareFn_desc_le in Hle.
      destruct (less k b a) eqn:Hba; [reflexivity|].
      destruct Hne. now apply less_connex.
    + now apply arraySort_comparable.
    + now apply arraySort_ordered.
    + now apply arraySort_distinct.
  - apply (sorted_rev (fun a b => less k a b = true)).
    apply (sorted_strict k (fun a b => compareFn k asc a b <= 0)).
    + intros a b Ha Hb Hle Hne. apply compareFn_asc_le in Hle.
      destruct (less k a b) eqn:Hab; [reflexivity|].
      destruct Hne. now apply less_connex.
    + now apply arraySort_comparable.
    + now apply arraySort_ordered.
    + now apply arraySort_distinct.
Qed.

(** C9, as amended. When the records that pass the filters have pairwise
    distinct values at the sort key, none of them NaN, the table sorted
    by that key in descending order is the reverse of the table sorted by
    it in ascending order. *)
Theorem descending_is_reverse_of_ascending (year : number) (f : FilterState.t)
  (k : SortKey) (manufacturers : list Manufacturer.t) :
  distinctAt k (filtered year f manufacturers) ->
  comparableAt k (filtered year f manufacturers) ->
  filteredAndSortedData year f (sortBy k desc) manufacturers
  = rev (filteredAndSortedData year f (sortBy k asc) manufacturers).
Proof.
  intros Hd Hok. unfold filteredAndSortedData, sorted. cbn.
  now apply sort_desc_rev_asc.
Qed.

Lemma descending_is_reverse_of_ascending_witness :
  distinctAt by_rating (filtered (ofInt 2025) defaultFilters [acme; bolt])
  /\ comparableAt by_rating (filtered (ofInt 2025) defaultFilters [acme; bolt])
  /\ filteredAndSortedData (ofInt 2025) defaultFilters (sortBy by_rating desc)
       [acme; bolt]
     = rev (filteredAndSortedData (ofInt 2025) defaultFilters
              (sortBy by_rating asc) [acme; bolt]).
Proof.
  assert (Hd : distinctAt by_rating
                 (filtered (ofInt 2025) defaultFilters [acme; bolt])).
  { unfold distinctAt.
    change (filtered (ofInt 2025) defaultFilters [acme; bolt])
      with [acme; bolt].
    constructor; [|constructor; [intros []|constructor]].
    intros [H|[]].
    apply (f_equal (fun v => match v with
                             | VNumber (Finite q) => Qnum (this q)
                             | _ => 0
                             end)) in H.
    vm_compute in H. discriminate H. }
  assert (Hok : comparableAt by_rating
                  (filtered (ofInt 2025) defaultFilters [acme; bolt])).
  { change (filtered (ofInt 2025) defaultFilters [acme; bolt])
      with [acme; bolt].
    repeat constructor. }
  split; [exact Hd|split; [exact Hok|]].
  exact (descending_is_reverse_of_ascending (ofInt 2025) defaultFilters
           by_rating [acme; bolt] Hd Hok).
Defined.

(** C9 as stated fails on a value that is not a number. The ratings NaN
    and 4 are distinct, and NaN is neither below nor above 4: the
    comparator answers 0 both ways, in both directions, so the sort,
    being stable, leaves the two records in the order of the store
    whether it sorts ascending or descending. *)
Lemma nan_key_keeps_store_order_both_ways :
  distinctAt by_rating (filtered (ofInt 2025) defaultFilters [unrated; bolt])
  /\ compareFn by_rating asc unrated bolt = 0
  /\ compareFn by_rating asc bolt unrated = 0
  /\ filteredAndSortedData (ofInt 2025) defaultFilters (sortBy by_rating asc)
       [unrated; bolt] = [unrated; bolt]
  /\ filteredAndSortedData (ofInt 2025) defaultFilters (sortBy by_rating desc)
       [unrated; bolt] = [unrated; bolt]
  /\ filteredAndSortedData (ofInt 2025) defaultFilters (sortBy by_rating desc)
       [unrated; bolt]
     <> rev (filteredAndSortedData (ofInt 2025) defaultFilters
               (sortBy by_rating asc) [unrated; bolt]).
Proof.
  split.
  { unfold distinctAt.
    change (filtered (ofInt 2025) defaultFilters [unrated; bolt])
      with [unrated; bolt].
    constructor; [|constructor; [intros []|constructor]].
    intros [H|[]]. discriminate H. }
  do 4 (split; [reflexivity|]).
  change (filteredAndSortedData (ofInt 2025) defaultFilters
            (sortBy by_rating desc) [unrated; bolt]) with [unrated; bolt].
  change (filteredAndSortedData (ofInt 2025) defaultFilters
            (sortBy by_rating asc) [unrated; bolt]) with [unrated; bolt].
  cbn [rev app]. intros [= ].
Qed.

(** ** The CSV text and its reader *)

Lemma append_cons (x : ascii) (a b : string) :
  String.append (String x a) b = String x (String.append a b).
Proof. reflexivity. Qed.

Lemma append_assoc (a b c : string) :
  String.append (String.append a b) c = String.append a (String.append b c).
Proof.
  induction a as [|x a IH]; [reflexivity|].
  now rewrite !append_cons, IH.
Qed.

Lemma run_app (a b : string) (s : Csv.state) :
  Csv.run (String.append a b) s = Csv.run b (Csv.run a s).
Proof.
  revert s. induction a as [|x a IH]; intros s; [reflexivity|].
  rewrite append_cons. cbn [Csv.run]. apply IH.
Qed.

Lemma join_cons (sep x y : string) (l : list string) :
  JSString.join sep (x :: y :: l)
  = String.append x (String.append sep (JSString.join sep (y :: l))).
Proof. reflexivity. Qed.

Lemma step_quoted_quote (done : list (list string)) (row : list string)
  (acc : string) :
  Csv.step (Csv.mk done row acc Csv.Quoted) JSString.dquote
  = Csv.mk done row acc Csv.QuoteSeen.
Proof. reflexivity. Qed.

Lemma step_seen_quote (done : list (list string)) (row : list string)
  (acc : string) :
  Csv.step (Csv.mk done row acc Csv.QuoteSeen) JSString.dquote
  = Csv.mk done row (Csv.push acc JSString.dquote) Csv.Quoted.
Proof. reflexivity. Qed.

Lemma step_quoted_other (done : list (list string)) (row : list string)
  (acc : string) (c : ascii) :
  Ascii.eqb c JSString.dquote = false ->
  Csv.step (Csv.mk done row acc Csv.Quoted) c
  = Csv.mk done row (Csv.push acc c) Csv.Quoted.
Proof.
  intros Ec. unfold Csv.step. cbn [Csv.st Csv.records Csv.fields Csv.field].
  unfold Csv.isQuote. now rewrite Ec.
Qed.

Lemma push_append (acc text : string) (c : ascii) :
  String.append (Csv.push acc c) text = String.append acc (String c text).
Proof. unfold Csv.push. now rewrite append_assoc, append_cons. Qed.

Lemma append_empty (s : string) : String.append s EmptyString = s.
Proof.
  induction s as [|x s IH]; [reflexivity|]. now rewrite append_cons, IH.
Qed.

(** Inside a quoted field the escaped text is read back as it was. *)
Lemma run_doubleQuotes (text : string) (done : list (list string))
  (row : list string) (acc : string) :
  Csv.run (JSString.doubleQuotes text) (Csv.mk done row acc Csv.Quoted)
  = Csv.mk done row (String.append acc text) Csv.Quoted.
Proof.
  revert acc. induction text as [|c text IH]; intros acc.
  - cbn. now rewrite append_empty.
  - cbn [JSString.doubleQuotes].
    destruct (Ascii.eqb c JSString.dquote) eqn:Ec; cbn [Csv.run].
    + apply Ascii.eqb_eq in Ec as ->.
      now rewrite step_quoted_quote, step_seen_quote, IH, push_append.
    + now rewrite step_quoted_other, IH, push_append.
Qed.

Lemma run_quoteCell (text : string) (done : list (list string))
  (row : list string) :
  Csv.run (quoteCell text) (Csv.mk done row EmptyString Csv.FieldStart)
  = Csv.mk done row text Csv.QuoteSeen.
Proof.
  unfold quoteCell. cbn [Csv.run]. unfold Csv.step at 1. cbn.
  rewrite run_app, run_doubleQuotes. reflexivity.
Qed.

(** A row of quoted cells, read from the start of a field. *)
Lemma run_row (c : string) (cells : list string) (done : list (list string))
  (row : list string) :
  closedField
    (Csv.run (rowText (c :: cells))
       (Csv.mk done row EmptyString Csv.FieldStart))
    done (row ++ c :: cells).
Proof.
  unfold rowText. revert c row. induction cells as [|c' cells IH]; intros c row.
  - cbn [map JSString.join]. rewrite run_quoteCell. now repeat split.
  - cbn [map]. rewrite join_cons, !run_app, run_quoteCell.
    change (Csv.run "," ?s) with (Csv.step s ","%char).
    unfold Csv.step at 1. cbn.
    specialize (IH c' (row ++ [c])). cbn [map] in IH.
    unfold Csv.endField. cbn.
    now rewrite <- app_assoc in IH.
Qed.

Lemma serialize_cons (r r' : list string) (rest : list (list string)) :
  serialize (r :: r' :: rest)
  = String.append (rowText r) (String.append newline (serialize (r' :: rest))).
Proof. reflexivity. Qed.

(** The rows of a table, each with a cell at least, read from the start
    of a record. *)
Lemma parse_rows (r : list string) (rest : list (list string))
  (done : list (list string)) :
  r <> [] -> Forall (fun row => row <> []) rest ->
  Csv.finish (Csv.run (serialize (r :: rest))
                (Csv.mk done [] EmptyString Csv.FieldStart))
  = done ++ r :: rest.
Proof.
  revert r done.
  induction rest as [|r' rest IH]; intros r done Hr Hrest;
    (destruct r as [|c cells]; [contradiction|]);
    destruct (run_row c cells done []) as (Hst & Hrec & Hrow).
  - change (serialize [c :: cells]) with (rowText (c :: cells)).
    unfold Csv.finish. rewrite Hst. cbn [Csv.endRecord Csv.records].
    now rewrite Hrec, Hrow.
  - apply Forall_cons_iff in Hrest as [Hr' Hrest].
    rewrite serialize_cons, !run_app.
    change (Csv.run newline ?s) with (Csv.step s (ascii_of_N 10)).
    unfold Csv.step at 1. rewrite Hst.
    change (Csv.isQuote (ascii_of_N 10)) with false.
    change (Csv.isComma (ascii_of_N 10)) with false.
    change (Csv.isLF (ascii_of_N 10)) with true.
    cbv iota. unfold Csv.endRecord. rewrite Hrec, Hrow. cbn [app].
    rewrite (IH r' (done ++ [c :: cells]) Hr' Hrest), <- app_assoc.
    reflexivity.
Qed.

(** A standard reader gives back every table of at least one row, all
    rows with at least one cell, that was written with every cell quoted. *)
Lemma parse_serialize (table : list (list string)) :
  table <> [] -> Forall (fun row => row <> []) table ->
  Csv.parse (serialize table) = table.
Proof.
  destruct table as [|r rest]; [contradiction|]. intros _ Hall.
  apply Forall_cons_iff in Hall as [Hr Hrest].
  apply (parse_rows r rest [] Hr Hrest).
Qed.

Lemma tableText_fields (numberToString : number -> string)
  (data : list Manufacturer.t) :
  tableText numberToString data = headers :: map (fieldsOf numberToString) data.
Proof. reflexivity. Qed.


(** The export of the two sample records, read back. *)
Example csv_of_samples :
  Csv.parse (generateCSV decimalText [acme; bolt])
  = [ headers;
      [ "Acme, Inc."; "Austin"; "TX"; "metal fabrication"; "40"; "5000000";
        "4.5"; "100"; "14"; "60"; "80"; "1990"; "Welding; CNC Machining";
        "Steel"; "ISO 9001" ];
      [ "Bolt Works"; "Reno"; "NV"; "fasteners"; "12"; "800000"; "4"; "500";
        "7"; "85"; "55"; "2015"; "Stamping"; "Steel; Brass"; "" ] ].
Proof. vm_compute. reflexivity. Qed.

(** ** The authentication store *)

Lemma recentFailedAttempts_setLoading (env : Env.t) (email : string)
  (b : bool) (s : AuthState.t) :
  recentFailedAttempts env email (setLoading b s)
  = recentFailedAttempts env email s.
Proof. reflexivity. Qed.

(** What the filter keeps are entries of the log that passed its test. *)
Lemma recentFrom_In (clock : nat -> Z) (email : string) (i : nat)
  (logs : list AuthenticationLog.t) (log : AuthenticationLog.t) :
  In log (recentFrom clock email i logs) ->
  In log logs /\ exists j, isRecentFailure (clock j) email log = true.
Proof.
  revert i. induction logs as [|x logs IH]; intros i; [intros []|].
  cbn [recentFrom]. destruct (isRecentFailure (clock i) email x) eqn:Hx.
  - intros [<-|Hin].
    + split; [now left|now exists i].
    + destruct (IH _ Hin) as [Hl Hj]. split; [now right|exact Hj].
  - intros Hin. destruct (IH _ Hin) as [Hl Hj]. split; [now right|exact Hj].
Qed.

Lemma recentFrom_app (clock : nat -> Z) (email : string) (i : nat)
  (logs more : list AuthenticationLog.t) :
  recentFrom clock email i (logs ++ more)
  = recentFrom clock email i logs
    ++ recentFrom clock email (i + List.length logs) more.
Proof.
  revert i. induction logs as [|x logs IH]; intros i.
  - cbn. now rewrite Nat.add_0_r.
  - cbn [app recentFrom List.length]. rewrite IH, Nat.add_succ_r.
    now destruct (isRecentFailure (clock i) email x).
Qed.



(** In a log kept in the order of its timestamps, as appending with the
    current time keeps it, the last recent failure is the latest one. *)
Lemma last_recent_is_latest (env : Env.t) (email : string) (s : AuthState.t)
  (lastAttempt : AuthenticationLog.t) :
  StronglySorted
    (fun a b => AuthenticationLog.timestamp a <= AuthenticationLog.timestamp b)
    (AuthState.authenticationLogs s) ->
  last (recentFailedAttempts env email s) = Some lastAttempt ->
  Forall (fun log => AuthenticationLog.timestamp log
                     <= AuthenticationLog.timestamp lastAttempt)
    (recentFailedAttempts env email s).
Proof.
  unfold recentFailedAttempts. generalize 0%nat.
  intros i Hsorted.
  assert (Hf : StronglySorted
    (fun a b => AuthenticationLog.timestamp a <= AuthenticationLog.timestamp b)
    (recentFrom (Env.windowNow env) email i (AuthState.authenticationLogs s))).
  { revert i. induction Hsorted as [|a l Hs IH Hall]; intros i; cbn;
      [constructor|].
    destruct (isRecentFailure _ email a); [|apply IH].
    constructor; [apply IH|].
    apply List.Forall_forall. intros b Hb. apply recentFrom_In in Hb as [Hb _].
    rewrite List.Forall_forall in Hall. now apply Hall. }
  revert Hf.
  generalize (recentFrom (Env.windowNow env) email i
                (AuthState.authenticationLogs s)).
  intros l Hl Hlast. apply last_Some in Hlast as [l' ->].
  apply List.Forall_app. split.
  - clear -Hl. induction l' as [|a l' IH]; [constructor|].
    cbn in Hl. apply StronglySorted_inv in Hl as [Hl Ha].
    constructor; [|now apply IH].
    rewrite List.Forall_forall in Ha. apply Ha, in_or_app. right. now left.
  - constructor; [lia|constructor].
Qed.





(** The second condition is needed. Five failures, all of which the
    filter still counts when the check starts, no longer lock the account
    when the clock has reached 15 minutes after the last of them by the
    test against the end of the lockout: the check reports no lock, and
    the login goes on to the password. *)
Lemma lock_runs_out_during_the_check :
  (5 <= List.length
          (recentFailedAttempts (envTicking 1700000899999 1700000904000)
             "john.doe@example.com" fiveFailuresForJohn))%nat
  /\ checkAccountLockout (envTicking 1700000899999 1700000904000)
       "john.doe@example.com" fiveFailuresForJohn
     = LockoutStatus.mk false None
  /\ outcome (login (envTicking 1700000899999 1700000904000)
                "john.doe@example.com" "correct horse") fiveFailuresForJohn
     = Normal tt.
Proof. split; [vm_compute; constructor|split; vm_compute; reflexivity]. Qed.

(** *** Registration against the deleted accounts *)

Lemma find_of_exists {A : Type} (f : A -> bool) (l : list A) :
  (exists x, In x l /\ f x = true) ->
  exists y, List.find f l = Some y /\ In y l /\ f y = true.
Proof.
  intros (x & Hin & Hfx). destruct (List.find f l) as [y|] eqn:Hfind.
  - exists y. split; [reflexivity|]. now apply find_some in Hfind.
  - rewrite (find_none f l Hfind x Hin) in Hfx. discriminate.
Qed.

(** C5, as amended. For every registration request whose email passes
    [validateEmailFormat], is not registered (its lower-cased form is not
    in [registeredEmails]) and equals, up to letter case, the email of
    some deleted account: [register] rejects the request, appends to
    [registrationAttempts] exactly one entry, with [blocked = true] and
    the id of the first deleted account that has the request's email (up
    to case) or the request's non-empty phone, and leaves
    [registeredEmails], the user and [isAuthenticated] as they were. *)
Theorem deleted_credentials_block_registration (env : Env.t)
  (s : AuthState.t) (userData : UserData.t) :
  validateEmailFormat (UserData.email userData) = true ->
  checkEmailExists (UserData.email userData) s = false ->
  (exists d0, In d0 (AuthState.deletedAccounts s)
              /\ sameEmail (UserData.email userData) d0 = true) ->
  exists d,
    checkDeletedAccount (UserData.email userData) (UserData.phone userData) s
      = Some d
    /\ In d (AuthState.deletedAccounts s)
    /\ (sameEmail (UserData.email userData) d = true
        \/ (truthy (UserData.phone userData) = true
            /\ strictEq (DeletedAccount.phone d) (UserData.phone userData) = true))
    /\ outcome (register env userData) s
       = Throw (Error "This email address or phone number is associated with a permanently deleted account and cannot be used for registration. Please use different credentials or contact support.")
    /\ AuthState.registrationAttempts (stateAfter (register env userData) s)
       = AuthState.registrationAttempts s
         ++ [blockedAttempt env userData
               "Email/phone associated with permanently deleted account"
               (DeletedAccount.id d)]
    /\ AuthState.registeredEmails (stateAfter (register env userData) s)
       = AuthState.registeredEmails s
    /\ AuthState.user (stateAfter (register env userData) s) = AuthState.user s
    /\ AuthState.isAuthenticated (stateAfter (register env userData) s)
       = AuthState.isAuthenticated s.
Proof.
  intros Hfmt Hnew (d0 & Hin0 & Hsame0).
  destruct (find_of_exists
              (matchesDeleted (UserData.email userData) (UserData.phone userData))
              (AuthState.deletedAccounts s)) as (d & Hfind & Hin & Hmatch).
  { exists d0. split; [exact Hin0|]. unfold matchesDeleted.
    unfold sameEmail in Hsame0. now rewrite Hsame0. }
  exists d. split; [exact Hfind|split; [exact Hin|split]].
  { unfold matchesDeleted in Hmatch. apply orb_prop in Hmatch as [H|H].
    - now left.
    - right. now apply andb_prop in H. }
  unfold outcome, stateAfter, register.
  cbn -[validateEmailFormat checkEmailExists checkDeletedAccount
        deletedCredentialsDetails].
  rewrite Hfmt.
  cbn -[validateEmailFormat checkEmailExists checkDeletedAccount
        deletedCredentialsDetails].
  change (checkEmailExists (UserData.email userData) (setLoading true s))
    with (checkEmailExists (UserData.email userData) s).
  rewrite Hnew.
  cbn -[validateEmailFormat checkEmailExists checkDeletedAccount
        deletedCredentialsDetails].
  change (checkDeletedAccount (UserData.email userData)
            (UserData.phone userData) (setLoading true s))
    with (List.find (matchesDeleted (UserData.email userData)
                       (UserData.phone userData))
            (AuthState.deletedAccounts s)).
  rewrite Hfind. cbn -[deletedCredentialsDetails]. repeat split.
Qed.

Lemma deleted_credentials_block_registration_witness :
  validateEmailFormat (UserData.email deletedEmailOnly) = true
  /\ checkEmailExists (UserData.email deletedEmailOnly) initialAuthState = false
  /\ (exists d0, In d0 (AuthState.deletedAccounts initialAuthState)
                 /\ sameEmail (UserData.email deletedEmailOnly) d0 = true)
  /\ exists d,
       DeletedAccount.id d = "del_002"
       /\ outcome (register (envAt 1700000200000) deletedEmailOnly)
            initialAuthState
          = Throw (Error "This email address or phone number is associated with a permanently deleted account and cannot be used for registration. Please use different credentials or contact support.")
       /\ AuthState.registrationAttempts
            (stateAfter (register (envAt 1700000200000) deletedEmailOnly)
               initialAuthState)
          = [blockedAttempt (envAt 1700000200000) deletedEmailOnly
               "Email/phone associated with permanently deleted account"
               (DeletedAccount.id d)]
       /\ AuthState.registeredEmails
            (stateAfter (register (envAt 1700000200000) deletedEmailOnly)
               initialAuthState)
          = mockRegisteredEmails.
Proof.
  assert (Hd0 : exists d0, In d0 (AuthState.deletedAccounts initialAuthState)
                  /\ sameEmail (UserData.email deletedEmailOnly) d0 = true).
  { eexists. split; [right; left; reflexivity|reflexivity]. }
  split; [reflexivity|split; [reflexivity|split; [exact Hd0|]]].
  destruct (deleted_credentials_block_registration (envAt 1700000200000)
              initialAuthState deletedEmailOnly eq_refl eq_refl Hd0)
    as (d & Hfind & _ & _ & Hout & Hatt & Hreg & _).
  exists d. split; [|split; [exact Hout|split; [exact Hatt|exact Hreg]]].
  vm_compute in Hfind. now injection Hfind as <-.
Defined.

(** C5 as stated fails in two ways. First, on the store's initial state:
    a request with the email of the second deleted account and the phone
    of the first is logged with the id of the first, [del_001], whose
    email is another one. Second, after an account whose email the format
    check refuses was deleted: a request with that very email is rejected
    at the format check, and nothing is appended. *)
Lemma blocked_attempt_id_and_format_check :
  (checkEmailExists (UserData.email mixedCredentials) initialAuthState = false
   /\ map DeletedAccount.id
        (List.filter (sameEmail (UserData.email mixedCredentials))
           (AuthState.deletedAccounts initialAuthState)) = ["del_002"]
   /\ map RegistrationAttempt.deletedAccountId
        (AuthState.registrationAttempts
           (stateAfter (register (envAt 1700000200000) mixedCredentials)
              initialAuthState)) = [Some "del_001"])
  /\ (checkEmailExists (UserData.email localhostAgain)
        accountDeletedAsLocalhost = false
      /\ existsb (sameEmail (UserData.email localhostAgain))
           (AuthState.deletedAccounts accountDeletedAsLocalhost) = true
      /\ outcome (register (envAt 1700000200000) localhostAgain)
           accountDeletedAsLocalhost
         = Throw (Error "Please enter a valid email address.")
      /\ AuthState.registrationAttempts
           (stateAfter (register (envAt 1700000200000) localhostAgain)
              accountDeletedAsLocalhost)
         = AuthState.registrationAttempts accountDeletedAsLocalhost).
Proof. repeat split; vm_compute; reflexivity. Qed.

(** C10, as amended. For every registration request whose email passes
    [validateEmailFormat] and is not registered, and that matches no
    deleted account by email or by phone ([checkDeletedAccount] finds
    none): when some deleted account has the request's first and last
    name up to letter case and has the request's phone or the request's
    email, [register] rejects the request, appends to
    [registrationAttempts] exactly one entry, with [blocked = true] and
    the id of the first such account, and adds nothing to
    [registeredEmails]. *)
Theorem similar_identity_blocks_registration (env : Env.t)
  (s : AuthState.t) (userData : UserData.t) :
  validateEmailFormat (UserData.email userData) = true ->
  checkEmailExists (UserData.email userData) s = false ->
  checkDeletedAccount (UserData.email userData) (UserData.phone userData) s
    = None ->
  (exists d0, In d0 (AuthState.deletedAccounts s)
              /\ similarTo userData d0 = true) ->
  exists d,
    List.find (similarTo userData) (AuthState.deletedAccounts s) = Some d
    /\ In d (AuthState.deletedAccounts s)
    /\ similarTo userData d = true
    /\ outcome (register env userData) s
       = Throw (Error "Registration blocked due to security policies. Please contact support for assistance.")
    /\ AuthState.registrationAttempts (stateAfter (register env userData) s)
       = AuthState.registrationAttempts s
         ++ [blockedAttempt env userData
               "Similar personal information to deleted account"
               (DeletedAccount.id d)]
    /\ AuthState.registeredEmails (stateAfter (register env userData) s)
       = AuthState.registeredEmails s
    /\ AuthState.user (stateAfter (register env userData) s) = AuthState.user s
    /\ AuthState.isAuthenticated (stateAfter (register env userData) s)
       = AuthState.isAuthenticated s.
Proof.
  intros Hfmt Hnew Hnone Hsim.
  destruct (find_of_exists (similarTo userData) (AuthState.deletedAccounts s)
              Hsim) as (d & Hfind & Hin & Hd).
  exists d. split; [exact Hfind|split; [exact Hin|split; [exact Hd|]]].
  unfold outcome, stateAfter, register.
  cbn -[validateEmailFormat checkEmailExists checkDeletedAccount similarTo].
  rewrite Hfmt.
  cbn -[validateEmailFormat checkEmailExists checkDeletedAccount similarTo].
  change (checkEmailExists (UserData.email userData) (setLoading true s))
    with (checkEmailExists (UserData.email userData) s).
  rewrite Hnew.
  cbn -[validateEmailFormat checkEmailExists checkDeletedAccount similarTo].
  change (checkDeletedAccount (UserData.email userData)
            (UserData.phone userData) (setLoading true s))
    with (checkDeletedAccount (UserData.email userData)
            (UserData.phone userData) s).
  rewrite Hnone.
  cbn -[validateEmailFormat checkEmailExists checkDeletedAccount similarTo].
  rewrite Hfind. cbn. repeat split.
Qed.

Lemma similar_identity_blocks_registration_witness :
  validateEmailFormat (UserData.email annLeeNamesake) = true
  /\ checkEmailExists (UserData.email annLeeNamesake) annLeeDeleted = false
  /\ checkDeletedAccount (UserData.email annLeeNamesake)
       (UserData.phone annLeeNamesake) annLeeDeleted = None
  /\ (exists d0, In d0 (AuthState.deletedAccounts annLeeDeleted)
                 /\ similarTo annLeeNamesake d0 = true)
  /\ exists d,
       DeletedAccount.email d = "ann.lee@example.com"
       /\ outcome (register (envAt 1700000200000) annLeeNamesake) annLeeDeleted
          = Throw (Error "Registration blocked due to security policies. Please contact support for assistance.")
       /\ AuthState.registrationAttempts
            (stateAfter (register (envAt 1700000200000) annLeeNamesake)
               annLeeDeleted)
          = AuthState.registrationAttempts annLeeDeleted
            ++ [blockedAttempt (envAt 1700000200000) annLeeNamesake
                  "Similar personal information to deleted account"
                  (DeletedAccount.id d)]
       /\ AuthState.registeredEmails
            (stateAfter (register (envAt 1700000200000) annLeeNamesake)
               annLeeDeleted)
          = AuthState.registeredEmails annLeeDeleted.
Proof.
  assert (Hd0 : exists d0, In d0 (AuthState.deletedAccounts annLeeDeleted)
                  /\ similarTo annLeeNamesake d0 = true).
  { eexists. split; [right; right; left; reflexivity|reflexivity]. }
  split; [reflexivity|split; [reflexivity|split; [reflexivity|]]].
  split; [exact Hd0|].
  destruct (similar_identity_blocks_registration (envAt 1700000200000)
              annLeeDeleted annLeeNamesake eq_refl eq_refl eq_refl Hd0)
    as (d & Hfind & _ & _ & Hout & Hatt & Hreg & _).
  exists d. split; [|split; [exact Hout|split; [exact Hatt|exact Hreg]]].
  vm_compute in Hfind. now injection Hfind as <-.
Defined.

(** C10 as stated fails for an email the format check refuses: with the
    names and the empty phone of a deleted account, an email matching no
    deleted account and not registered, the request is rejected at the
    format check and no entry is appended. *)
Lemma similar_identity_with_bad_email_not_logged :
  checkEmailExists (UserData.email annLeeNamesakeBadEmail) annLeeDeleted = false
  /\ checkDeletedAccount (UserData.email annLeeNamesakeBadEmail)
       (UserData.phone annLeeNamesakeBadEmail) annLeeDeleted = None
  /\ existsb (similarTo annLeeNamesakeBadEmail)
       (AuthState.deletedAccounts annLeeDeleted) = true
  /\ outcome (register (envAt 1700000200000) annLeeNamesakeBadEmail)
       annLeeDeleted
     = Throw (Error "Please enter a valid email address.")
  /\ AuthState.registrationAttempts
       (stateAfter (register (envAt 1700000200000) annLeeNamesakeBadEmail)
          annLeeDeleted)
     = AuthState.registrationAttempts annLeeDeleted.
Proof. repeat split; vm_compute; reflexivity. Qed.

(** * Further properties of the table *)

(** ** The range selects *)

Lemma ltb_cases (x y : Qc) :
  (ltb (Finite x) (Finite y) = true /\ (this x < this y)%Q)
  \/ (ltb (Finite x) (Finite y) = false /\ (this y <= this x)%Q).
Proof.
  destruct (ltb (Finite x) (Finite y)) eqn:E.
  - left. split; [reflexivity|]. now apply ltb_lt in E.
  - right. split; [reflexivity|]. apply Qnot_lt_le. intros H.
    assert (ltb (Finite x) (Finite y) = true) by now apply ltb_lt.
    congruence.
Qed.

(** Decide every comparison of two finite numbers in the goal, dropping
    the cases the order of the rationals rules out. *)
Ltac split_comparisons :=
  unfold ofInt, ofQ;
  repeat match goal with
         | |- context [ltb (Finite ?a) (Finite ?b)] =>
             let H := fresh "Hcmp" in
             destruct (ltb_cases a b) as [[-> H]|[-> H]];
             cbn [this Q2Qc] in H;
             repeat match type of H with
                    | context [Qred ?q] =>
                        let v := eval vm_compute in (Qred q) in
                        change (Qred q) with v in H
                    end;
             try (exfalso; lra)
         end.

Lemma this_ofInt (z : Z) : this (Q2Qc (inject_Z z)) = inject_Z z.
Proof.
  cbn. apply Qred_identity. cbn. apply Z.gcd_1_r.
Qed.

Lemma ltb_ofInt (a b : Z) : ltb (ofInt a) (ofInt b) = (a <? b).
Proof.
  unfold ofInt, ofQ.
  destruct (ltb_cases (Q2Qc (inject_Z a)) (Q2Qc (inject_Z b)))
    as [[-> H]|[-> H]];
    rewrite !this_ofInt in H; symmetry.
  - apply Z.ltb_lt. now rewrite Zlt_Qlt.
  - apply Z.ltb_ge. now rewrite Zle_Qle.
Qed.





(** A value that is not a number escapes every bucket test: each test is
    a comparison, which NaN answers with [false], so the record is let
    through under every label of the select. *)
Lemma nan_passes_every_bucket (currentYear : number) (m : Manufacturer.t) :
  (isNaN (Manufacturer.numberOfEmployees m) = true ->
   passingLabels employeeGuard set_employeeRange employeeBuckets m
   = employeeBuckets)
  /\ (isNaN (Manufacturer.annualRevenue m) = true ->
      passingLabels revenueGuard set_revenueRange revenueBuckets m
      = revenueBuckets)
  /\ (isNaN (Manufacturer.currentCapacity m) = true ->
      passingLabels capacityGuard set_capacityRange capacityBuckets m
      = capacityBuckets)
  /\ (isNaN (sub currentYear (Manufacturer.yearEstablished m)) = true ->
      passingLabels (yearGuard currentYear) set_yearEstablishedRange
        yearBuckets m = yearBuckets).
Proof.
  unfold passingLabels. repeat split.
  - cbn -[isNaN]. now destruct (Manufacturer.numberOfEmployees m).
  - cbn -[isNaN]. now destruct (Manufacturer.annualRevenue m).
  - cbn -[isNaN]. now destruct (Manufacturer.currentCapacity m).
  - cbn -[isNaN sub].
    now destruct (sub currentYear (Manufacturer.yearEstablished m)).
Qed.

(** The employee buckets are closed ranges, and the last two share their
    bound. For a count that is a number: the record passes both 251-500
    and 500+ exactly when it has 500 employees, which is then listed
    under both, and with any other count it passes at most one bucket. A
    whole number of employees from 1 up passes at least one. A count that
    is not a number passes all six. *)
Theorem employee_buckets_overlap_at_500 (m : Manufacturer.t) :
  let labels := passingLabels employeeGuard set_employeeRange employeeBuckets m in
  (isNaN (Manufacturer.numberOfEmployees m) = false ->
   (Manufacturer.numberOfEmployees m = ofInt 500 <->
    labels = ["251-500"; "500+"])
   /\ (Manufacturer.numberOfEmployees m <> ofInt 500 ->
       (List.length labels <= 1)%nat))
  /\ (isNaN (Manufacturer.numberOfEmployees m) = true ->
      labels = employeeBuckets)
  /\ (forall n : Z, 1 <= n -> Manufacturer.numberOfEmployees m = ofInt n ->
      labels <> []).
Proof.
  cbn zeta. split; [|split].
  - intros Hnum. split; [split|].
    + intros E. unfold passingLabels, employeeBuckets. cbn -[ltb ofInt].
      rewrite E. vm_compute. reflexivity.
    + unfold passingLabels, employeeBuckets. cbn -[ltb].
      destruct (Manufacturer.numberOfEmployees m) as [q| | |];
        try discriminate Hnum; [|cbn; discriminate..].
      split_comparisons; cbn; try discriminate.
      intros _. f_equal. apply Qc_is_canon. cbn [this Q2Qc].
      change (Qred (inject_Z 500)) with (inject_Z 500).
      apply Qle_antisym; assumption.
    + intros Hne. unfold passingLabels, employeeBuckets. cbn -[ltb].
      destruct (Manufacturer.numberOfEmployees m) as [q| | |];
        try discriminate Hnum; [|cbn; lia..].
      split_comparisons; cbn; try lia.
      destruct Hne. unfold ofInt, ofQ. f_equal. apply Qc_is_canon.
      cbn [this Q2Qc].
      change (Qred (inject_Z 500)) with (inject_Z 500).
      apply Qle_antisym; assumption.
  - apply (nan_passes_every_bucket (ofInt 0) m).
  - intros n Hn E. unfold passingLabels, employeeBuckets.
    cbn -[ltb ofInt]. rewrite E, !ltb_ofInt.
    repeat match goal with
           | |- context [?a <? ?b] => destruct (Z.ltb_spec a b); try lia
           end; cbn; discriminate.
Qed.

Lemma employee_buckets_overlap_at_500_witness :
  isNaN (Manufacturer.numberOfEmployees acme) = false
  /\ Manufacturer.numberOfEmployees acme <> ofInt 500
  /\ (List.length
        (passingLabels employeeGuard set_employeeRange employeeBuckets acme)
      <= 1)%nat.
Proof.
  assert (H : Manufacturer.numberOfEmployees acme <> ofInt 500).
  { intros E.
    apply (f_equal (fun x => match x with
                             | Finite q => Qnum (this q)
                             | _ => 0
                             end)) in E.
    vm_compute in E. discriminate E. }
  split; [reflexivity|split; [exact H|]].
  exact (proj2 (proj1 (employee_buckets_overlap_at_500 acme) eq_refl) H).
Defined.

(** ** What the filter stage lets through *)

Lemma strIn_iff (x : string) (l : list string) : strIn x l = true <-> In x l.
Proof.
  unfold strIn. rewrite existsb_exists. split.
  - intros (y & Hy & E). apply String.eqb_eq in E. now subst.
  - intros H. exists x. split; [exact H|apply String.eqb_refl].
Qed.

(** On a typed record the callback is the conjunction of its blocks. *)
Lemma passes_iff (year : number) (f : FilterState.t) (m : Manufacturer.t) :
  let o := ofManufacturer m in
  passes year f m = true <->
  searchGuard f o = Normal true
  /\ capabilitiesGuard f o = Normal true
  /\ materialsGuard f o = Normal true
  /\ certificationsGuard f o = Normal true
  /\ statesGuard f o = true /\ employeeGuard f o = true
  /\ revenueGuard f o = true /\ capacityGuard f o = true
  /\ ratingGuard f o = true /\ diversityGuard f o = true
  /\ sustainabilityGuard f o = true /\ yearGuard year f o = true.
Proof.
  cbn zeta. unfold passes, filterCallback, andThen.
  assert (Hs : exists b, searchGuard f (ofManufacturer m) = Normal b).
  { unfold searchGuard. destruct (eqLit _ _); cbn; eauto. }
  destruct Hs as [b0 ->].
  unfold capabilitiesGuard, materialsGuard, certificationsGuard.
  cbn [ofManufacturer Obj.capabilities Obj.materials Obj.certifications].
  destruct (arrayGuard_present (FilterState.capabilities f)
              (Manufacturer.capabilities m)) as [b1 ->].
  destruct (arrayGuard_present (FilterState.materials f)
              (Manufacturer.materials m)) as [b2 ->].
  destruct (arrayGuard_present (FilterState.certifications f)
              (Manufacturer.certifications m)) as [b3 ->].
  destruct b0, b1, b2, b3; cbn;
    try (split; [discriminate|intros (H0 & H1 & H2 & H3 & _); congruence]).
  rewrite !andb_true_iff. intuition.
Qed.

Lemma arrayGuard_true (sel l : list string) :
  sel <> [] ->
  arrayGuard sel (Some l) = Normal true ->
  exists x, In x sel /\ In x l.
Proof.
  intros Hne. destruct sel as [|y sel]; [contradiction|].
  unfold arrayGuard. rewrite some_present. intros [= H].
  change (existsb (fun x => strIn x l) (y :: sel) = true) in H.
  apply existsb_exists in H as (x & Hx & Hin).
  exists x. split; [exact Hx|now apply strIn_iff].
Qed.

(** Every record the filter stage lets through shares a value with each
    multi-select that is set: a capability, a material, a certification
    among the selected ones, and its state among the selected states. *)
Theorem multi_select_results_overlap (year : number) (f : FilterState.t)
  (manufacturers : list Manufacturer.t) (m : Manufacturer.t) :
  In m (filtered year f manufacturers) ->
  (FilterState.capabilities f <> [] ->
   exists x, In x (FilterState.capabilities f)
             /\ In x (Manufacturer.capabilities m))
  /\ (FilterState.materials f <> [] ->
      exists x, In x (FilterState.materials f)
                /\ In x (Manufacturer.materials m))
  /\ (FilterState.certifications f <> [] ->
      exists x, In x (FilterState.certifications f)
                /\ In x (Manufacturer.certifications m))
  /\ (FilterState.states f <> [] ->
      In (Manufacturer.state m) (FilterState.states f)).
Proof.
  intros Hin. apply filter_In in Hin as [_ Hp].
  apply passes_iff in Hp as (_ & Hc & Hm & Hce & Hs & _).
  repeat split; intros Hne.
  - now apply arrayGuard_true.
  - now apply arrayGuard_true.
  - now apply arrayGuard_true.
  - unfold statesGuard in Hs. cbn in Hs.
    destruct (FilterState.states f); [contradiction|]. now apply strIn_iff.
Qed.

Lemma multi_select_results_overlap_witness :
  In acme (filtered (ofInt 2025)
             (assign (set_capabilities ["Welding"; "Casting"]) defaultFilters)
             [acme; bolt])
  /\ exists x, In x ["Welding"; "Casting"] /\ In x (Manufacturer.capabilities acme).
Proof.
  assert (H : In acme (filtered (ofInt 2025)
                (assign (set_capabilities ["Welding"; "Casting"]) defaultFilters)
                [acme; bolt])) by (left; reflexivity).
  split; [exact H|].
  apply (proj1 (multi_select_results_overlap (ofInt 2025)
           (assign (set_capabilities ["Welding"; "Casting"]) defaultFilters)
           [acme; bolt] acme H)).
  discriminate.
Defined.

(** With only the capabilities select set, the table holds exactly the
    records that have one of the selected capabilities, whatever their
    materials and other attributes, in the order of the store. *)
Theorem capabilities_only_filter (year : number) (sel : list string)
  (manufacturers : list Manufacturer.t) :
  sel <> [] ->
  filtered year (assign (set_capabilities sel) defaultFilters) manufacturers
  = List.filter
      (fun m => existsb (fun x => strIn x (Manufacturer.capabilities m)) sel)
      manufacturers.
Proof.
  intros Hne. unfold filtered. apply filter_ext. intros m.
  unfold passes, filterCallback, andThen, capabilitiesGuard. cbn -[arrayGuard].
  destruct sel as [|y sel]; [contradiction|].
  unfold arrayGuard. rewrite some_present.
  cbn -[existsb]. now destruct (existsb _ _).
Qed.

Lemma capabilities_only_filter_witness :
  ["Stamping"] <> []
  /\ filtered (ofInt 2025) (assign (set_capabilities ["Stamping"]) defaultFilters)
       [acme; bolt]
     = List.filter
         (fun m => existsb (fun x => strIn x (Manufacturer.capabilities m))
                     ["Stamping"])
         [acme; bolt].
Proof.
  split; [discriminate|].
  apply (capabilities_only_filter (ofInt 2025) ["Stamping"] [acme; bolt]).
  discriminate.
Defined.

(** [clearAllFilters] brings every record of the store back into the
    table, in the current sort order, on page 1, and leaves the selection
    alone. *)
Theorem clearAllFilters_shows_all (p : Props.t) (c : Component.t) :
  tableData p (render p (clearAllFilters c))
    = sorted (Component.sortConfig c) (Props.manufacturers p)
  /\ currentPageOf (render p (clearAllFilters c)) = 1
  /\ PaginationConfig.totalItems
       (Component.pagination (render p (clearAllFilters c)))
     = Z.of_nat (List.length (Props.manufacturers p))
  /\ Component.selectedRows (render p (clearAllFilters c))
     = Component.selectedRows c.
Proof.
  assert (H : tableData p (render p (clearAllFilters c))
              = sorted (Component.sortConfig c) (Props.manufacturers p)).
  { unfold tableData, filteredAndSortedData. cbn.
    now rewrite default_filters_pass. }
  split; [exact H|split; [reflexivity|split; [|reflexivity]]].
  change (PaginationConfig.totalItems
            (Component.pagination (render p (clearAllFilters c))))
    with (Z.of_nat (List.length (tableData p (clearAllFilters c)))).
  change (tableData p (clearAllFilters c))
    with (tableData p (render p (clearAllFilters c))).
  rewrite H. f_equal. unfold sorted.
  destruct (SortConfig.key (Component.sortConfig c)); [|reflexivity].
  apply Permutation_length, arraySort_perm.
Qed.

Lemma readArray_writeArray (k : ArrayKey) (v : list string)
  (f : FilterState.t) :
  readArray k (assign (writeArray k v) f) = v.
Proof. now destruct k, f. Qed.

Lemma readArray_other (k k' : ArrayKey) (v : list string) (f : FilterState.t) :
  k' <> k -> readArray k' (assign (writeArray k v) f) = readArray k' f.
Proof. destruct k, k', f; intros H; (reflexivity || now destruct H). Qed.

Lemma strIn_app (x : string) (l l' : list string) :
  strIn x (l ++ l') = strIn x l || strIn x l'.
Proof. apply existsb_app. Qed.

Lemma strIn_remove (x v : string) (l : list string) :
  strIn x (List.filter (fun item => negb (String.eqb item v)) l)
  = strIn x l && negb (String.eqb x v).
Proof.
  unfold strIn. induction l as [|y l IH]; [reflexivity|].
  cbn [List.filter existsb].
  destruct (String.eqb_spec y v) as [->|Hyv]; cbn [negb existsb].
  - rewrite IH. destruct (String.eqb_spec x v) as [->|Hxv]; cbn.
    + now rewrite !andb_false_r.
    + now rewrite andb_true_r.
  - rewrite IH. destruct (String.eqb_spec x y) as [->|Hxy]; cbn; [|reflexivity].
    destruct (String.eqb_spec y v); [contradiction|reflexivity].
Qed.

(** A click on a check box of a multi-select flips the membership of that
    one value in that one select: the other values of the select and the
    other selects stay as they were, and the table goes back to page 1. *)
Theorem toggleFilterArray_flips_one_value (k : ArrayKey) (value : string)
  (c : Component.t) :
  let before := Component.filters c in
  let after := Component.filters (toggleFilterArray k value c) in
  strIn value (readArray k after) = negb (strIn value (readArray k before))
  /\ (forall x, x <> value ->
        strIn x (readArray k after) = strIn x (readArray k before))
  /\ (forall k', k' <> k -> readArray k' after = readArray k' before)
  /\ currentPageOf (toggleFilterArray k value c) = 1.
Proof.
  cbn zeta. unfold toggleFilterArray. cbn [setPagination setFilters Component.filters].
  rewrite readArray_writeArray.
  split; [|split; [|split; [|reflexivity]]].
  - destruct (strIn value (readArray k (Component.filters c))) eqn:E.
    + rewrite strIn_remove, E, String.eqb_refl. reflexivity.
    + rewrite strIn_app, E. cbn. now rewrite String.eqb_refl.
  - intros x Hx. apply String.eqb_neq in Hx.
    destruct (strIn value (readArray k (Component.filters c))).
    + rewrite strIn_remove, Hx. apply andb_true_r.
    + rewrite strIn_app. cbn. rewrite Hx. now rewrite !orb_false_r.
  - intros k' Hk'. now apply readArray_other.
Qed.

Lemma toggleFilterArray_flips_one_value_witness :
  "Steel" <> "Welding"
  /\ strIn "Steel"
       (readArray key_materials
          (Component.filters
             (toggleFilterArray key_materials "Welding" initialComponent)))
     = strIn "Steel" (readArray key_materials (Component.filters initialComponent)).
Proof.
  split; [discriminate|].
  apply (proj1 (proj2 (toggleFilterArray_flips_one_value key_materials
                          "Welding" initialComponent))).
  discriminate.
Defined.

(** ** What the sort stage does to the filtered records *)

(** The sort stage neither drops nor repeats a record. *)
Lemma sort_stage_keeps_records (year : number) (f : FilterState.t)
  (k : SortKey) (d : Direction) (manufacturers : list Manufacturer.t) :
  Permutation (filteredAndSortedData year f (sortBy k d) manufacturers)
              (filtered year f manufacturers).
Proof. unfold filteredAndSortedData, sorted. cbn. apply arraySort_perm. Qed.

(** When no record has NaN at the sort key, the sort stage leaves the
    records in the order of the direction: no record is followed,
    anywhere later in the table, by one that belongs before it. *)
Lemma sort_stage_orders_records (year : number) (f : FilterState.t)
  (k : SortKey) (d : Direction) (manufacturers : list Manufacturer.t) :
  comparableAt k (filtered year f manufacturers) ->
  StronglySorted (inOrder k d)
    (filteredAndSortedData year f (sortBy k d) manufacturers).
Proof.
  intros Hok. unfold filteredAndSortedData, sorted. cbn.
  pose proof (arraySort_ordered k d _ Hok) as Hsorted.
  induction Hsorted as [|a l _ IH Hall]; constructor; [exact IH|].
  eapply List.Forall_impl; [|exact Hall]. cbn. intros b Hab.
  destruct d; cbn.
  - now apply compareFn_asc_le.
  - now apply compareFn_desc_le.
Qed.

Lemma less_values_l (k : SortKey) (a a' b : Manufacturer.t) :
  valueAt k a = valueAt k a' -> less k a b = less k a' b.
Proof. destruct k; cbn; intros [= ->]; reflexivity. Qed.

Lemma less_values_r (k : SortKey) (a b b' : Manufacturer.t) :
  valueAt k b = valueAt k b' -> less k a b = less k a b'.
Proof. destruct k; cbn; intros [= ->]; reflexivity. Qed.

Lemma sameKey_values (k : SortKey) (a b : Manufacturer.t) :
  nanAt k a = false -> nanAt k b = false ->
  sameKey k a b = true -> valueAt k a = valueAt k b.
Proof.
  unfold sameKey. intros Ha Hb H. apply andb_prop in H as [H1 H2].
  apply negb_true_iff in H1, H2. now apply less_connex.
Qed.

(** Inserting [x] moves it only past elements it does not tie with. *)
Lemma filter_insert {A : Type} (cmp : A -> A -> Z) (P : A -> bool) (x : A)
  (l : list A) :
  (P x = true -> forall y, In y l -> 0 < cmp x y -> P y = false) ->
  List.filter P (insert cmp x l) = List.filter P (x :: l).
Proof.
  induction l as [|y l IH]; intros Hskip; [reflexivity|].
  cbn [insert]. destruct (Z.leb_spec (cmp x y) 0) as [Hle|Hgt]; [reflexivity|].
  cbn [List.filter] in *. rewrite IH.
  - destruct (P x) eqn:Px; [|reflexivity].
    now rewrite (Hskip eq_refl y (or_introl eq_refl) Hgt).
  - intros Px z Hz. apply (Hskip Px). now right.
Qed.

(** When no record has NaN at the sort key, the sort is stable: the
    records that tie with any given record at the sort key come out in
    the order they went in, in either direction. *)
Lemma sort_stage_is_stable (k : SortKey) (d : Direction)
  (reference : Manufacturer.t) (l : list Manufacturer.t) :
  comparableAt k l -> nanAt k reference = false ->
  List.filter (sameKey k reference) (sorted (sortBy k d) l)
  = List.filter (sameKey k reference) l.
Proof.
  intros Hok Href. unfold sorted. cbn.
  induction Hok as [|x l Hx Hok IH]; [reflexivity|].
  cbn [arraySort fold_right]. fold (arraySort (compareFn k d) l).
  rewrite filter_insert.
  - cbn [List.filter]. now rewrite IH.
  - intros Hsx y Hin Hgt. apply not_true_is_false. intros Hsy.
    assert (Hy : nanAt k y = false).
    { pose proof (arraySort_comparable k d l Hok) as Hall.
      unfold comparableAt in Hall. rewrite List.Forall_forall in Hall.
      now apply Hall. }
    apply sameKey_values in Hsx, Hsy; try assumption.
    assert (E : valueAt k x = valueAt k y) by congruence.
    unfold compareFn in Hgt.
    rewrite (less_values_l k x y y E), (less_values_r k y x y E),
      less_irrefl in Hgt.
    destruct d; lia.
Qed.

(** ** What a page holds *)

Lemma page_as_firstn {A : Type} (r : list A) (p k : Z) :
  0 < k -> 1 <= p ->
  page r p k = firstn (Z.to_nat k) (skipn (Z.to_nat ((p - 1) * k)) r).
Proof.
  intros Hk Hp. unfold page.
  replace ((p - 1) * k) with (Z.of_nat (Z.to_nat ((p - 1) * k))) at 1 2 by nia.
  replace (Z.of_nat (Z.to_nat ((p - 1) * k)) + k)
    with (Z.of_nat (Z.to_nat ((p - 1) * k) + Z.to_nat k)) by nia.
  rewrite slice_nonneg. f_equal. lia.
Qed.

(** Row [i] of page [p] is record [(p - 1) * itemsPerPage + i] of the
    data, for every row index below the page size; there is no such row
    exactly when the data has no such record. *)
Theorem page_row_is_record {A : Type} (r : list A) (p k i : Z) :
  0 < k -> 1 <= p -> 0 <= i < k ->
  nth_error (page r p k) (Z.to_nat i)
  = nth_error r (Z.to_nat ((p - 1) * k + i)).
Proof.
  intros Hk Hp Hi. rewrite page_as_firstn by assumption.
  rewrite nth_error_firstn.
  destruct (Nat.ltb_spec (Z.to_nat i) (Z.to_nat k)) as [_|?]; [|lia].
  rewrite nth_error_skipn. f_equal. nia.
Qed.

Lemma page_row_is_record_witness :
  0 < 2 /\ 1 <= 2 /\ 0 <= 1 < 2
  /\ nth_error (page [10; 20; 30; 40; 50] 2 2) (Z.to_nat 1)
     = nth_error [10; 20; 30; 40; 50] (Z.to_nat ((2 - 1) * 2 + 1)).
Proof.
  split; [lia|split; [lia|split; [lia|]]].
  apply (page_row_is_record [10; 20; 30; 40; 50] 2 2 1); lia.
Defined.

(** A page holds [itemsPerPage] records while that many are left and the
    rest otherwise; so the pages up to [totalPages] are not empty and
    every page after [totalPages] is empty, without any error. *)
Theorem page_length {A : Type} (r : list A) (p k : Z) :
  0 < k -> 1 <= p ->
  Z.of_nat (List.length (page r p k))
  = Z.max 0 (Z.min k (Z.of_nat (List.length r) - (p - 1) * k))
  /\ (page r p k = [] <-> totalPagesOf r k < p).
Proof.
  intros Hk Hp.
  assert (Hlen : Z.of_nat (List.length (page r p k))
                 = Z.max 0 (Z.min k (Z.of_nat (List.length r) - (p - 1) * k))).
  { rewrite page_as_firstn by assumption.
    rewrite length_firstn, length_skipn. nia. }
  split; [exact Hlen|].
  pose proof (ceilDiv_covers (Z.of_nat (List.length r)) k Hk ltac:(lia)) as Hc.
  assert (Hlow : (ceilDiv (Z.of_nat (List.length r)) k - 1) * k
                 < Z.of_nat (List.length r) \/ List.length r = 0%nat).
  { unfold ceilDiv.
    pose proof (Z.div_mod (- Z.of_nat (List.length r)) k ltac:(lia)).
    pose proof (Z.mod_pos_bound (- Z.of_nat (List.length r)) k Hk).
    destruct (List.length r); [now right|left]. nia. }
  unfold totalPagesOf. split.
  - intros E. rewrite E in Hlen. cbn in Hlen.
    destruct Hlow as [Hlow|Hz]; [nia|].
    rewrite Hz. change (Z.of_nat 0) with 0. unfold ceilDiv.
    rewrite Z.opp_0, Z.div_0_l by lia. lia.
  - intros Hbeyond. apply length_zero_iff_nil. nia.
Qed.

Lemma page_length_witness :
  0 < 25 /\ 1 <= 2
  /\ Z.of_nat (List.length (page (repeat acme 40) 2 25))
     = Z.max 0 (Z.min 25 (Z.of_nat (List.length (repeat acme 40)) - (2 - 1) * 25)).
Proof.
  split; [lia|split; [lia|]].
  apply (proj1 (page_length (repeat acme 40) 2 25 ltac:(lia) ltac:(lia))).
Defined.

(** ** Selection *)

(** Two clicks on the check box of a row leave the selection as it was. *)
Theorem toggleRowSelection_twice (id : string) (c : Component.t) :
  toggleRowSelection id (toggleRowSelection id c) = c.
Proof.
  destruct c as [ld er sb sel sc fl pg cs].
  unfold toggleRowSelection, setSelectedRows. cbn. f_equal.
  destruct (decide (id ∈ sel)) as [Hin|Hout].
  - rewrite (bool_decide_eq_true_2 _ Hin).
    rewrite bool_decide_eq_false_2
      by (rewrite elem_of_difference, elem_of_singleton; tauto).
    apply set_eq. intros x. rewrite elem_of_union, elem_of_difference.
    rewrite elem_of_singleton. destruct (decide (x = id)) as [->|Hx]; tauto.
  - rewrite (bool_decide_eq_false_2 _ Hout).
    rewrite bool_decide_eq_true_2
      by (rewrite elem_of_union, elem_of_singleton; tauto).
    apply set_eq. intros x. rewrite elem_of_difference, elem_of_union.
    rewrite elem_of_singleton. destruct (decide (x = id)) as [->|Hx]; tauto.
Qed.

(** The header check box acts on the current page only. The ids of the
    records on other pages, or filtered out, keep their membership. When
    every visible record is selected (which includes an empty page) the
    click unselects the visible ones, otherwise it selects them all.
    Filters, sort configuration and pagination are not touched. *)
Theorem toggleSelectAll_acts_on_page (p : Props.t) (c : Component.t) :
  let visible := map Manufacturer.id (paginatedData p c) in
  let before := Component.selectedRows c in
  let after := Component.selectedRows (toggleSelectAll p c) in
  (forall id, ~ In id visible -> (id ∈ after <-> id ∈ before))
  /\ ((forall id, In id visible -> id ∈ before) ->
      forall id, In id visible -> id ∉ after)
  /\ (~ (forall id, In id visible -> id ∈ before) ->
      forall id, In id visible -> id ∈ after)
  /\ Component.filters (toggleSelectAll p c) = Component.filters c
  /\ Component.sortConfig (toggleSelectAll p c) = Component.sortConfig c
  /\ Component.pagination (toggleSelectAll p c) = Component.pagination c.
Proof.
  cbn zeta. unfold toggleSelectAll.
  set (visible := map Manufacturer.id (paginatedData p c)).
  assert (Hall : forallb (fun id => bool_decide (id ∈ Component.selectedRows c))
                   visible = true
                 <-> forall id, In id visible -> id ∈ Component.selectedRows c).
  { rewrite forallb_forall. split; intros H id Hin.
    - specialize (H id Hin). now apply bool_decide_eq_true in H.
    - apply bool_decide_eq_true. now apply H. }
  destruct (forallb _ visible) eqn:E; cbn.
  - repeat split; try reflexivity.
    + rewrite elem_of_difference, elem_of_list_to_set, list_elem_of_In. tauto.
    + rewrite elem_of_difference, elem_of_list_to_set, list_elem_of_In. tauto.
    + intros _ id Hin. rewrite elem_of_difference, elem_of_list_to_set,
        list_elem_of_In. tauto.
    + intros Hnot. destruct Hnot. now apply Hall.
  - repeat split; try reflexivity.
    + rewrite elem_of_union, elem_of_list_to_set, list_elem_of_In. tauto.
    + rewrite elem_of_union. tauto.
    + intros Hyes. apply Hall in Hyes. discriminate.
    + intros _ id Hin. rewrite elem_of_union, elem_of_list_to_set,
        list_elem_of_In. tauto.
Qed.

Lemma toggleSelectAll_acts_on_page_witness :
  ~ In "factory-404" (map Manufacturer.id
                        (paginatedData loadedStore
                           (render loadedStore initialComponent)))
  /\ ("factory-404"
        ∈ Component.selectedRows
            (toggleSelectAll loadedStore (render loadedStore initialComponent))
      <-> "factory-404"
            ∈ Component.selectedRows (render loadedStore initialComponent)).
Proof.
  assert (H : ~ In "factory-404"
                (map Manufacturer.id
                   (paginatedData loadedStore
                      (render loadedStore initialComponent)))).
  { vm_compute. intros [E|[E|[]]]; discriminate E. }
  split; [exact H|].
  exact (proj1 (toggleSelectAll_acts_on_page loadedStore
                  (render loadedStore initialComponent)) "factory-404" H).
Defined.

(** ** Sorting by a click on a column header *)

(** A click on a column header sorts by that column. The first click on a
    column sorts ascending; a further click on the same column flips the
    direction. The click changes nothing else: the page number is not
    reset, and filters and selection stay. *)
Theorem handleSort_cycles (k : SortKey) (c : Component.t) :
  SortConfig.key (Component.sortConfig (handleSort k c)) = Some k
  /\ (SortConfig.key (Component.sortConfig c) <> Some k ->
      SortConfig.direction (Component.sortConfig (handleSort k c)) = asc)
  /\ SortConfig.direction (Component.sortConfig (handleSort k (handleSort k c)))
     = flipDirection
         (SortConfig.direction (Component.sortConfig (handleSort k c)))
  /\ Component.pagination (handleSort k c) = Component.pagination c
  /\ Component.filters (handleSort k c) = Component.filters c
  /\ Component.selectedRows (handleSort k c) = Component.selectedRows c.
Proof.
  assert (Hrefl : sortKeyEqb k k = true) by now destruct k.
  assert (Heq : forall k', sortKeyEqb k' k = true -> k' = k)
    by (intros k'; destruct k', k; (reflexivity || discriminate)).
  destruct c as [ld er sb sel [key dir] fl pg cs]. cbn.
  split; [reflexivity|split; [|split; [|repeat split]]].
  - intros Hne. destruct key as [k'|], dir; try reflexivity.
    pose proof (Heq k') as Hk'.
    destruct (sortKeyEqb k' k).
    + destruct Hne. f_equal. now apply Hk'.
    + reflexivity.
  - destruct key as [k'|], dir; try (now rewrite ?Hrefl).
Qed.

Lemma handleSort_cycles_witness :
  SortConfig.key (Component.sortConfig initialComponent) <> Some by_rating
  /\ SortConfig.direction
       (Component.sortConfig (handleSort by_rating initialComponent)) = asc.
Proof.
  split; [discriminate|].
  apply (proj1 (proj2 (handleSort_cycles by_rating initialComponent))).
  discriminate.
Defined.

(** ** Pagination over the states the component reaches *)

(** In every state the mounted component reaches, the page number is at
    least 1, the page size is one of the four options of the select, and
    the stored totals are those of the data shown. (The upper bound of
    the page number is another matter: see the next-page button.) *)
Theorem reachable_pagination_facts (p : Props.t) (c : Component.t) :
  reachable p c ->
  1 <= currentPageOf c
  /\ In (PaginationConfig.itemsPerPage (Component.pagination c)) [10; 25; 50; 100]
  /\ PaginationConfig.totalItems (Component.pagination c)
     = Z.of_nat (List.length (tableData p c))
  /\ totalPagesIn c
     = ceilDiv (PaginationConfig.totalItems (Component.pagination c))
         (PaginationConfig.itemsPerPage (Component.pagination c)).
Proof.
  intros Hr.
  pose proof (reachable_settled p c Hr) as (Hi & Ht & _).
  assert (Hfacts : 1 <= currentPageOf c
    /\ In (PaginationConfig.itemsPerPage (Component.pagination c))
         [10; 25; 50; 100]).
  { clear Hi Ht. induction Hr as [|a c Hc [IH1 IH2] Ho].
    - cbn. split; [lia|tauto].
    - unfold currentPageOf in *.
      destruct a; cbn in Ho |- *; try (split; [lia|exact IH2]).
      split; [lia|].
      repeat (apply orb_prop in Ho as [Ho|Ho]); apply Z.eqb_eq in Ho;
        subst; tauto. }
  destruct Hfacts as [H1 H2].
  split; [exact H1|split; [exact H2|split; [exact Hi|]]].
  unfold totalPagesIn. rewrite Ht, Hi. reflexivity.
Qed.

Lemma reachable_pagination_facts_witness :
  reachable loadedStore afterNextOnNoMatch
  /\ 1 <= currentPageOf afterNextOnNoMatch.
Proof.
  assert (H : reachable loadedStore afterNextOnNoMatch).
  { repeat (apply reach_action; [|reflexivity]). apply reach_mount. }
  split; [exact H|].
  exact (proj1 (reachable_pagination_facts loadedStore afterNextOnNoMatch H)).
Defined.

Lemma pageInvariant_preserved_witness :
  settled loadedStore (render loadedStore initialComponent)
  /\ pageInvariant (render loadedStore initialComponent)
  /\ offered (ChangeItemsPerPage 10) (render loadedStore initialComponent) = true
  /\ pageInvariant
       (render loadedStore
          (handle (ChangeItemsPerPage 10) (render loadedStore initialComponent))).
Proof.
  assert (Hs : settled loadedStore (render loadedStore initialComponent))
    by (apply reachable_settled, reach_mount).
  assert (Hi : pageInvariant (render loadedStore initialComponent))
    by (repeat split; vm_compute; congruence).
  split; [exact Hs|split; [exact Hi|split; [reflexivity|]]].
  apply (pageInvariant_preserved loadedStore (ChangeItemsPerPage 10)
           (render loadedStore initialComponent) Hs Hi eq_refl).
  discriminate.
Defined.

(** ** Export of a selection *)

Lemma parse_generateCSV (numberToString : number -> string)
  (data : list Manufacturer.t) :
  Csv.parse (generateCSV numberToString data)
  = headers :: map (fieldsOf numberToString) data.
Proof.
  change (generateCSV numberToString data)
    with (serialize (headers :: map (fieldsOf numberToString) data)).
  apply parse_serialize; [discriminate|].
  constructor; [discriminate|].
  apply List.Forall_forall. intros row Hrow.
  apply in_map_iff in Hrow as (m & <- & _). discriminate.
Qed.

(** With a selection that is not empty, [exportData] downloads one file,
    [manufacturer-data.csv], whose rows are the header and the records of
    the store whose id is selected, in store order, whatever the filters,
    the sort and the page show; selected ids that are in the store no
    longer are skipped, and the toast counts the exported records. The
    component is left as it was, not loading. When the download throws,
    the error message is set instead and nothing is downloaded. *)
Theorem export_downloads_selected_records (numberToString : number -> string)
  (manufacturers : list Manufacturer.t) (c : Component.t) :
  Component.selectedRows c <> ∅ ->
  let selectedData :=
    List.filter
      (fun m => bool_decide (Manufacturer.id m ∈ Component.selectedRows c))
      manufacturers in
  (exists csv,
     exportData numberToString false manufacturers c
     = (setLoadingError false (Component.error c) c,
        [ Download csv "manufacturer-data.csv";
          ToastSuccess
            (String.append "Exported "
               (String.append
                  (JSString.ofZ (Z.of_nat (List.length selectedData)))
                  " manufacturers")) ])
     /\ Csv.parse csv = headers :: map (fieldsOf numberToString) selectedData)
  /\ exportData numberToString true manufacturers c
     = (setLoadingError false (Some "Export failed. Please try again.") c,
        [ToastError "Failed to export data"]).
Proof.
  intros Hne. cbn zeta. unfold exportData.
  assert (Hsize : (size (Component.selectedRows c) =? 0)%nat = false).
  { apply Nat.eqb_neq. intros Hz. apply Hne.
    apply leibniz_equiv. now apply size_empty_iff. }
  rewrite Hsize. split; [|reflexivity].
  eexists. split; [reflexivity|]. apply parse_generateCSV.
Qed.

Lemma export_downloads_selected_records_witness :
  Component.selectedRows (toggleRowSelection "factory-002" initialComponent) <> ∅
  /\ exists csv,
       exportData decimalText false [acme; bolt]
         (toggleRowSelection "factory-002" initialComponent)
       = (setLoadingError false None
            (toggleRowSelection "factory-002" initialComponent),
          [ Download csv "manufacturer-data.csv";
            ToastSuccess "Exported 1 manufacturers" ])
       /\ Csv.parse csv = [headers; fieldsOf decimalText bolt].
Proof.
  assert (H : Component.selectedRows
                (toggleRowSelection "factory-002" initialComponent) <> ∅).
  { intros E. apply (f_equal size) in E. vm_compute in E. discriminate E. }
  split; [exact H|].
  exact (proj1 (export_downloads_selected_records decimalText [acme; bolt]
                  (toggleRowSelection "factory-002" initialComponent) H)).
Defined.

(** * Further properties of the authentication store *)

(** ** Login and the log *)

Ltac run_store :=
  cbn -[validateEmailFormat checkAccountLockout checkEmailExists
        checkDeletedAccount lockedMessage similarTo deletedCredentialsDetails
        JSString.ofZ JSString.toLowerCase String.append String.length
        Nat.ltb lockoutMetadata].

Lemma checkAccountLockout_setLoading (env : Env.t) (email : string)
  (b : bool) (s : AuthState.t) :
  checkAccountLockout env email (setLoading b s)
  = checkAccountLockout env email s.
Proof. reflexivity. Qed.

Lemma login_cases (env : Env.t) (s : AuthState.t) (email password : string) :
  let s' := stateAfter (login env email password) s in
  let result := outcome (login env email password) s in
  AuthState.isLoading s' = false
  /\ AuthState.registeredEmails s' = AuthState.registeredEmails s
  /\ (validateEmailFormat email = false ->
      result = Throw (Error "Please enter a valid email address.")
      /\ AuthState.authenticationLogs s' = AuthState.authenticationLogs s
      /\ AuthState.user s' = AuthState.user s
      /\ AuthState.isAuthenticated s' = AuthState.isAuthenticated s)
  /\ (validateEmailFormat email = true ->
      exists entry,
        AuthState.authenticationLogs s'
          = AuthState.authenticationLogs s ++ [entry]
        /\ AuthenticationLog.email entry = email
        /\ AuthenticationLog.timestamp entry = Env.now env
        /\ ((result = Normal tt
             /\ AuthenticationLog.action entry = login_success
             /\ AuthState.user s' = Some (mockUser env email)
             /\ AuthState.isAuthenticated s' = true
             /\ (6 <= String.length password)%nat
             /\ LockoutStatus.isLocked (checkAccountLockout env email s) = false
             /\ checkEmailExists email s = true
             /\ checkDeletedAccount email None s = None)
            \/ ((exists message, result = Throw (Error message))
                /\ AuthenticationLog.action entry = login_failed
                /\ AuthState.user s' = AuthState.user s
                /\ AuthState.isAuthenticated s' = AuthState.isAuthenticated s))).
Proof.
  cbn zeta. unfold outcome, stateAfter, login.
  destruct (validateEmailFormat email) eqn:Hfmt.
  2:{ run_store.
      repeat split; try discriminate; reflexivity. }
  run_store.
  rewrite checkAccountLockout_setLoading.
  destruct (checkAccountLockout env email s) as [[|] remaining] eqn:Hlock.
  { run_store. repeat split; try discriminate. intros _.
    eexists. split; [reflexivity|]. repeat split. right. repeat split. eauto. }
  run_store.
  change (checkEmailExists email (setLoading true s))
    with (checkEmailExists email s).
  destruct (checkEmailExists email s) eqn:Hex.
  2:{ run_store. repeat split; try discriminate. intros _.
      eexists. split; [reflexivity|]. repeat split. right. repeat split. eauto. }
  run_store.
  change (checkDeletedAccount email None (setLoading true s))
    with (checkDeletedAccount email None s).
  destruct (checkDeletedAccount email None s) as [d|] eqn:Hdel.
  { run_store. repeat split; try discriminate. intros _.
    eexists. split; [reflexivity|]. repeat split. right. repeat split. eauto. }
  run_store.
  destruct (String.length password <? 6)%nat eqn:Hpw.
  { run_store. repeat split; try discriminate. intros _.
    eexists. split; [reflexivity|]. repeat split. right. repeat split. eauto. }
  run_store. repeat split; try discriminate. intros _.
  eexists. split; [reflexivity|]. repeat split. left. repeat split.
  now apply Nat.ltb_ge.
Qed.

(** Every call of [login] with an email of the accepted format writes
    exactly one entry to the log, for that email and stamped with the
    time of the call. When the call returns the entry is [login_success]
    and the session holds the user; this happens only for an email that
    is registered, not locked and not of a deleted account, with a
    password of six characters at least. When the call throws the entry
    is [login_failed], and user and [isAuthenticated] are as before. A
    call with an email of a refused format throws without writing to the
    log. Either way the registered emails are not touched and
    [isLoading] ends [false]. *)
Theorem login_writes_one_log_entry (env : Env.t) (s : AuthState.t)
  (email password : string) :
  let s' := stateAfter (login env email password) s in
  let result := outcome (login env email password) s in
  AuthState.isLoading s' = false
  /\ AuthState.registeredEmails s' = AuthState.registeredEmails s
  /\ (validateEmailFormat email = false ->
      result = Throw (Error "Please enter a valid email address.")
      /\ AuthState.authenticationLogs s' = AuthState.authenticationLogs s
      /\ AuthState.user s' = AuthState.user s
      /\ AuthState.isAuthenticated s' = AuthState.isAuthenticated s)
  /\ (validateEmailFormat email = true ->
      exists entry,
        AuthState.authenticationLogs s'
          = AuthState.authenticationLogs s ++ [entry]
        /\ AuthenticationLog.email entry = email
        /\ AuthenticationLog.timestamp entry = Env.now env
        /\ ((result = Normal tt
             /\ AuthenticationLog.action entry = login_success
             /\ AuthState.user s' = Some (mockUser env email)
             /\ AuthState.isAuthenticated s' = true
             /\ (6 <= String.length password)%nat
             /\ LockoutStatus.isLocked (checkAccountLockout env email s) = false
             /\ checkEmailExists email s = true
             /\ checkDeletedAccount email None s = None)
            \/ ((exists message, result = Throw (Error message))
                /\ AuthenticationLog.action entry = login_failed
                /\ AuthState.user s' = AuthState.user s
                /\ AuthState.isAuthenticated s' = AuthState.isAuthenticated s))).
Proof. apply login_cases. Qed.

Lemma login_writes_one_log_entry_witness :
  validateEmailFormat "john.doe@example.com" = true
  /\ exists entry,
       AuthState.authenticationLogs
         (stateAfter (login (envAt 1700000000000) "john.doe@example.com" "abc")
            initialAuthState)
       = AuthState.authenticationLogs initialAuthState ++ [entry]
       /\ AuthenticationLog.email entry = "john.doe@example.com".
Proof.
  split; [reflexivity|].
  destruct (proj2 (proj2 (proj2
              (login_writes_one_log_entry (envAt 1700000000000)
                 initialAuthState "john.doe@example.com" "abc"))) eq_refl)
    as (entry & Hlog & Hemail & _).
  exists entry. split; [exact Hlog|exact Hemail].
Defined.

(** ** Lockout *)







(** ** Registration *)

Lemma register_cases (env : Env.t) (s : AuthState.t) (userData : UserData.t) :
  let email := UserData.email userData in
  let phone := UserData.phone userData in
  let s' := stateAfter (register env userData) s in
  let result := outcome (register env userData) s in
  AuthState.isLoading s' = false
  /\ (validateEmailFormat email = false ->
      result = Throw (Error "Please enter a valid email address.")
      /\ s' = setLoading false s)
  /\ (validateEmailFormat email = true ->
      checkEmailExists email s = true ->
      result = Throw (Error "An account with this email address already exists. Please use a different email or try logging in.")
      /\ sameAccounts s s'
      /\ AuthState.registrationAttempts s' = AuthState.registrationAttempts s
      /\ AuthState.deletedAccounts s' = AuthState.deletedAccounts s)
  /\ (validateEmailFormat email = true ->
      checkEmailExists email s = false ->
      forall d, checkDeletedAccount email phone s = Some d ->
      result = Throw (Error "This email address or phone number is associated with a permanently deleted account and cannot be used for registration. Please use different credentials or contact support.")
      /\ sameAccounts s s'
      /\ exists attempt,
           AuthState.registrationAttempts s'
           = AuthState.registrationAttempts s ++ [attempt]
           /\ RegistrationAttempt.blocked attempt = true
           /\ RegistrationAttempt.deletedAccountId attempt
              = Some (DeletedAccount.id d))
  /\ (validateEmailFormat email = true ->
      checkEmailExists email s = false ->
      checkDeletedAccount email phone s = None ->
      forall d,
      List.find (similarTo userData) (AuthState.deletedAccounts s) = Some d ->
      result = Throw (Error "Registration blocked due to security policies. Please contact support for assistance.")
      /\ sameAccounts s s'
      /\ exists attempt,
           AuthState.registrationAttempts s'
           = AuthState.registrationAttempts s ++ [attempt]
           /\ RegistrationAttempt.blocked attempt = true
           /\ RegistrationAttempt.deletedAccountId attempt
              = Some (DeletedAccount.id d))
  /\ (validateEmailFormat email = true ->
      checkEmailExists email s = false ->
      checkDeletedAccount email phone s = None ->
      List.find (similarTo userData) (AuthState.deletedAccounts s) = None ->
      result = Normal tt
      /\ AuthState.registeredEmails s'
         = AuthState.registeredEmails s ++ [JSString.toLowerCase email]
      /\ AuthState.user s' = Some (newUser env userData)
      /\ AuthState.isAuthenticated s' = true
      /\ AuthState.deletedAccounts s' = AuthState.deletedAccounts s
      /\ (exists verification,
            AuthState.emailVerifications s'
            = AuthState.emailVerifications s ++ [verification]
            /\ EmailVerification.email verification = email
            /\ EmailVerification.token verification = Env.token env
            /\ EmailVerification.verified verification = false
            /\ EmailVerification.expiresAt verification
               = Env.now env + 24 * 60 * 60 * 1000)
      /\ (exists attempt,
            AuthState.registrationAttempts s'
            = AuthState.registrationAttempts s ++ [attempt]
            /\ RegistrationAttempt.blocked attempt = false)
      /\ (exists entry,
            AuthState.authenticationLogs s'
            = AuthState.authenticationLogs s ++ [entry]
            /\ AuthenticationLog.action entry = registration_attempt
            /\ AuthenticationLog.success entry = true)).
Proof.
  cbn zeta. unfold outcome, stateAfter, register, sameAccounts.
  destruct (validateEmailFormat (UserData.email userData)) eqn:Hfmt.
  2:{ run_store. repeat split; discriminate. }
  run_store.
  change (checkEmailExists (UserData.email userData) (setLoading true s))
    with (checkEmailExists (UserData.email userData) s).
  destruct (checkEmailExists (UserData.email userData) s) eqn:Hex.
  { run_store. repeat split; discriminate. }
  run_store.
  change (checkDeletedAccount (UserData.email userData)
            (UserData.phone userData) (setLoading true s))
    with (checkDeletedAccount (UserData.email userData)
            (UserData.phone userData) s).
  destruct (checkDeletedAccount (UserData.email userData)
              (UserData.phone userData) s) as [d|] eqn:Hdel.
  { run_store. repeat split; try discriminate.
    match goal with H : Some _ = Some _ |- _ => injection H as <- end.
    eexists. split; [reflexivity|]. split; reflexivity. }
  run_store.
  destruct (List.find (similarTo userData) (AuthState.deletedAccounts s))
    as [d|] eqn:Hsim.
  { run_store. repeat split; try discriminate.
    match goal with H : Some _ = Some _ |- _ => injection H as <- end.
    eexists. split; [reflexivity|]. split; reflexivity. }
  run_store. repeat split; try discriminate.
  - eexists. split; [reflexivity|]. repeat split.
  - eexists. split; [reflexivity|]. reflexivity.
  - eexists. split; [reflexivity|]. split; reflexivity.
Qed.

Lemma registrable_true (userData : UserData.t) (s : AuthState.t) :
  registrable userData s = true <->
  validateEmailFormat (UserData.email userData) = true
  /\ checkEmailExists (UserData.email userData) s = false
  /\ checkDeletedAccount (UserData.email userData) (UserData.phone userData) s
     = None
  /\ List.find (similarTo userData) (AuthState.deletedAccounts s) = None.
Proof.
  unfold registrable.
  destruct (validateEmailFormat _), (checkEmailExists _ s),
    (checkDeletedAccount _ _ s), (List.find _ _); cbn; intuition congruence.
Qed.

Lemma register_rejected (env : Env.t) (s : AuthState.t)
  (userData : UserData.t) :
  registrable userData s = false ->
  (exists message, outcome (register env userData) s = Throw (Error message))
  /\ sameAccounts s (stateAfter (register env userData) s).
Proof.
  intros Hno.
  destruct (register_cases env s userData)
    as (_ & Hbad & Htaken & Hdeleted & Hsimilar & _).
  cbn zeta in *. unfold registrable in Hno.
  destruct (validateEmailFormat (UserData.email userData)).
  2:{ destruct (Hbad eq_refl) as [-> ->]. split; [eauto|]. now repeat split. }
  destruct (checkEmailExists (UserData.email userData) s).
  { destruct (Htaken eq_refl eq_refl) as (-> & Hsame & _). eauto. }
  destruct (checkDeletedAccount _ _ s) as [d|].
  { destruct (Hdeleted eq_refl eq_refl d eq_refl) as (-> & Hsame & _). eauto. }
  destruct (List.find _ _) as [d|]; [|discriminate].
  destruct (Hsimilar eq_refl eq_refl eq_refl d eq_refl) as (-> & Hsame & _).
  eauto.
Qed.

(** [register] returns exactly when the request passes its four checks
    in [s]: the email has the accepted format, is not registered, no
    deleted account has the email or the non-empty phone, and no deleted
    account has the same names with the same phone or email. It then
    appends the lower-cased email to the registered emails, opens a
    session for the new user, queues one pending verification for the
    email with the token drawn and 24 hours to run, records one
    registration attempt that is not blocked and one successful log
    entry, and leaves the deleted accounts as they were. *)
Theorem register_succeeds_iff (env : Env.t) (s : AuthState.t)
  (userData : UserData.t) :
  let email := UserData.email userData in
  let s' := stateAfter (register env userData) s in
  (outcome (register env userData) s = Normal tt
   <-> registrable userData s = true)
  /\ (registrable userData s = true ->
      AuthState.registeredEmails s'
      = AuthState.registeredEmails s ++ [JSString.toLowerCase email]
      /\ AuthState.user s' = Some (newUser env userData)
      /\ AuthState.isAuthenticated s' = true
      /\ AuthState.isLoading s' = false
      /\ AuthState.deletedAccounts s' = AuthState.deletedAccounts s
      /\ (exists verification,
            AuthState.emailVerifications s'
            = AuthState.emailVerifications s ++ [verification]
            /\ EmailVerification.email verification = email
            /\ EmailVerification.token verification = Env.token env
            /\ EmailVerification.verified verification = false
            /\ EmailVerification.expiresAt verification
               = Env.now env + 24 * 60 * 60 * 1000)
      /\ (exists attempt,
            AuthState.registrationAttempts s'
            = AuthState.registrationAttempts s ++ [attempt]
            /\ RegistrationAttempt.blocked attempt = false)
      /\ (exists entry,
            AuthState.authenticationLogs s'
            = AuthState.authenticationLogs s ++ [entry]
            /\ AuthenticationLog.action entry = registration_attempt
            /\ AuthenticationLog.success entry = true)).
Proof.
  cbn zeta.
  destruct (register_cases env s userData) as (Hload & _ & _ & _ & _ & Hok).
  cbn zeta in *. split.
  - split.
    + intros Hret. destruct (registrable userData s) eqn:Hreg; [reflexivity|].
      destruct (register_rejected env s userData Hreg) as [[message E] _].
      congruence.
    + intros (Hfmt & Hex & Hdel & Hsim)%registrable_true.
      apply (Hok Hfmt Hex Hdel Hsim).
  - intros (Hfmt & Hex & Hdel & Hsim)%registrable_true.
    destruct (Hok Hfmt Hex Hdel Hsim)
      as (_ & Hreg & Huser & Hauth & Hdeleted & Hver & Hatt & Hlog).
    repeat split; assumption.
Qed.

Lemma register_succeeds_iff_witness :
  registrable annLee initialAuthState = true
  /\ AuthState.registeredEmails
       (stateAfter (register (envAt 1700000000000) annLee) initialAuthState)
     = AuthState.registeredEmails initialAuthState
       ++ [JSString.toLowerCase (UserData.email annLee)].
Proof.
  split; [reflexivity|].
  apply (proj2 (register_succeeds_iff (envAt 1700000000000) initialAuthState
                  annLee)).
  reflexivity.
Defined.

(** A registration that is refused creates nothing: whenever the request
    fails one of the four checks, [register] throws an [Error] (never
    another exception), and the registered emails, the user, the
    [isAuthenticated] flag and the verification tokens are as before the
    call; [isLoading] is [false] again. *)
Theorem rejected_registration_creates_nothing (env : Env.t) (s : AuthState.t)
  (userData : UserData.t) :
  registrable userData s = false ->
  (exists message, outcome (register env userData) s = Throw (Error message))
  /\ sameAccounts s (stateAfter (register env userData) s)
  /\ AuthState.isLoading (stateAfter (register env userData) s) = false.
Proof.
  intros Hno. destruct (register_rejected env s userData Hno) as [Hthrow Hsame].
  split; [exact Hthrow|split; [exact Hsame|]].
  apply (register_cases env s userData).
Qed.

Lemma rejected_registration_creates_nothing_witness :
  registrable deletedEmailOnly initialAuthState = false
  /\ sameAccounts initialAuthState
       (stateAfter (register (envAt 1700000000000) deletedEmailOnly)
          initialAuthState).
Proof.
  split; [reflexivity|].
  apply (rejected_registration_creates_nothing (envAt 1700000000000)
           initialAuthState deletedEmailOnly).
  reflexivity.
Defined.

(** A registered email is taken in every letter case. After a
    registration that went through, a further request whose email has the
    accepted format and the same lower-case form is rejected as already
    registered, whatever its other fields, and the accounts stay as the
    first registration left them. *)
Theorem registered_email_is_taken (env env' : Env.t) (s : AuthState.t)
  (userData other : UserData.t) :
  let s' := stateAfter (register env userData) s in
  registrable userData s = true ->
  validateEmailFormat (UserData.email other) = true ->
  JSString.toLowerCase (UserData.email other)
  = JSString.toLowerCase (UserData.email userData) ->
  checkEmailExists (UserData.email other) s' = true
  /\ outcome (register env' other) s'
     = Throw (Error "An account with this email address already exists. Please use a different email or try logging in.")
  /\ sameAccounts s' (stateAfter (register env' other) s').
Proof.
  cbn zeta. intros (Hfmt & Hex & Hdel & Hsim)%registrable_true Hfmt' Hlower.
  destruct (register_cases env s userData) as (_ & _ & _ & _ & _ & Hok).
  destruct (Hok Hfmt Hex Hdel Hsim) as (_ & Hreg & _).
  assert (Htaken : checkEmailExists (UserData.email other)
                     (stateAfter (register env userData) s) = true).
  { unfold checkEmailExists. rewrite Hreg, strIn_app, Hlower.
    cbn. now rewrite String.eqb_refl, orb_true_r. }
  split; [exact Htaken|].
  destruct (register_cases env' (stateAfter (register env userData) s) other)
    as (_ & _ & Hdup & _).
  destruct (Hdup Hfmt' Htaken) as (Hthrow & Hsame & _).
  split; assumption.
Qed.

Lemma registered_email_is_taken_witness :
  registrable annLee initialAuthState = true
  /\ validateEmailFormat "Ann.Lee@Example.COM" = true
  /\ outcome
       (register (envAt 1700000100000)
          (UserData.mk "Ann.Lee@Example.COM" "another1" "A" "L" founder
             None None))
       (stateAfter (register (envAt 1700000000000) annLee) initialAuthState)
     = Throw (Error "An account with this email address already exists. Please use a different email or try logging in.").
Proof.
  split; [reflexivity|split; [reflexivity|]].
  apply (registered_email_is_taken (envAt 1700000000000)
           (envAt 1700000100000) initialAuthState annLee
           (UserData.mk "Ann.Lee@Example.COM" "another1" "A" "L" founder
              None None));
    reflexivity.
Defined.

(** ** What a login checks *)

Lemma admissible_true (env : Env.t) (email password : string)
  (s : AuthState.t) :
  admissible env email password s = true <->
  validateEmailFormat email = true
  /\ LockoutStatus.isLocked (checkAccountLockout env email s) = false
  /\ checkEmailExists email s = true
  /\ checkDeletedAccount email None s = None
  /\ (6 <= String.length password)%nat.
Proof.
  unfold admissible. rewrite !andb_true_iff, !negb_true_iff, Nat.leb_le.
  destruct (checkDeletedAccount email None s); cbn; intuition congruence.
Qed.

Lemma login_admitted (env : Env.t) (s : AuthState.t) (email password : string) :
  admissible env email password s = true ->
  outcome (login env email password) s = Normal tt
  /\ AuthState.user (stateAfter (login env email password) s)
     = Some (mockUser env email)
  /\ AuthState.isAuthenticated (stateAfter (login env email password) s) = true.
Proof.
  intros (Hfmt & Hlock & Hex & Hdel & Hpw)%admissible_true.
  unfold outcome, stateAfter, login. run_store. rewrite Hfmt. run_store.
  rewrite checkAccountLockout_setLoading.
  destruct (checkAccountLockout env email s) as [locked remaining].
  cbn in Hlock. subst locked. run_store.
  change (checkEmailExists email (setLoading true s))
    with (checkEmailExists email s).
  rewrite Hex. run_store.
  change (checkDeletedAccount email None (setLoading true s))
    with (checkDeletedAccount email None s).
  rewrite Hdel. run_store.
  apply Nat.ltb_ge in Hpw. rewrite Hpw. run_store. now repeat split.
Qed.

(** [login] returns exactly when the call passes its five checks: the
    email has the accepted format, is not locked out, is registered and
    is not the email of a deleted account, and the password has six
    characters or more. Nothing else about the password is looked at, so
    any two passwords of six or more characters are treated alike; and
    the session opened is that of the built-in profile with the email put
    in, not of the data the email was registered with. *)
Theorem login_succeeds_iff (env : Env.t) (s : AuthState.t)
  (email password : string) :
  (outcome (login env email password) s = Normal tt
   <-> admissible env email password s = true)
  /\ (admissible env email password s = true ->
      AuthState.user (stateAfter (login env email password) s)
      = Some (mockUser env email)
      /\ AuthState.isAuthenticated (stateAfter (login env email password) s)
         = true
      /\ forall other, (6 <= String.length other)%nat ->
           runStore (login env email other) s
           = runStore (login env email password) s).
Proof.
  split.
  - split; [|apply login_admitted].
    intros Hret. apply admissible_true.
    destruct (login_cases env s email password) as (_ & _ & Hbad & Hgood).
    cbn zeta in *.
    destruct (validateEmailFormat email) eqn:Hfmt.
    2:{ destruct (Hbad eq_refl) as [E _]. congruence. }
    destruct (Hgood eq_refl) as (entry & _ & _ & _ & [Hok|Hfail]).
    + destruct Hok as (_ & _ & _ & _ & Hpw & Hlock & Hex & Hdel).
      now repeat split.
    + destruct Hfail as [[message E] _]. congruence.
  - intros Hadm. destruct (login_admitted env s email password Hadm)
      as (_ & Huser & Hauth).
    split; [exact Huser|split; [exact Hauth|]].
    intros other Hother.
    apply admissible_true in Hadm as (Hfmt & Hlock & Hex & Hdel & Hpw).
    unfold login. run_store. rewrite Hfmt. run_store.
    rewrite checkAccountLockout_setLoading.
    destruct (checkAccountLockout env email s) as [locked remaining].
    cbn in Hlock. subst locked. run_store.
    change (checkEmailExists email (setLoading true s))
      with (checkEmailExists email s).
    rewrite Hex. run_store.
    change (checkDeletedAccount email None (setLoading true s))
      with (checkDeletedAccount email None s).
    rewrite Hdel. run_store.
    apply Nat.ltb_ge in Hpw, Hother. now rewrite Hpw, Hother.
Qed.

Lemma login_succeeds_iff_witness :
  admissible (envAt 1700000000000) "john.doe@example.com" "secret"
    initialAuthState = true
  /\ AuthState.user
       (stateAfter (login (envAt 1700000000000) "john.doe@example.com" "secret")
          initialAuthState)
     = Some (mockUser (envAt 1700000000000) "john.doe@example.com").
Proof.
  split; [reflexivity|].
  apply (proj2 (login_succeeds_iff (envAt 1700000000000) initialAuthState
                  "john.doe@example.com" "secret")).
  reflexivity.
Defined.

Lemma recentFailedAttempts_other (env : Env.t) (email : string)
  (s s' : AuthState.t) (entry : AuthenticationLog.t) :
  AuthState.authenticationLogs s' = AuthState.authenticationLogs s ++ [entry] ->
  AuthenticationLog.action entry <> login_failed ->
  recentFailedAttempts env email s' = recentFailedAttempts env email s.
Proof.
  intros Hlog Hother. unfold recentFailedAttempts.
  rewrite Hlog, recentFrom_app. cbn [recentFrom]. unfold isRecentFailure.
  destruct (AuthenticationLog.action entry); try congruence;
    cbn; rewrite ?andb_false_r; cbn; apply app_nil_r.
Qed.

Lemma unmatched_without_phone (email : string) (phone : option string)
  (s s' : AuthState.t) :
  AuthState.deletedAccounts s' = AuthState.deletedAccounts s ->
  checkDeletedAccount email phone s = None ->
  checkDeletedAccount email None s' = None.
Proof.
  unfold checkDeletedAccount. intros ->. 
  induction (AuthState.deletedAccounts s) as [|d ds IH]; [reflexivity|].
  cbn [List.find]. unfold matchesDeleted at 1 3. cbn [truthy andb].
  rewrite orb_false_r.
  destruct (String.eqb _ _); cbn [orb]; [discriminate|].
  destruct (truthy phone && strictEq (DeletedAccount.phone d) phone);
    [discriminate|exact IH].
Qed.

(** Registration followed by login. After a registration that went
    through, a login with the registered email and any password of six
    or more characters returns, provided the email was not locked out
    before; the registration itself adds no failure to the count. The
    session it opens is the built-in profile with the email put in: the
    names the account was registered with are replaced. *)
Theorem registration_then_login (env env' : Env.t) (s : AuthState.t)
  (userData : UserData.t) (password : string) :
  let email := UserData.email userData in
  let s' := stateAfter (register env userData) s in
  registrable userData s = true ->
  (6 <= String.length password)%nat ->
  LockoutStatus.isLocked (checkAccountLockout env' email s) = false ->
  outcome (login env' email password) s' = Normal tt
  /\ AuthState.user (stateAfter (login env' email password) s')
     = Some (mockUser env' email).
Proof.
  cbn zeta. intros (Hfmt & Hex & Hdel & Hsim)%registrable_true Hpw Hlock.
  destruct (register_cases env s userData) as (_ & _ & _ & _ & _ & Hok).
  destruct (Hok Hfmt Hex Hdel Hsim)
    as (_ & Hreg & _ & _ & Hdeleted & _ & _ & (entry & Hlog & Haction & _)).
  set (s' := stateAfter (register env userData) s) in *.
  assert (Hadm : admissible env' (UserData.email userData) password s' = true).
  { apply admissible_true. repeat split; try assumption.
    - unfold checkAccountLockout in *.
      rewrite (recentFailedAttempts_other env'
                 (UserData.email userData) s s' entry Hlog)
        by (rewrite Haction; discriminate).
      exact Hlock.
    - unfold checkEmailExists. rewrite Hreg, strIn_app. cbn.
      now rewrite String.eqb_refl, orb_true_r.
    - exact (unmatched_without_phone _ _ s s' Hdeleted Hdel). }
  destruct (login_admitted env' s' (UserData.email userData) password Hadm)
    as (Hret & Huser & _).
  split; assumption.
Qed.

Lemma registration_then_login_witness :
  registrable annLee initialAuthState = true
  /\ (6 <= String.length "whatever")%nat
  /\ User.firstName (newUser (envAt 1700000000000) annLee) = "Ann"
  /\ AuthState.user
       (stateAfter
          (login (envAt 1700000100000) (UserData.email annLee) "whatever")
          (stateAfter (register (envAt 1700000000000) annLee) initialAuthState))
     = Some (mockUser (envAt 1700000100000) (UserData.email annLee)).
Proof.
  split; [reflexivity|split; [cbn; lia|split; [reflexivity|]]].
  apply (registration_then_login (envAt 1700000000000) (envAt 1700000100000)
           initialAuthState annLee "whatever");
    [reflexivity|cbn; lia|reflexivity].
Defined.

(** ** Deleting an account *)

Lemma deleteAccount_cases (env : Env.t) (reason : string) (s : AuthState.t) :
  let s' := stateAfter (deleteAccount env reason) s in
  let result := outcome (deleteAccount env reason) s in
  (AuthState.user s = None ->
   result = Throw (Error "No user to delete") /\ s' = s)
  /\ (forall u, AuthState.user s = Some u ->
      result = Normal tt
      /\ AuthState.registeredEmails s'
         = List.filter
             (fun email =>
                negb (String.eqb email (JSString.toLowerCase (User.email u))))
             (AuthState.registeredEmails s)
      /\ (exists d,
            AuthState.deletedAccounts s' = AuthState.deletedAccounts s ++ [d]
            /\ DeletedAccount.email d = User.email u
            /\ DeletedAccount.phone d = User.phone u
            /\ DeletedAccount.firstName d = User.firstName u
            /\ DeletedAccount.lastName d = User.lastName u
            /\ DeletedAccount.originalUserId d = User.id u
            /\ DeletedAccount.deletionReason d = reason
            /\ DeletedAccount.dataRetentionUntil d
               = Some (Env.now env + 365 * 24 * 60 * 60 * 1000))
      /\ AuthState.user s' = Some (markDeleted env reason u)
      /\ AuthState.isAuthenticated s' = AuthState.isAuthenticated s
      /\ AuthState.isLoading s' = AuthState.isLoading s
      /\ AuthState.emailVerifications s' = AuthState.emailVerifications s
      /\ AuthState.registrationAttempts s' = AuthState.registrationAttempts s
      /\ exists entry,
           AuthState.authenticationLogs s'
           = AuthState.authenticationLogs s ++ [entry]
           /\ AuthenticationLog.action entry = login_success).
Proof.
  cbn zeta. unfold outcome, stateAfter, deleteAccount. split.
  - intros Hnone. run_store. rewrite Hnone. now split.
  - intros u Hu. run_store. rewrite Hu. run_store.
    repeat split.
    + eexists. split; [reflexivity|]. now repeat split.
    + eexists. split; reflexivity.
Qed.

Lemma deleted_email_matches (email : string) (phone : option string)
  (s : AuthState.t) (d : DeletedAccount.t) :
  In d (AuthState.deletedAccounts s) ->
  JSString.toLowerCase (DeletedAccount.email d) = JSString.toLowerCase email ->
  exists d', checkDeletedAccount email phone s = Some d'.
Proof.
  intros Hin Hlower.
  destruct (find_of_exists (matchesDeleted email phone)
              (AuthState.deletedAccounts s)) as (d' & Hfind & _).
  { exists d. split; [exact Hin|]. unfold matchesDeleted.
    now rewrite Hlower, String.eqb_refl. }
  now exists d'.
Qed.

(** Deleting the account of the session. With a user in the session
    [deleteAccount] always returns (its [catch] is never entered): the
    lower-cased email of the user is no longer a registered email, a
    record with the user's email, phone and names joins the deleted
    accounts with one year of retention, and the user is marked deleted.
    The session itself is not closed: [isAuthenticated] is as before.
    Without a user the call throws and changes nothing. *)
Theorem deleteAccount_moves_email_to_registry (env : Env.t) (reason : string)
  (s : AuthState.t) :
  let s' := stateAfter (deleteAccount env reason) s in
  (AuthState.user s = None ->
   outcome (deleteAccount env reason) s = Throw (Error "No user to delete")
   /\ s' = s)
  /\ (forall u, AuthState.user s = Some u ->
      outcome (deleteAccount env reason) s = Normal tt
      /\ checkEmailExists (User.email u) s' = false
      /\ (forall phone, exists d,
            checkDeletedAccount (User.email u) phone s' = Some d)
      /\ (forall email, checkEmailExists email s' = true ->
            checkEmailExists email s = true)
      /\ (exists d,
            AuthState.deletedAccounts s' = AuthState.deletedAccounts s ++ [d]
            /\ DeletedAccount.email d = User.email u
            /\ DeletedAccount.phone d = User.phone u
            /\ DeletedAccount.dataRetentionUntil d
               = Some (Env.now env + 365 * 24 * 60 * 60 * 1000))
      /\ option_map User.status (AuthState.user s') = Some deleted
      /\ AuthState.isAuthenticated s' = AuthState.isAuthenticated s).
Proof.
  cbn zeta. destruct (deleteAccount_cases env reason s) as [Hnone Hsome].
  cbn zeta in *. split; [exact Hnone|]. intros u Hu.
  destruct (Hsome u Hu)
    as (Hret & Hreg & (d & Hdel & Hemail & Hphone & _ & _ & _ & _ & Hkeep)
        & Huser & Hauth & _).
  split; [exact Hret|]. split; [|split; [|split; [|split; [|split]]]].
  - unfold checkEmailExists. rewrite Hreg, strIn_remove, String.eqb_refl.
    apply andb_false_r.
  - intros phone. apply (deleted_email_matches _ _ _ d).
    + rewrite Hdel. apply in_or_app. right. now left.
    + now rewrite Hemail.
  - intros email. unfold checkEmailExists. rewrite Hreg, strIn_remove.
    now intros [H _]%andb_prop.
  - exists d. now repeat split.
  - now rewrite Huser.
  - exact Hauth.
Qed.

Lemma deleteAccount_moves_email_to_registry_witness :
  AuthState.user
    (stateAfter (register (envAt 1700000000000) annLee) initialAuthState)
  = Some (newUser (envAt 1700000000000) annLee)
  /\ checkEmailExists "ann.lee@example.com"
       (stateAfter (deleteAccount (envAt 1700000100000) "moving on")
          (stateAfter (register (envAt 1700000000000) annLee)
             initialAuthState)) = false.
Proof.
  split; [reflexivity|].
  apply (proj2 (deleteAccount_moves_email_to_registry (envAt 1700000100000)
                  "moving on"
                  (stateAfter (register (envAt 1700000000000) annLee)
                     initialAuthState))
           (newUser (envAt 1700000000000) annLee)).
  reflexivity.
Defined.

(** A deleted account cannot come back. After [deleteAccount] for the
    user of the session, every login with an email that has the same
    lower-case form throws, whatever the password; and every
    registration with such an email, if the format is accepted, is
    rejected as the credentials of a deleted account, records a blocked
    attempt and creates nothing. *)
Theorem deleted_account_cannot_return (env env' : Env.t) (reason : string)
  (s : AuthState.t) (u : User.t) (email password : string)
  (userData : UserData.t) :
  let s' := stateAfter (deleteAccount env reason) s in
  AuthState.user s = Some u ->
  JSString.toLowerCase email = JSString.toLowerCase (User.email u) ->
  UserData.email userData = email ->
  (exists message, outcome (login env' email password) s'
                   = Throw (Error message))
  /\ (validateEmailFormat email = true ->
      outcome (register env' userData) s'
      = Throw (Error "This email address or phone number is associated with a permanently deleted account and cannot be used for registration. Please use different credentials or contact support.")
      /\ sameAccounts s' (stateAfter (register env' userData) s')
      /\ exists attempt,
           AuthState.registrationAttempts (stateAfter (register env' userData) s')
           = AuthState.registrationAttempts s' ++ [attempt]
           /\ RegistrationAttempt.blocked attempt = true).
Proof.
  cbn zeta. intros Hu Hlower <-.
  destruct (deleteAccount_cases env reason s) as [_ Hsome]. cbn zeta in *.
  destruct (Hsome u Hu) as (_ & Hreg & (d & Hdel & Hemail & _) & _).
  set (s' := stateAfter (deleteAccount env reason) s) in *.
  assert (Hgone : checkEmailExists (UserData.email userData) s' = false).
  { unfold checkEmailExists.
    rewrite Hreg, strIn_remove, Hlower, String.eqb_refl. apply andb_false_r. }
  split.
  - destruct (login_cases env' s' (UserData.email userData) password)
      as (_ & _ & Hbad & Hgood). cbn zeta in *.
    destruct (validateEmailFormat (UserData.email userData)) eqn:Hfmt.
    2:{ destruct (Hbad eq_refl) as [E _]. eauto. }
    destruct (Hgood eq_refl) as (entry & _ & _ & _ & [Hok|Hfail]).
    + destruct Hok as (_ & _ & _ & _ & _ & _ & Hex & _). congruence.
    + apply Hfail.
  - intros Hfmt.
    destruct (deleted_email_matches (UserData.email userData)
                (UserData.phone userData) s' d) as [d' Hfind].
    { rewrite Hdel. apply in_or_app. right. now left. }
    { now rewrite Hemail. }
    destruct (register_cases env' s' userData) as (_ & _ & _ & Hblocked & _).
    destruct (Hblocked Hfmt Hgone d' Hfind)
      as (Hthrow & Hsame & attempt & Hatt & Hflag & _).
    split; [exact Hthrow|split; [exact Hsame|]]. now exists attempt.
Qed.

Lemma deleted_account_cannot_return_witness :
  AuthState.user
    (stateAfter (register (envAt 1700000000000) annLee) initialAuthState)
  = Some (newUser (envAt 1700000000000) annLee)
  /\ validateEmailFormat "ANN.LEE@example.com" = true
  /\ outcome
       (register (envAt 1700000200000)
          (UserData.mk "ANN.LEE@example.com" "Str0ng!pass" "Anna" "Leigh"
             founder None None))
       (stateAfter (deleteAccount (envAt 1700000100000) "moving on")
          (stateAfter (register (envAt 1700000000000) annLee)
             initialAuthState))
     = Throw (Error "This email address or phone number is associated with a permanently deleted account and cannot be used for registration. Please use different credentials or contact support.").
Proof.
  split; [reflexivity|split; [reflexivity|]].
  apply (proj2 (deleted_account_cannot_return (envAt 1700000100000)
                  (envAt 1700000200000) "moving on"
                  (stateAfter (register (envAt 1700000000000) annLee)
                     initialAuthState)
                  (newUser (envAt 1700000000000) annLee)
                  "ANN.LEE@example.com" "Str0ng!pass"
                  (UserData.mk "ANN.LEE@example.com" "Str0ng!pass" "Anna"
                     "Leigh" founder None None)
                  eq_refl eq_refl eq_refl)).
  reflexivity.
Defined.

(** ** What every run of the store keeps *)

Lemma lowerChar_idempotent (c : ascii) :
  JSString.lowerChar (JSString.lowerChar c) = JSString.lowerChar c.
Proof.
  destruct c as [[] [] [] [] [] [] [] []]; vm_compute; reflexivity.
Qed.

Lemma toLowerCase_idempotent (s : string) :
  JSString.toLowerCase (JSString.toLowerCase s) = JSString.toLowerCase s.
Proof.
  induction s as [|c s IH]; [reflexivity|].
  cbn [JSString.toLowerCase]. now rewrite lowerChar_idempotent, IH.
Qed.

Lemma audit_keeps_emails (f : DeletedAccount.t -> bool)
  (entry : DeletionAuditEntry.t) (ds : list DeletedAccount.t) :
  map DeletedAccount.email
    (map (fun account => if f account then appendAudit entry account
                         else account) ds)
  = map DeletedAccount.email ds.
Proof.
  rewrite map_map. apply map_ext. intros d. now destruct (f d).
Qed.

Lemma login_keeps_emails (env : Env.t) (s : AuthState.t)
  (email password : string) :
  let s' := stateAfter (login env email password) s in
  AuthState.registeredEmails s' = AuthState.registeredEmails s
  /\ map DeletedAccount.email (AuthState.deletedAccounts s')
     = map DeletedAccount.email (AuthState.deletedAccounts s).
Proof.
  cbn zeta. unfold stateAfter, login.
  destruct (validateEmailFormat email) eqn:Hfmt; run_store; [|now split].
  rewrite checkAccountLockout_setLoading.
  destruct (checkAccountLockout env email s) as [[|] remaining];
    run_store; [now split|].
  change (checkEmailExists email (setLoading true s))
    with (checkEmailExists email s).
  destruct (checkEmailExists email s); run_store; [|now split].
  change (checkDeletedAccount email None (setLoading true s))
    with (checkDeletedAccount email None s).
  destruct (checkDeletedAccount email None s) as [d|]; run_store.
  { split; [reflexivity|apply audit_keeps_emails]. }
  destruct (String.length password <? 6)%nat; run_store; now split.
Qed.

Lemma register_keeps_deleted_emails (env : Env.t) (s : AuthState.t)
  (userData : UserData.t) :
  map DeletedAccount.email
    (AuthState.deletedAccounts (stateAfter (register env userData) s))
  = map DeletedAccount.email (AuthState.deletedAccounts s).
Proof.
  unfold stateAfter, register.
  destruct (validateEmailFormat (UserData.email userData)) eqn:Hfmt;
    run_store; [|reflexivity].
  change (checkEmailExists (UserData.email userData) (setLoading true s))
    with (checkEmailExists (UserData.email userData) s).
  destruct (checkEmailExists (UserData.email userData) s);
    run_store; [reflexivity|].
  change (checkDeletedAccount (UserData.email userData)
            (UserData.phone userData) (setLoading true s))
    with (checkDeletedAccount (UserData.email userData)
            (UserData.phone userData) s).
  destruct (checkDeletedAccount (UserData.email userData)
              (UserData.phone userData) s) as [d|]; run_store.
  { apply audit_keeps_emails. }
  destruct (List.find (similarTo userData) (AuthState.deletedAccounts s))
    as [d|]; run_store; [apply audit_keeps_emails|reflexivity].
Qed.

Lemma emailsConsistent_same (s s' : AuthState.t) :
  AuthState.registeredEmails s' = AuthState.registeredEmails s ->
  map DeletedAccount.email (AuthState.deletedAccounts s')
  = map DeletedAccount.email (AuthState.deletedAccounts s) ->
  emailsConsistent s -> emailsConsistent s'.
Proof. unfold emailsConsistent. now intros -> ->. Qed.

Lemma unmatched_emails_differ (email : string) (phone : option string)
  (s : AuthState.t) :
  checkDeletedAccount email phone s = None ->
  List.Forall
    (fun e => String.eqb (JSString.toLowerCase e) (JSString.toLowerCase email)
              = false)
    (map DeletedAccount.email (AuthState.deletedAccounts s)).
Proof.
  unfold checkDeletedAccount. intros Hnone.
  apply List.Forall_forall. intros e (d & <- & Hin)%in_map_iff.
  pose proof (find_none _ _ Hnone d Hin) as Hd. unfold matchesDeleted in Hd.
  now apply orb_false_elim in Hd as [Hd _].
Qed.

Lemma register_consistent (env : Env.t) (s : AuthState.t)
  (userData : UserData.t) :
  emailsConsistent s -> emailsConsistent (stateAfter (register env userData) s).
Proof.
  intros Hinv. destruct (registrable userData s) eqn:Hreg.
  - apply registrable_true in Hreg as (Hfmt & Hex & Hdel & Hsim).
    destruct (register_cases env s userData) as (_ & _ & _ & _ & _ & Hok).
    destruct (Hok Hfmt Hex Hdel Hsim) as (_ & Hregs & _).
    destruct Hinv as (Hnodup & Hlower & Hdeleted).
    unfold emailsConsistent.
    rewrite register_keeps_deleted_emails, Hregs. repeat split.
    + apply List.NoDup_app.
      * exact Hnodup.
      * repeat constructor. intros [].
      * intros e Hin [<-|[]]. apply strIn_iff in Hin.
        unfold checkEmailExists in Hex. congruence.
    + apply List.Forall_app. split; [exact Hlower|].
      repeat constructor. apply toLowerCase_idempotent.
    + pose proof (unmatched_emails_differ _ _ _ Hdel) as Hdiffer.
      rewrite List.Forall_forall in *. intros e He.
      rewrite strIn_app, (Hdeleted e He). cbn.
      now rewrite (Hdiffer e He).
  - destruct (register_rejected env s userData Hreg) as [_ (Hregs & _)].
    exact (emailsConsistent_same s _ Hregs
             (register_keeps_deleted_emails env s userData) Hinv).
Qed.

Lemma deleteAccount_consistent (env : Env.t) (reason : string)
  (s : AuthState.t) :
  emailsConsistent s ->
  emailsConsistent (stateAfter (deleteAccount env reason) s).
Proof.
  intros Hinv. destruct (deleteAccount_cases env reason s) as [Hnone Hsome].
  cbn zeta in *. destruct (AuthState.user s) as [u|] eqn:Hu.
  2:{ destruct (Hnone eq_refl) as [_ ->]. exact Hinv. }
  destruct (Hsome u eq_refl) as (_ & Hregs & (d & Hdel & Hemail & _) & _).
  destruct Hinv as (Hnodup & Hlower & Hdeleted).
  unfold emailsConsistent. rewrite Hregs, Hdel. repeat split.
  - now apply List.NoDup_filter.
  - rewrite List.Forall_forall in *. intros e [He _]%filter_In. now apply Hlower.
  - rewrite map_app. apply List.Forall_app. split.
    + rewrite List.Forall_forall in *. intros e He.
      now rewrite strIn_remove, (Hdeleted e He).
    + repeat constructor. cbn [map]. rewrite Hemail, strIn_remove, String.eqb_refl.
      apply andb_false_r.
Qed.

Lemma perform_consistent (env : Env.t) (c : Call) (s : AuthState.t) :
  emailsConsistent s -> emailsConsistent (perform env c s).
Proof.
  intros Hinv. destruct c; cbn [perform].
  - destruct (login_keeps_emails env s email password) as [Hregs Hdel].
    exact (emailsConsistent_same s _ Hregs Hdel Hinv).
  - now apply register_consistent.
  - unfold stateAfter, logout. run_store.
    destruct (AuthState.user s); exact Hinv.
  - unfold stateAfter, updateUser. run_store.
    destruct (AuthState.user s); exact Hinv.
  - now apply deleteAccount_consistent.
  - exact Hinv.
  - unfold stateAfter, verifyEmail. run_store.
    destruct (List.find _ _) as [v|]; [|exact Hinv].
    destruct (_ <? _); exact Hinv.
  - exact Hinv.
  - exact Hinv.
  - exact Hinv.
  - apply (emailsConsistent_same s); [reflexivity| |exact Hinv].
    apply audit_keeps_emails.
Qed.

Lemma performAll_consistent (calls : list (Env.t * Call)) (s : AuthState.t) :
  emailsConsistent s -> emailsConsistent (performAll calls s).
Proof.
  revert s. induction calls as [|[env c] calls IH]; intros s Hinv;
    [exact Hinv|].
  apply IH. now apply perform_consistent.
Qed.

Lemma initial_consistent : emailsConsistent initialAuthState.
Proof.
  unfold emailsConsistent. cbn [initialAuthState AuthState.registeredEmails
    AuthState.deletedAccounts]. repeat split.
  - unfold mockRegisteredEmails.
    repeat (constructor; [cbn; intuition discriminate|]). constructor.
  - repeat constructor.
  - repeat constructor.
Qed.

(** Whatever the callers of the store do, starting from a consistent
    state such as the initial one: the registered emails stay in lower
    case with no email twice, and no deleted account's email is
    registered. *)
Theorem registered_emails_stay_consistent (calls : list (Env.t * Call))
  (s : AuthState.t) :
  emailsConsistent s -> emailsConsistent (performAll calls s).
Proof. apply performAll_consistent. Qed.

Lemma registered_emails_stay_consistent_witness :
  emailsConsistent initialAuthState
  /\ emailsConsistent
       (performAll
          [ (envAt 1700000000000, Register annLee);
            (envAt 1700000100000, DeleteAccount "moving on");
            (envAt 1700000200000, Register annLee) ]
          initialAuthState).
Proof.
  split; [exact initial_consistent|].
  apply registered_emails_stay_consistent. exact initial_consistent.
Defined.

(** In every state the store can reach from the initial one, a
    registered email is not the email of a deleted account, so the check
    for a deleted account in [login] never fires: no login is rejected
    with the message about a permanently deleted account, and none adds
    to the audit trail of a deleted account. *)
Theorem login_never_meets_deleted_account (calls : list (Env.t * Call))
  (env : Env.t) (email password : string) :
  let s := performAll calls initialAuthState in
  (checkEmailExists email s = true -> checkDeletedAccount email None s = None)
  /\ outcome (login env email password) s
     <> Throw (Error "This account has been permanently deleted and cannot be restored. Please contact support if you believe this is an error.")
  /\ AuthState.deletedAccounts (stateAfter (login env email password) s)
     = AuthState.deletedAccounts s.
Proof.
  cbn zeta.
  pose proof (performAll_consistent calls initialAuthState initial_consistent)
    as (_ & _ & Hdeleted).
  set (s := performAll calls initialAuthState) in *.
  assert (Hdead : checkEmailExists email s = true ->
                  checkDeletedAccount email None s = None).
  { intros Hex. unfold checkDeletedAccount.
    destruct (List.find _ _) as [d|] eqn:Hfind; [|reflexivity].
    apply find_some in Hfind as [Hin Hmatch].
    unfold matchesDeleted in Hmatch. cbn [truthy andb] in Hmatch.
    rewrite orb_false_r in Hmatch. apply String.eqb_eq in Hmatch.
    rewrite List.Forall_forall in Hdeleted.
    specialize (Hdeleted (DeletedAccount.email d) (in_map _ _ _ Hin)).
    unfold checkEmailExists in Hex. congruence. }
  split; [exact Hdead|].
  unfold outcome, stateAfter, login.
  destruct (validateEmailFormat email) eqn:Hfmt; run_store;
    [|split; [discriminate|reflexivity]].
  rewrite checkAccountLockout_setLoading.
  destruct (checkAccountLockout env email s) as [[|] remaining]; run_store.
  { split; [|reflexivity]. unfold lockedMessage. intros [= ]. }
  change (checkEmailExists email (setLoading true s))
    with (checkEmailExists email s).
  destruct (checkEmailExists email s) eqn:Hex; run_store;
    [|split; [discriminate|reflexivity]].
  change (checkDeletedAccount email None (setLoading true s))
    with (checkDeletedAccount email None s).
  rewrite (Hdead eq_refl). run_store.
  destruct (String.length password <? 6)%nat; run_store;
    split; (discriminate || reflexivity).
Qed.

(** ** Email verification *)

Lemma find_app_first {A : Type} (f : A -> bool) (l l' : list A) :
  List.find f (l ++ l')
  = match List.find f l with Some x => Some x | None => List.find f l' end.
Proof.
  induction l as [|x l IH]; [reflexivity|]. cbn [app List.find].
  now destruct (f x).
Qed.

Lemma find_map_same {A : Type} (f : A -> bool) (g : A -> A) (l : list A) :
  (forall x, f (g x) = f x) ->
  List.find f (map g l) = option_map g (List.find f l).
Proof.
  intros Hsame. induction l as [|x l IH]; [reflexivity|].
  cbn [map List.find]. rewrite Hsame. now destruct (f x).
Qed.

Lemma find_none_map {A : Type} (f : A -> bool) (g : A -> A) (l : list A) :
  (forall x, f x = false -> f (g x) = false) ->
  List.find f l = None -> List.find f (map g l) = None.
Proof.
  intros Hkeep. induction l as [|x l IH]; [reflexivity|].
  cbn [map List.find]. destruct (f x) eqn:Hx; [discriminate|].
  rewrite (Hkeep x Hx). exact IH.
Qed.

Lemma verifyEmail_cases (env : Env.t) (token : string) (s : AuthState.t) :
  let pending :=
    List.find (pendingWith token) (AuthState.emailVerifications s) in
  (pending = None ->
   runStore (verifyEmail env token) s = (s, Normal false))
  /\ (forall v, pending = Some v ->
      EmailVerification.expiresAt v < Env.now env ->
      runStore (verifyEmail env token) s = (s, Normal false))
  /\ (forall v, pending = Some v ->
      Env.now env <= EmailVerification.expiresAt v ->
      runStore (verifyEmail env token) s
      = (setEmailVerifications
           (map (fun w =>
              if String.eqb (EmailVerification.id w) (EmailVerification.id v)
              then markVerified (Env.now env) w
              else w)) s,
         Normal true)).
Proof.
  cbn zeta. unfold verifyEmail. repeat split.
  - intros Hnone. run_store. now rewrite Hnone.
  - intros v Hsome Hlate. run_store. rewrite Hsome.
    apply Z.ltb_lt in Hlate. now rewrite Hlate.
  - intros v Hsome Hintime. run_store. rewrite Hsome.
    apply Z.ltb_ge in Hintime. now rewrite Hintime.
Qed.

Lemma marked_not_pending (token id : string) (now : Z)
  (v : EmailVerification.t) :
  pendingWith token v = false ->
  pendingWith token
    (if String.eqb (EmailVerification.id v) id then markVerified now v else v)
  = false.
Proof.
  intros Hv. destruct (String.eqb _ id); [|exact Hv].
  unfold pendingWith. cbn. apply andb_false_r.
Qed.

Lemma send_then_verify (env env' env'' : Env.t) (email : string)
  (s : AuthState.t) :
  let token := Env.token env in
  let s1 := stateAfter (sendEmailVerification env email) s in
  let s2 := stateAfter (verifyEmail env' token) s1 in
  List.find (pendingWith token) (AuthState.emailVerifications s) = None ->
  (outcome (verifyEmail env' token) s1 = Normal true
   <-> Env.now env' <= Env.now env + 24 * 60 * 60 * 1000)
  /\ (Env.now env + 24 * 60 * 60 * 1000 < Env.now env' ->
      runStore (verifyEmail env' token) s1 = (s1, Normal false))
  /\ (Env.now env' <= Env.now env + 24 * 60 * 60 * 1000 ->
      (exists v, last (AuthState.emailVerifications s2) = Some v
                 /\ EmailVerification.email v = email
                 /\ EmailVerification.token v = token
                 /\ EmailVerification.verified v = true
                 /\ EmailVerification.verifiedAt v = Some (Env.now env'))
      /\ runStore (verifyEmail env'' token) s2 = (s2, Normal false)).
Proof.
  cbn zeta. intros Hfresh.
  set (s1 := stateAfter (sendEmailVerification env email) s).
  set (v := {| EmailVerification.id :=
                 String.append "verify_" (JSString.ofZ (Env.now env));
               EmailVerification.email := email;
               EmailVerification.token := Env.token env;
               EmailVerification.expiresAt := Env.now env + 24 * 60 * 60 * 1000;
               EmailVerification.createdAt := Env.now env;
               EmailVerification.verified := false;
               EmailVerification.verifiedAt := None;
               EmailVerification.attempts := 0 |}).
  assert (Hs1 : AuthState.emailVerifications s1
                = AuthState.emailVerifications s ++ [v]) by reflexivity.
  assert (Hfind : List.find (pendingWith (Env.token env))
                    (AuthState.emailVerifications s1) = Some v).
  { rewrite Hs1, find_app_first, Hfresh. cbn [List.find].
    unfold pendingWith. cbn. now rewrite String.eqb_refl. }
  destruct (verifyEmail_cases env' (Env.token env) s1)
    as (_ & Hlate & Hintime). cbn zeta in *.
  specialize (Hlate v Hfind). specialize (Hintime v Hfind).
  change (EmailVerification.expiresAt v)
    with (Env.now env + 24 * 60 * 60 * 1000) in *.
  split; [|split].
  - unfold outcome. split.
    + intros Hret.
      destruct (Z.lt_ge_cases (Env.now env + 24 * 60 * 60 * 1000) (Env.now env'))
        as [Hgt|Hle]; [|exact Hle].
      rewrite (Hlate Hgt) in Hret. discriminate.
    + intros Hle. now rewrite (Hintime Hle).
  - exact Hlate.
  - intros Hle. unfold stateAfter. rewrite (Hintime Hle). cbn [fst].
    split.
    + eexists. cbn [setEmailVerifications AuthState.emailVerifications].
      rewrite Hs1, map_app. cbn [map]. rewrite last_snoc, String.eqb_refl. split; [reflexivity|]. now repeat split.
    + apply (verifyEmail_cases env'' (Env.token env)).
      cbn [setEmailVerifications AuthState.emailVerifications].
      rewrite Hs1, map_app, find_app_first.
      rewrite (find_none_map _ _ _
                 (fun w => marked_not_pending (Env.token env)
                             (EmailVerification.id v) (Env.now env') w)
                 Hfresh).
      cbn [map List.find]. rewrite String.eqb_refl.
      unfold pendingWith. cbn. now rewrite andb_false_r.
Qed.

(** A token that was sent verifies once, within a day. After
    [sendEmailVerification] draws a token that no pending verification
    already holds, [verifyEmail] with that token returns [true] exactly
    when it is called no later than 24 hours after the token was sent;
    it then marks the verification with the time of the call, and the
    token is used up: any further call with it returns [false] and
    changes nothing. *)
Theorem sent_token_verifies_once (env env' env'' : Env.t) (email : string)
  (s : AuthState.t) :
  let token := Env.token env in
  let s1 := stateAfter (sendEmailVerification env email) s in
  let s2 := stateAfter (verifyEmail env' token) s1 in
  List.find (pendingWith token) (AuthState.emailVerifications s) = None ->
  (outcome (verifyEmail env' token) s1 = Normal true
   <-> Env.now env' <= Env.now env + 24 * 60 * 60 * 1000)
  /\ (Env.now env + 24 * 60 * 60 * 1000 < Env.now env' ->
      runStore (verifyEmail env' token) s1 = (s1, Normal false))
  /\ (Env.now env' <= Env.now env + 24 * 60 * 60 * 1000 ->
      (exists v, last (AuthState.emailVerifications s2) = Some v
                 /\ EmailVerification.email v = email
                 /\ EmailVerification.token v = token
                 /\ EmailVerification.verified v = true
                 /\ EmailVerification.verifiedAt v = Some (Env.now env'))
      /\ runStore (verifyEmail env'' token) s2 = (s2, Normal false)).
Proof. apply send_then_verify. Qed.

Lemma sent_token_verifies_once_witness :
  List.find (pendingWith (Env.token (envAt 1700000000000)))
    (AuthState.emailVerifications initialAuthState) = None
  /\ runStore (verifyEmail (envAt 1700086400001) "k3j9x2q7p1")
       (stateAfter
          (sendEmailVerification (envAt 1700000000000) "ann.lee@example.com")
          initialAuthState)
     = (stateAfter
          (sendEmailVerification (envAt 1700000000000) "ann.lee@example.com")
          initialAuthState,
        Normal false).
Proof.
  split; [reflexivity|].
  apply (proj1 (proj2 (sent_token_verifies_once (envAt 1700000000000)
                         (envAt 1700086400001) (envAt 1700086400001)
                         "ann.lee@example.com" initialAuthState eq_refl))).
  reflexivity.
Defined.

(** Verifying the email does not reach the user. After a registration
    that went through, [verifyEmail] with the token of the registration
    returns [true] when called within 24 hours (the token not being held
    by an older pending verification), and yet the user of the session
    is still the one [register] made: [emailVerified] is [false] and the
    status is [pending_verification]. *)
Theorem verification_leaves_user_unverified (env env' : Env.t)
  (s : AuthState.t) (userData : UserData.t) :
  let s1 := stateAfter (register env userData) s in
  let s2 := stateAfter (verifyEmail env' (Env.token env)) s1 in
  registrable userData s = true ->
  List.find (pendingWith (Env.token env)) (AuthState.emailVerifications s)
  = None ->
  Env.now env' <= Env.now env + 24 * 60 * 60 * 1000 ->
  outcome (verifyEmail env' (Env.token env)) s1 = Normal true
  /\ AuthState.user s2 = Some (newUser env userData)
  /\ option_map User.emailVerified (AuthState.user s2) = Some false
  /\ option_map User.status (AuthState.user s2) = Some pending_verification
  /\ AuthState.registeredEmails s2 = AuthState.registeredEmails s1.
Proof.
  cbn zeta. intros (Hfmt & Hex & Hdel & Hsim)%registrable_true Hfresh Hintime.
  destruct (register_cases env s userData) as (_ & _ & _ & _ & _ & Hok).
  destruct (Hok Hfmt Hex Hdel Hsim)
    as (_ & _ & Huser & _ & _ & (v & Hver & _ & Htoken & Hpending & Hexp) & _).
  set (s1 := stateAfter (register env userData) s) in *.
  assert (Hfind : List.find (pendingWith (Env.token env))
                    (AuthState.emailVerifications s1) = Some v).
  { rewrite Hver, find_app_first, Hfresh. cbn [List.find].
    unfold pendingWith. now rewrite Htoken, Hpending, String.eqb_refl. }
  destruct (verifyEmail_cases env' (Env.token env) s1) as (_ & _ & Hgood).
  cbn zeta in Hgood. specialize (Hgood v Hfind). rewrite Hexp in Hgood.
  unfold outcome, stateAfter. rewrite (Hgood Hintime). cbn [fst snd].
  cbn [setEmailVerifications AuthState.user AuthState.registeredEmails].
  rewrite Huser. now repeat split.
Qed.

Lemma verification_leaves_user_unverified_witness :
  registrable annLee initialAuthState = true
  /\ Env.now (envAt 1700000500000)
     <= Env.now (envAt 1700000000000) + 24 * 60 * 60 * 1000
  /\ outcome (verifyEmail (envAt 1700000500000) (Env.token (envAt 1700000000000)))
       (stateAfter (register (envAt 1700000000000) annLee) initialAuthState)
     = Normal true.
Proof.
  assert (Hintime : Env.now (envAt 1700000500000)
                    <= Env.now (envAt 1700000000000) + 24 * 60 * 60 * 1000)
    by (cbn; lia).
  split; [reflexivity|split; [exact Hintime|]].
  apply (verification_leaves_user_unverified (envAt 1700000000000)
           (envAt 1700000500000) initialAuthState annLee eq_refl eq_refl
           Hintime).
Defined.

Lemma expired_pending (token : string) (now : Z) (email : string)
  (v : EmailVerification.t) :
  pendingWith token
    (if String.eqb (EmailVerification.email v) email then expireAt now v else v)
  = pendingWith token v.
Proof. now destruct (String.eqb _ email). Qed.

(** Resending invalidates the tokens sent before, from the next
    millisecond on. After [resendEmailVerification] for an email, a
    pending token of that email verifies only at a clock reading not
    later than the resend: the test is [expiresAt < now], so the old
    token is still accepted in the millisecond of the resend and refused
    at every later time. The pending tokens of other emails verify as
    before, and the token drawn by the resend, if no pending
    verification held it, verifies for the next 24 hours. *)
Theorem resend_invalidates_old_tokens (env env' : Env.t) (email token : string)
  (s : AuthState.t) (v : EmailVerification.t) :
  let s1 := stateAfter (resendEmailVerification env email) s in
  List.find (pendingWith token) (AuthState.emailVerifications s) = Some v ->
  (EmailVerification.email v = email ->
   (outcome (verifyEmail env' token) s1 = Normal true
    <-> Env.now env' <= Env.now env))
  /\ (EmailVerification.email v <> email ->
      outcome (verifyEmail env' token) s1 = outcome (verifyEmail env' token) s)
  /\ (List.find (pendingWith (Env.token env)) (AuthState.emailVerifications s)
      = None ->
      (outcome (verifyEmail env' (Env.token env)) s1 = Normal true
       <-> Env.now env' <= Env.now env + 24 * 60 * 60 * 1000)).
Proof.
  cbn zeta. intros Hfind.
  set (expire := fun w : EmailVerification.t =>
                   if String.eqb (EmailVerification.email w) email
                   then expireAt (Env.now env) w else w).
  set (s0 := setEmailVerifications (map expire) s).
  change (stateAfter (resendEmailVerification env email) s)
    with (stateAfter (sendEmailVerification env email) s0).
  assert (Hs1 : forall new,
            AuthState.emailVerifications
              (setEmailVerifications (fun vs => vs ++ [new]) s0)
            = map expire (AuthState.emailVerifications s) ++ [new])
    by reflexivity.
  assert (Hold : List.find (pendingWith token)
                   (AuthState.emailVerifications
                      (stateAfter (sendEmailVerification env email) s0))
                 = Some (expire v)).
  { unfold stateAfter, sendEmailVerification. cbn [runStore modify fst].
    rewrite Hs1, find_app_first.
    rewrite (find_map_same _ expire _ (expired_pending token (Env.now env) email)).
    now rewrite Hfind. }
  destruct (verifyEmail_cases env' token
              (stateAfter (sendEmailVerification env email) s0))
    as (_ & Hlate & Hintime). cbn zeta in *.
  specialize (Hlate _ Hold). specialize (Hintime _ Hold).
  split; [|split].
  - intros Hemail. unfold expire in Hlate, Hintime.
    apply String.eqb_eq in Hemail. rewrite Hemail in Hlate, Hintime.
    cbn [expireAt EmailVerification.expiresAt] in Hlate, Hintime.
    unfold outcome. split.
    + intros Hret.
      destruct (Z.lt_ge_cases (Env.now env) (Env.now env')) as [Hgt|Hle];
        [|exact Hle].
      rewrite (Hlate Hgt) in Hret. discriminate.
    + intros Hle. now rewrite (Hintime Hle).
  - intros Hemail. unfold expire in Hlate, Hintime.
    apply String.eqb_neq in Hemail. rewrite Hemail in Hlate, Hintime.
    destruct (verifyEmail_cases env' token s) as (_ & Hlate' & Hintime').
    cbn zeta in *. specialize (Hlate' _ Hfind). specialize (Hintime' _ Hfind).
    unfold outcome.
    destruct (Z.lt_ge_cases (EmailVerification.expiresAt v) (Env.now env'))
      as [Hgt|Hle].
    + now rewrite (Hlate Hgt), (Hlate' Hgt).
    + now rewrite (Hintime Hle), (Hintime' Hle).
  - intros Hfresh.
    apply (send_then_verify env env' env' email s0).
    apply (find_none_map _ expire); [|exact Hfresh].
    intros w Hw. unfold expire. now rewrite expired_pending.
Qed.

Lemma resend_invalidates_old_tokens_witness :
  List.find (pendingWith "k3j9x2q7p1")
    (AuthState.emailVerifications
       (stateAfter
          (sendEmailVerification (envAt 1700000000000) "ann.lee@example.com")
          initialAuthState))
  <> None
  /\ outcome (verifyEmail (envAt 1700000060000) "k3j9x2q7p1")
       (stateAfter
          (resendEmailVerification
             (Env.steady 1700000060000 "Mozilla/5.0" "z8y7")
             "ann.lee@example.com")
          (stateAfter
             (sendEmailVerification (envAt 1700000000000) "ann.lee@example.com")
             initialAuthState))
     = Normal true.
Proof.
  split; [discriminate|].
  apply (proj1 (resend_invalidates_old_tokens
                  (Env.steady 1700000060000 "Mozilla/5.0" "z8y7")
                  (envAt 1700000060000) "ann.lee@example.com" "k3j9x2q7p1"
                  (stateAfter
                     (sendEmailVerification (envAt 1700000000000)
                        "ann.lee@example.com")
                     initialAuthState)
                  _ eq_refl) eq_refl).
  cbn. lia.
Defined.

(** ** The accepted format of an email *)

Lemma splitFirst_some (sep : ascii) (s before after : string) :
  splitFirst sep s = Some (before, after) ->
  s = String.append before (String sep after).
Proof.
  revert before. induction s as [|c s IH]; intros before; [discriminate|].
  cbn [splitFirst]. destruct (Ascii.eqb_spec c sep) as [->|Hc].
  - now intros [= <- <-].
  - destruct (splitFirst sep s) as [[b a]|]; [|discriminate].
    intros [= <- <-]. now rewrite append_cons, <- (IH b).
Qed.

Lemma splitFirst_intro (p : ascii -> bool) (sep : ascii)
  (before after : string) :
  p sep = false -> allChars p before = true ->
  splitFirst sep (String.append before (String sep after))
  = Some (before, after).
Proof.
  intros Hsep. induction before as [|c before IH]; intros Hall.
  - change (String.append EmptyString (String sep after))
      with (String sep after).
    cbn [splitFirst]. now rewrite Ascii.eqb_refl.
  - cbn [allChars] in Hall. apply andb_prop in Hall as [Hc Hall].
    rewrite append_cons. cbn [splitFirst].
    destruct (Ascii.eqb_spec c sep) as [->|_]; [congruence|].
    now rewrite (IH Hall).
Qed.

Lemma splitLast_some (sep : ascii) (s before after : string) :
  splitLast sep s = Some (before, after) ->
  s = String.append before (String sep after).
Proof.
  revert before. induction s as [|c s IH]; intros before; [discriminate|].
  cbn [splitLast]. destruct (splitLast sep s) as [[b a]|].
  - intros [= <- <-]. now rewrite append_cons, <- (IH b).
  - destruct (Ascii.eqb_spec c sep) as [->|_]; [|discriminate].
    now intros [= <- <-].
Qed.

Lemma splitLast_none (p : ascii -> bool) (sep : ascii) (s : string) :
  p sep = false -> allChars p s = true -> splitLast sep s = None.
Proof.
  intros Hsep. induction s as [|c s IH]; intros Hall; [reflexivity|].
  cbn [allChars] in Hall. apply andb_prop in Hall as [Hc Hall].
  cbn [splitLast]. rewrite (IH Hall).
  destruct (Ascii.eqb_spec c sep) as [->|_]; [congruence|reflexivity].
Qed.

Lemma splitLast_intro (p : ascii -> bool) (sep : ascii)
  (before after : string) :
  p sep = false -> allChars p after = true ->
  splitLast sep (String.append before (String sep after))
  = Some (before, after).
Proof.
  intros Hsep Hall. induction before as [|c before IH].
  - change (String.append EmptyString (String sep after))
      with (String sep after).
    cbn [splitLast]. rewrite (splitLast_none p sep after Hsep Hall).
    now rewrite Ascii.eqb_refl.
  - rewrite append_cons. cbn [splitLast]. now rewrite IH.
Qed.

Lemma nonEmpty_true (s : string) : nonEmpty s = true <-> s <> EmptyString.
Proof.
  unfold nonEmpty. rewrite negb_true_iff. apply String.eqb_neq.
Qed.

(** [validateEmailFormat] accepts exactly the texts that the pattern
    describes: a non-empty local part of letters, digits and [._%+-], an
    at sign, a non-empty domain of letters, digits, dots and hyphens, a
    dot, and two or more letters, with nothing before or after. *)
Theorem validateEmailFormat_accepts_pattern (email : string) :
  validateEmailFormat email = true <->
  exists localPart domain tld,
    email = String.append localPart
              (String "@" (String.append domain (String "." tld)))
    /\ localPart <> EmptyString
    /\ allChars isLocalChar localPart = true
    /\ domain <> EmptyString
    /\ allChars isDomainChar domain = true
    /\ allChars isLetter tld = true
    /\ (2 <= String.length tld)%nat.
Proof.
  unfold validateEmailFormat. split.
  - destruct (splitFirst "@" email) as [[localPart rest]|] eqn:Hfirst;
      [|discriminate].
    intros [[Hne Hlocal]%andb_prop Hrest]%andb_prop.
    destruct (splitLast "." rest) as [[domain tld]|] eqn:Hlast;
      [|discriminate].
    apply andb_prop in Hrest as [[[Hne' Hdomain]%andb_prop Htld]%andb_prop Hlen].
    exists localPart, domain, tld.
    apply splitFirst_some in Hfirst. apply splitLast_some in Hlast.
    subst rest. repeat split; try assumption.
    + now apply nonEmpty_true.
    + now apply nonEmpty_true.
    + now apply Nat.leb_le.
  - intros (localPart & domain & tld & -> & Hne & Hlocal & Hne' & Hdomain
            & Htld & Hlen).
    rewrite (splitFirst_intro isLocalChar "@" localPart _ eq_refl Hlocal).
    rewrite (splitLast_intro isLetter "." domain tld eq_refl Htld).
    apply nonEmpty_true in Hne, Hne'. apply Nat.leb_le in Hlen.
    now rewrite Hne, Hlocal, Hne', Hdomain, Htld, Hlen.
Qed.

(** ** The count of active filters *)

Lemma activeFilterCount_zero (f : FilterState.t) :
  activeFilterCount f = 0%nat <->
  FilterState.search f = EmptyString
  /\ FilterState.capabilities f = [] /\ FilterState.materials f = []
  /\ FilterState.certifications f = [] /\ FilterState.states f = []
  /\ FilterState.employeeRange f = "all" /\ FilterState.revenueRange f = "all"
  /\ FilterState.capacityRange f = "all" /\ FilterState.ratingRange f = "all"
  /\ FilterState.diversityFlag f = None
  /\ ltb (ofInt 0) (FilterState.sustainabilityMin f) = false
  /\ FilterState.yearEstablishedRange f = "all".
Proof.
  unfold activeFilterCount, nonEmpty, eqLit.
  destruct f as [search caps mats certs states emp rev cap rating div sus year].
  cbn [FilterState.search FilterState.capabilities FilterState.materials
       FilterState.certifications FilterState.states FilterState.employeeRange
       FilterState.revenueRange FilterState.capacityRange
       FilterState.ratingRange FilterState.diversityFlag
       FilterState.sustainabilityMin FilterState.yearEstablishedRange].
  destruct (String.eqb_spec search ""), (String.eqb_spec emp "all"),
    (String.eqb_spec rev "all"), (String.eqb_spec cap "all"),
    (String.eqb_spec rating "all"), (String.eqb_spec year "all"),
    (ltb (ofInt 0) sus), div, caps, mats, certs, states;
    cbn [negb List.length]; split;
    try (intros H; exfalso; lia);
    try (intros (? & ? & ? & ? & ? & ? & ? & ? & ? & ? & ? & ?);
         exfalso; congruence);
    try (intros _; subst; reflexivity);
    try (intros _; repeat split; assumption).
Qed.

(** The count of active filters is right about the table: when it is 0
    the filter stage keeps every record of the store; and the filters
    that [clearAllFilters] sets count 0. *)
Theorem no_active_filter_shows_all (year : number) (f : FilterState.t)
  (ms : list Manufacturer.t) (c : Component.t) :
  (activeFilterCount f = 0%nat -> filtered year f ms = ms)
  /\ activeFilterCount (Component.filters (clearAllFilters c)) = 0%nat.
Proof.
  split; [|reflexivity].
  intros (Hsearch & Hcaps & Hmats & Hcerts & Hstates & Hemp & Hrev & Hcap
          & Hrating & Hdiv & Hsus & Hyear)%activeFilterCount_zero.
  unfold filtered. induction ms as [|m ms IH]; [reflexivity|].
  cbn [List.filter].
  assert (Hpass : passes year f m = true).
  { unfold passes, filterCallback, searchGuard, capabilitiesGuard,
      materialsGuard, certificationsGuard, statesGuard, employeeGuard,
      revenueGuard, capacityGuard, ratingGuard, diversityGuard,
      sustainabilityGuard, yearGuard.
    now rewrite Hsearch, Hcaps, Hmats, Hcerts, Hstates, Hemp, Hrev, Hcap,
      Hrating, Hdiv, Hsus, Hyear. }
  now rewrite Hpass, IH.
Qed.

Lemma no_active_filter_shows_all_witness :
  activeFilterCount defaultFilters = 0%nat
  /\ filtered (ofInt 2025) defaultFilters [acme; bolt] = [acme; bolt].
Proof.
  split; [reflexivity|].
  apply (proj1 (no_active_filter_shows_all (ofInt 2025) defaultFilters
                  [acme; bolt] initialComponent)).
  reflexivity.
Defined.

(** * Summaries by part of the table *)



(** The sort stage. It neither drops nor repeats a record. When no
    record that passes the filters has NaN at the sort key, it leaves the
    records in the order of the direction, so that no record is followed,
    anywhere later in the table, by one that belongs before it; and it is
    stable: the records that tie with any given record at the sort key
    come out in the order they went in, in either direction. (With NaN
    at the sort key the comparator is not consistent, and the language
    leaves the order to the engine.) *)
Theorem sort_stage_sorts_stably (year : number) (f : FilterState.t)
  (k : SortKey) (d : Direction) (manufacturers : list Manufacturer.t) :
  Permutation (filteredAndSortedData year f (sortBy k d) manufacturers)
              (filtered year f manufacturers)
  /\ (comparableAt k (filtered year f manufacturers) ->
      StronglySorted (inOrder k d)
        (filteredAndSortedData year f (sortBy k d) manufacturers)
      /\ forall reference, nanAt k reference = false ->
           List.filter (sameKey k reference)
             (filteredAndSortedData year f (sortBy k d) manufacturers)
           = List.filter (sameKey k reference) (filtered year f manufacturers)).
Proof.
  split; [apply sort_stage_keeps_records|].
  intros Hok. split; [now apply sort_stage_orders_records|].
  intros reference Href. now apply sort_stage_is_stable.
Qed.

Lemma sort_stage_sorts_stably_witness :
  comparableAt by_rating (filtered (ofInt 2025) defaultFilters [acme; bolt])
  /\ StronglySorted (inOrder by_rating asc)
       (filteredAndSortedData (ofInt 2025) defaultFilters
          (sortBy by_rating asc) [acme; bolt]).
Proof.
  assert (Hok : comparableAt by_rating
                  (filtered (ofInt 2025) defaultFilters [acme; bolt])).
  { change (filtered (ofInt 2025) defaultFilters [acme; bolt])
      with [acme; bolt].
    repeat constructor. }
  split; [exact Hok|].
  apply (proj2 (sort_stage_sorts_stably (ofInt 2025) defaultFilters
                  by_rating asc [acme; bolt]) Hok).
Defined.

(** A page of the table. For a positive page size and a page number from
    1 up: row [i] of page [p] is record [(p - 1) * itemsPerPage + i] of
    the data, for every row index below the page size; the page holds
    [itemsPerPage] records while that many are left and the rest
    otherwise; and it is empty exactly when its number is above
    [totalPages], without any error. *)
Theorem page_contents {A : Type} (r : list A) (p k : Z) :
  0 < k -> 1 <= p ->
  (forall i, 0 <= i < k ->
     nth_error (page r p k) (Z.to_nat i)
     = nth_error r (Z.to_nat ((p - 1) * k + i)))
  /\ Z.of_nat (List.length (page r p k))
     = Z.max 0 (Z.min k (Z.of_nat (List.length r) - (p - 1) * k))
  /\ (page r p k = [] <-> totalPagesOf r k < p).
Proof.
  intros Hk Hp. split.
  - intros i Hi. now apply page_row_is_record.
  - now apply page_length.
Qed.

Lemma page_contents_witness :
  0 < 2 /\ 1 <= 4
  /\ page [10; 20; 30; 40; 50] 4 2 = []
  /\ totalPagesOf [10; 20; 30; 40; 50] 2 < 4.
Proof.
  split; [lia|split; [lia|split; [reflexivity|]]].
  apply (proj2 (proj2 (page_contents [10; 20; 30; 40; 50] 4 2
                         ltac:(lia) ltac:(lia)))).
  reflexivity.
Defined.

(** The check boxes of the rows. Two clicks on the check box of a row
    leave the selection as it was. The header check box acts on the
    current page only: the ids of the records on other pages, or
    filtered out, keep their membership; when every visible record is
    selected (which includes an empty page) the click unselects the
    visible ones, otherwise it selects them all; filters, sort
    configuration and pagination are not touched. *)
Theorem selection_check_boxes (p : Props.t) (c : Component.t) (row : string) :
  toggleRowSelection row (toggleRowSelection row c) = c
  /\ (forall id, ~ In id (map Manufacturer.id (paginatedData p c)) ->
        (id ∈ Component.selectedRows (toggleSelectAll p c)
         <-> id ∈ Component.selectedRows c))
  /\ ((forall id, In id (map Manufacturer.id (paginatedData p c)) ->
         id ∈ Component.selectedRows c) ->
      forall id, In id (map Manufacturer.id (paginatedData p c)) ->
        id ∉ Component.selectedRows (toggleSelectAll p c))
  /\ (~ (forall id, In id (map Manufacturer.id (paginatedData p c)) ->
           id ∈ Component.selectedRows c) ->
      forall id, In id (map Manufacturer.id (paginatedData p c)) ->
        id ∈ Component.selectedRows (toggleSelectAll p c))
  /\ Component.filters (toggleSelectAll p c) = Component.filters c
  /\ Component.sortConfig (toggleSelectAll p c) = Component.sortConfig c
  /\ Component.pagination (toggleSelectAll p c) = Component.pagination c.
Proof.
  split; [apply toggleRowSelection_twice|].
  exact (toggleSelectAll_acts_on_page p c).
Qed.

Lemma selection_check_boxes_witness :
  ~ In "factory-404" (map Manufacturer.id
                        (paginatedData loadedStore
                           (render loadedStore initialComponent)))
  /\ ("factory-404"
        ∈ Component.selectedRows
            (toggleSelectAll loadedStore (render loadedStore initialComponent))
      <-> "factory-404"
            ∈ Component.selectedRows (render loadedStore initialComponent)).
Proof.
  assert (H : ~ In "factory-404"
                (map Manufacturer.id
                   (paginatedData loadedStore
                      (render loadedStore initialComponent)))).
  { vm_compute. intros [E|[E|[]]]; discriminate E. }
  split; [exact H|].
  exact (proj1 (proj2 (selection_check_boxes loadedStore
                         (render loadedStore initialComponent) "factory-1"))
           "factory-404" H).
Defined.
